(** * Retail dashboard: the analytics of the Reports page and the sale recorder

    A shallow embedding of [src/pages/Reports.tsx] (the [analytics] memo and
    the filters it is built on) and of [handleSubmit] in
    [src/pages/Sales.tsx], followed by the properties of the aggregation
    engine.

    Conventions of the embedding.
    - Monetary amounts, quantities and stock levels are exact rationals
      ([Q]); equality of computed amounts is [Qeq] ([==]).  Rounding and
      overflow of IEEE doubles are outside the model.
    - A division is the JavaScript one: it is total and yields [NaN] or an
      infinity on a zero divisor, so that a guard in front of it means
      something.
    - An instant is the millisecond time value of a valid [Date] ([Z]).
      Local time is UTC shifted by a fixed offset [tz] (milliseconds).
    - A JavaScript object used as a dictionary is the list of its own
      entries in enumeration order. *)

From Stdlib Require Import ZArith QArith List String Ascii Bool Lia Sorted.
From Stdlib Require Import DecimalString.
From Stdlib Require Import Qround Permutation.
Import ListNotations.

Set Implicit Arguments.

(* ------------------------------------------------------------------ *)
(** ** JavaScript numbers *)

Module JsNumber.

Inductive number : Type :=
| Fin (q : Q)
| PosInf
| NegInf
| NaN.

Definition Qlt_bool (a b : Q) : bool := negb (Qle_bool b a).

Definition neg (a : number) : number :=
  match a with
  | Fin q => Fin (- q)
  | PosInf => NegInf
  | NegInf => PosInf
  | NaN => NaN
  end.

Definition add (a b : number) : number :=
  match a, b with
  | NaN, _ | _, NaN => NaN
  | Fin x, Fin y => Fin (x + y)
  | PosInf, NegInf | NegInf, PosInf => NaN
  | PosInf, _ | _, PosInf => PosInf
  | NegInf, _ | _, NegInf => NegInf
  end.

Definition sub (a b : number) : number := add a (neg b).

(** The infinity of the sign of [q]; [NaN] for zero. *)
Definition signed_inf (positive : bool) (q : Q) : number :=
  if Qeq_bool q 0 then NaN
  else if Bool.eqb positive (Qlt_bool 0 q) then PosInf else NegInf.

Definition mul (a b : number) : number :=
  match a, b with
  | NaN, _ | _, NaN => NaN
  | Fin x, Fin y => Fin (x * y)
  | PosInf, Fin y | Fin y, PosInf => signed_inf true y
  | NegInf, Fin y | Fin y, NegInf => signed_inf false y
  | PosInf, PosInf | NegInf, NegInf => PosInf
  | PosInf, NegInf | NegInf, PosInf => NegInf
  end.

(** [a / b].  A zero divisor is taken as [+0]. *)
Definition div (a b : number) : number :=
  match a, b with
  | NaN, _ | _, NaN => NaN
  | Fin x, Fin y =>
      if Qeq_bool y 0 then signed_inf true x else Fin (x / y)
  | Fin _, PosInf | Fin _, NegInf => Fin 0
  | PosInf, Fin y => if Qlt_bool y 0 then NegInf else PosInf
  | NegInf, Fin y => if Qlt_bool y 0 then PosInf else NegInf
  | _, _ => NaN
  end.

(** [a > b]; every comparison with [NaN] is false. *)
Definition gt (a b : number) : bool :=
  match a, b with
  | NaN, _ | _, NaN => false
  | Fin x, Fin y => Qlt_bool y x
  | PosInf, PosInf => false
  | PosInf, _ => true
  | Fin _, NegInf => true
  | _, _ => false
  end.

(** Truthiness of a number: [0] and [NaN] are falsy. *)
Definition truthy (a : number) : bool :=
  match a with
  | Fin q => negb (Qeq_bool q 0)
  | NaN => false
  | _ => true
  end.

(** [a || b] on numbers. *)
Definition or_else (a b : number) : number := if truthy a then a else b.

(** [v || 0] on a finite number that may be [undefined]. *)
Definition or0 (v : option Q) : Q :=
  match v with
  | Some q => if Qeq_bool q 0 then 0 else q
  | None => 0
  end.

Definition is_finite (a : number) : bool :=
  match a with Fin _ => true | _ => false end.

(** Equality of numbers as values (rationals up to [Qeq]); [NaN] is
    related to nothing. *)
Definition num_eq (a b : number) : Prop :=
  match a, b with
  | Fin x, Fin y => x == y
  | PosInf, PosInf | NegInf, NegInf => True
  | _, _ => False
  end.

End JsNumber.
Import JsNumber.

(* ------------------------------------------------------------------ *)
(** ** The [Math] functions the pages use *)

Module JsMath.




(** [Math.round(x)]: the nearest integer, halves going up. *)
Definition round (a : number) : number :=
  match a with
  | Fin q => Fin (inject_Z (Qfloor (q + (1 # 2))))
  | _ => a
  end.

(** [Math.ceil(x)] *)
Definition ceil (a : number) : number :=
  match a with
  | Fin q => Fin (inject_Z (Qceiling q))
  | _ => a
  end.

End JsMath.
Import JsMath.

(** [array.reduce((sum, x) => sum + f(x), 0)] *)
Definition reduce_sum {A : Type} (f : A -> Q) (l : list A) : Q :=
  fold_left (fun sum x => sum + f x) l 0.

(* ------------------------------------------------------------------ *)
(** ** Dates *)

Module JsDate.

Definition msPerDay : Z := 86400000.

(** Number of the local calendar day an instant falls on (day 0 is
    1970-01-01 local time). *)
Definition localDay (tz t : Z) : Z := ((t + tz) / msPerDay)%Z.

(** [d.setHours(0, 0, 0, 0)]: local midnight of the day of [t]. *)
Definition setHours0 (tz t : Z) : Z := (localDay tz t * msPerDay - tz)%Z.

(** [d.setDate(d.getDate() - i)]: same local time of day, [i] calendar
    days earlier. *)
Definition setDateBack (t : Z) (i : Z) : Z := (t - i * msPerDay)%Z.

(** Proleptic Gregorian date [(year, month, day)] of a day number. *)
Definition civil_from_days (z0 : Z) : Z * Z * Z :=
  let z := (z0 + 719468)%Z in
  let era := (z / 146097)%Z in
  let doe := (z - era * 146097)%Z in
  let yoe := ((doe - doe / 1460 + doe / 36524 - doe / 146096) / 365)%Z in
  let doy := (doe - (365 * yoe + yoe / 4 - yoe / 100))%Z in
  let mp := ((5 * doy + 2) / 153)%Z in
  let d := (doy - (153 * mp + 2) / 5 + 1)%Z in
  let m := (if mp <? 10 then mp + 3 else mp - 9)%Z in
  let y := (yoe + era * 400 + (if m <=? 2 then 1 else 0))%Z in
  (y, m, d).

Definition monthShort (m : Z) : string :=
  nth (Z.to_nat (m - 1))
      ["Jan"; "Feb"; "Mar"; "Apr"; "May"; "Jun";
       "Jul"; "Aug"; "Sep"; "Oct"; "Nov"; "Dec"]%string ""%string.

Definition show_Z (z : Z) : string := NilZero.string_of_int (Z.to_int z).

(** [toLocaleDateString('en-US', { month: 'short', year: 'numeric' })] *)
Definition monthYearLabel (tz t : Z) : string :=
  let '(y, m, _) := civil_from_days (localDay tz t) in
  (monthShort m ++ " " ++ show_Z y)%string.

(** [toLocaleDateString('en-US', { month: 'short', day: 'numeric' })] *)
Definition monthDayLabel (tz t : Z) : string :=
  let '(_, m, d) := civil_from_days (localDay tz t) in
  (monthShort m ++ " " ++ show_Z d)%string.

End JsDate.
Import JsDate.

(* ------------------------------------------------------------------ *)
(** ** Objects used as dictionaries

    An object literal [{}] filled by [o[k] = v].  [get] and [set] are the
    lookup and the assignment of own properties.  Where a key is free
    text (the expense categories) the properties every object inherits
    are modelled at the place of use, with [inherited]; elsewhere a key
    is taken not to name one of them. *)

Module JsObject.

Definition digit_of (c : ascii) : option N :=
  let n := N_of_ascii c in
  if ((48 <=? n) && (n <=? 57))%N then Some (n - 48)%N else None.

Fixpoint parse_digits (s : string) (acc : N) : option N :=
  match s with
  | EmptyString => Some acc
  | String c s' =>
      match digit_of c with
      | Some d => parse_digits s' (10 * acc + d)%N
      | None => None
      end
  end.

Definition show_N (n : N) : string := NilZero.string_of_uint (N.to_uint n).

(** A property key is an array index when it is the canonical decimal
    form of an integer below 2^32 - 1. *)
Definition array_index (k : string) : option N :=
  match k with
  | EmptyString => None
  | _ =>
      match parse_digits k 0 with
      | Some n =>
          if (String.eqb (show_N n) k && (n <? 4294967295)%N)%bool
          then Some n else None
      | None => None
      end
  end.

Section Obj.
Variable V : Type.

(** Own entries in enumeration order: array-index keys in ascending
    numeric order, then the other keys in order of creation. *)
Definition t : Type := list (string * V).

Definition empty : t := [].

(** [o[k]] *)
Fixpoint get (k : string) (o : t) : option V :=
  match o with
  | [] => None
  | (k', v) :: o' => if String.eqb k' k then Some v else get k o'
  end.

(** Where a new array-index key [n] goes. *)
Fixpoint insert_index (n : N) (k : string) (v : V) (o : t) : t :=
  match o with
  | [] => [(k, v)]
  | (k', v') :: o' =>
      match array_index k' with
      | Some n' =>
          if (n' <? n)%N then (k', v') :: insert_index n k v o'
          else (k, v) :: o
      | None => (k, v) :: o
      end
  end.

Fixpoint replace (k : string) (v : V) (o : t) : t :=
  match o with
  | [] => []
  | (k', v') :: o' =>
      if String.eqb k' k then (k', v) :: o' else (k', v') :: replace k v o'
  end.

(** [o[k] = v] *)
Definition set (k : string) (v : V) (o : t) : t :=
  match get k o with
  | Some _ => replace k v o
  | None =>
      match array_index k with
      | Some n => insert_index n k v o
      | None => o ++ [(k, v)]
      end
  end.

(** [Object.keys(o)], [Object.values(o)] *)
Definition keys (o : t) : list string := map fst o.
Definition values (o : t) : list V := map snd o.
End Obj.

(** The names of the properties of [Object.prototype], which [o[k]] finds
    on an object that has no own property [k]. *)
Definition inherited_names : list string :=
  ["constructor"; "__defineGetter__"; "__defineSetter__"; "hasOwnProperty";
   "__lookupGetter__"; "__lookupSetter__"; "isPrototypeOf";
   "propertyIsEnumerable"; "toString"; "valueOf"; "__proto__";
   "toLocaleString"]%string.

Definition inherited (k : string) : bool :=
  existsb (String.eqb k) inherited_names.

End JsObject.

(* ------------------------------------------------------------------ *)
(** ** Arrays *)

Section ArraySort.
Variable A : Type.
(** The comparator of [array.sort(cmp)]: negative when the first argument
    goes first. *)
Variable cmp : A -> A -> Q.

(** [x] is placed in front of the first element it does not have to
    follow. *)
Fixpoint sort_insert (x : A) (l : list A) : list A :=
  match l with
  | [] => [x]
  | y :: l' =>
      if Qle_bool (cmp x y) 0 then x :: y :: l' else y :: sort_insert x l'
  end.

(** [array.sort(cmp)] is a stable sort; for a comparator that is a
    consistent order all stable sorts give the same array, here computed
    by insertion. *)
Fixpoint array_sort (l : list A) : list A :=
  match l with
  | [] => []
  | x :: l' => sort_insert x (array_sort l')
  end.
End ArraySort.

(** [array.slice(start, end)]: a negative index counts from the end, and
    both are clamped to the array. *)
Definition slice {A : Type} (start finish : Z) (l : list A) : list A :=
  let len := Z.of_nat (List.length l) in
  let clamp i := (if i <? 0 then Z.max (len + i) 0 else Z.min i len)%Z in
  firstn (Z.to_nat (clamp finish - clamp start))
         (skipn (Z.to_nat (clamp start)) l).

(** [s.includes(sub)] *)
Fixpoint includes (s sub : string) : bool :=
  String.prefix sub s
  || match s with
     | EmptyString => false
     | String _ s' => includes s' sub
     end.

(** [array.find(p)] is [List.find]; [array.filter(p)] is [List.filter]. *)

(* ------------------------------------------------------------------ *)
(** ** The records of the application state *)

Inductive PaymentMethod : Type := cash | card | mobile.

Definition paymentMethod_key (m : PaymentMethod) : string :=
  match m with
  | cash => "cash"
  | card => "card"
  | mobile => "mobile"
  end.

Module Sale.
Record t : Type := mk {
  id : string;
  date : Z;
  productId : string;
  productName : string;
  shopId : string;
  shopName : string;
  quantity : Q;
  unitPrice : Q;
  totalAmount : Q;
  customerName : option string;
  paymentMethod : PaymentMethod;
  discount : option Q
}.
End Sale.

Module Expense.
Record t : Type := mk {
  id : string;
  date : Z;
  description : string;
  category : string;
  shopId : string;
  shopName : string;
  amount : Q;
  approved : bool
}.
End Expense.

Module Shop.
Record t : Type := mk {
  id : string;
  name : string;
  location : string
}.
End Shop.

Module Product.
Record t : Type := mk {
  id : string;
  name : string;
  category : string;
  price : Q;
  stock : JsObject.t Q;
  minStock : Q
}.
End Product.

(** What the filters read of an item of [data: any[]]. *)
Class Filterable (A : Type) : Type := {
  item_date : A -> Z;
  item_shopId : A -> string
}.

#[export] Instance Filterable_Sale : Filterable Sale.t :=
  {| item_date := Sale.date; item_shopId := Sale.shopId |}.

#[export] Instance Filterable_Expense : Filterable Expense.t :=
  {| item_date := Expense.date; item_shopId := Expense.shopId |}.

(* ------------------------------------------------------------------ *)
(** ** Reports.tsx *)

Module Reports.

(** The [dateRange] state.  A bound is [None] for the empty string and
    otherwise the instant [new Date(s)] of the string of the date input. *)
Record DateRange : Type := {
  from : option Z;
  to : option Z
}.

(** The filter state of the page; [selectedShop] is [""] for all shops. *)
Record Filter : Type := {
  selectedShop : string;
  dateRange : DateRange
}.

Definition is_empty (s : string) : bool :=
  match s with EmptyString => true | _ => false end.

Section Filters.
Context {A : Type} `{Filterable A}.

Definition filterDataByDate (f : Filter) (data : list A) : list A :=
  match from (dateRange f), to (dateRange f) with
  | None, None => data
  | fromDate, toDate =>
      filter (fun item =>
        let itemDate := item_date item in
        if match fromDate with
           | Some d => (itemDate <? d)%Z
           | None => false
           end then false
        else if match toDate with
                | Some d => (itemDate >? d)%Z
                | None => false
                end then false
        else true) data
  end.

Definition filterDataByShop (f : Filter) (data : list A) : list A :=
  if is_empty (selectedShop f) then data
  else filter (fun item => String.eqb (item_shopId item) (selectedShop f))
              data.

Definition getFilteredData (f : Filter) (data : list A) : list A :=
  filterDataByShop f (filterDataByDate f data).
End Filters.

(** *** Totals *)

Definition totalSales (filteredSales : list Sale.t) : Q :=
  reduce_sum Sale.totalAmount filteredSales.

Definition totalExpenses (filteredExpenses : list Expense.t) : Q :=
  reduce_sum Expense.amount filteredExpenses.

Definition profit (filteredSales : list Sale.t)
                  (filteredExpenses : list Expense.t) : Q :=
  totalSales filteredSales - totalExpenses filteredExpenses.

Definition profitMargin (filteredSales : list Sale.t)
                        (filteredExpenses : list Expense.t) : number :=
  if Qlt_bool 0 (totalSales filteredSales)
  then mul (div (Fin (profit filteredSales filteredExpenses))
                (Fin (totalSales filteredSales)))
           (Fin 100)
  else Fin 0.

Definition averageTransactionValue (filteredSales : list Sale.t) : number :=
  if (0 <? List.length filteredSales)%nat
  then div (Fin (totalSales filteredSales))
           (Fin (inject_Z (Z.of_nat (List.length filteredSales))))
  else Fin 0.

(** *** Sales by period *)

Definition salesByMonth (tz : Z) (filteredSales : list Sale.t)
  : JsObject.t Q :=
  fold_left (fun acc sale =>
    let month := monthYearLabel tz (Sale.date sale) in
    JsObject.set month
      (or0 (JsObject.get month acc) + Sale.totalAmount sale) acc)
    filteredSales (JsObject.empty Q).

(** *** Sales by shop *)

Record ShopSales : Type := {
  ss_shopName : string;
  ss_sales : Q;
  ss_expenses : Q;
  ss_transactions : nat;
  ss_profit : Q
}.

Definition salesByShop (shops : list Shop.t)
    (filteredSales : list Sale.t) (filteredExpenses : list Expense.t)
  : list ShopSales :=
  map (fun shop =>
    let shopSales :=
      filter (fun sale => String.eqb (Sale.shopId sale) (Shop.id shop))
             filteredSales in
    let shopExpenses :=
      filter (fun expense =>
                String.eqb (Expense.shopId expense) (Shop.id shop))
             filteredExpenses in
    {| ss_shopName := Shop.name shop;
       ss_sales := reduce_sum Sale.totalAmount shopSales;
       ss_expenses := reduce_sum Expense.amount shopExpenses;
       ss_transactions := List.length shopSales;
       ss_profit := reduce_sum Sale.totalAmount shopSales
                    - reduce_sum Expense.amount shopExpenses |})
    shops.

(** *** Top products *)

Record ProductSales : Type := {
  ps_name : string;
  ps_quantity : Q;
  ps_revenue : Q;
  ps_transactions : nat
}.

(** One step of the reduction that builds [productSales]. *)
Definition productSales_step (acc : JsObject.t ProductSales)
    (sale : Sale.t) : JsObject.t ProductSales :=
  let key := Sale.productId sale in
  let acc1 :=
    match JsObject.get key acc with
    | Some _ => acc
    | None =>
        JsObject.set key
          {| ps_name := Sale.productName sale;
             ps_quantity := 0;
             ps_revenue := 0;
             ps_transactions := 0 |} acc
    end in
  match JsObject.get key acc1 with
  | Some e =>
      JsObject.set key
        {| ps_name := ps_name e;
           ps_quantity := ps_quantity e + Sale.quantity sale;
           ps_revenue := ps_revenue e + Sale.totalAmount sale;
           ps_transactions := ps_transactions e + 1 |} acc1
  | None => acc1
  end.

Definition productSales (filteredSales : list Sale.t)
  : JsObject.t ProductSales :=
  fold_left productSales_step filteredSales (JsObject.empty ProductSales).

(** [(a, b) => b.revenue - a.revenue] *)
Definition by_revenue_desc (a b : ProductSales) : Q :=
  ps_revenue b - ps_revenue a.

Definition topProducts (filteredSales : list Sale.t) : list ProductSales :=
  firstn 10 (array_sort by_revenue_desc
               (JsObject.values (productSales filteredSales))).

(** *** Payment methods and expense categories *)

Definition paymentMethods (filteredSales : list Sale.t) : JsObject.t Q :=
  fold_left (fun acc sale =>
    let key := paymentMethod_key (Sale.paymentMethod sale) in
    JsObject.set key (or0 (JsObject.get key acc) + Sale.totalAmount sale)
      acc)
    filteredSales (JsObject.empty Q).

(** What [expenseCategories] holds under a key: the running amount, or,
    once a property inherited from [Object.prototype] has been read for
    it, a string, namely the text of that property of [Object.prototype]
    followed by the decimal forms of the amounts appended since. *)
Inductive CategoryTotal : Type :=
| Amount (q : Q)
| Text (property : string) (appended : list Q).

(** [acc[category] = (acc[category] || 0) + expense.amount].  The lookup
    falls back on [Object.prototype]: an inherited function or object is
    truthy and [+] then concatenates strings, as it does on a string
    stored before.  The assignment creates or updates an own property,
    except for ["__proto__"], whose setter ignores a value that is not an
    object. *)
Definition expenseCategories_step (acc : JsObject.t CategoryTotal)
    (expense : Expense.t) : JsObject.t CategoryTotal :=
  let key := Expense.category expense in
  let value :=
    match JsObject.get key acc with
    | Some (Amount q) => Amount (or0 (Some q) + Expense.amount expense)
    | Some (Text property appended) =>
        Text property (appended ++ [Expense.amount expense])
    | None =>
        if JsObject.inherited key
        then Text key [Expense.amount expense]
        else Amount (or0 None + Expense.amount expense)
    end in
  if String.eqb key "__proto__" then acc else JsObject.set key value acc.

Definition expenseCategories (filteredExpenses : list Expense.t)
  : JsObject.t CategoryTotal :=
  fold_left expenseCategories_step filteredExpenses
    (JsObject.empty CategoryTotal).

(** *** Daily sales trend *)

Record DailySales : Type := {
  ds_date : string;
  ds_amount : Q;
  ds_transactions : nat
}.

(** The body of the loop for one value of [i]; [now] is what [new Date()]
    returned in this iteration. *)
Definition dailySales_bucket (tz : Z) (now : Z) (i : Z)
    (filteredSales : list Sale.t) : DailySales :=
  let date := setHours0 tz (setDateBack now i) in
  let daySales :=
    filter (fun sale =>
              let saleDate := setHours0 tz (Sale.date sale) in
              (saleDate =? date)%Z)
           filteredSales in
  {| ds_date := monthDayLabel tz date;
     ds_amount := reduce_sum Sale.totalAmount daySales;
     ds_transactions := List.length daySales |}.

(** [for (let i = n - 1; i >= 0; i--)], pushing one bucket per iteration.
    The clock is read once per iteration: [clock k] is the reading of the
    [k]-th iteration, counted from [first]. *)
Fixpoint dailySales_loop (tz : Z) (clock : nat -> Z) (first : nat)
    (n : nat) (filteredSales : list Sale.t) : list DailySales :=
  match n with
  | O => []
  | S n' =>
      dailySales_bucket tz (clock first) (Z.of_nat n') filteredSales
      :: dailySales_loop tz clock (S first) n' filteredSales
  end.

Definition dailySales (tz : Z) (clock : nat -> Z)
    (filteredSales : list Sale.t) : list DailySales :=
  dailySales_loop tz clock 0 30 filteredSales.

(** *** Stock analysis *)

Record StockAnalysis : Type := {
  sa_name : string;
  sa_category : string;
  sa_totalStock : Q;
  sa_stockValue : Q;
  sa_totalSold : Q;
  sa_turnoverRate : number;
  sa_isLowStock : bool
}.

Definition stockAnalysis (products : list Product.t)
    (filteredSales : list Sale.t) : list StockAnalysis :=
  map (fun product =>
    let totalStock :=
      reduce_sum (fun qty => qty) (JsObject.values (Product.stock product)) in
    let stockValue := totalStock * Product.price product in
    let productSalesData :=
      filter (fun sale =>
                String.eqb (Sale.productId sale) (Product.id product))
             filteredSales in
    let totalSold := reduce_sum Sale.quantity productSalesData in
    let turnoverRate :=
      if Qlt_bool 0 totalStock
      then div (Fin totalSold) (Fin totalStock) else Fin 0 in
    {| sa_name := Product.name product;
       sa_category := Product.category product;
       sa_totalStock := totalStock;
       sa_stockValue := stockValue;
       sa_totalSold := totalSold;
       sa_turnoverRate := turnoverRate;
       sa_isLowStock := Qlt_bool totalStock (Product.minStock product) |})
    products.

(** *** Customers *)

Record CustomerStats : Type := {
  cs_name : string;
  cs_totalSpent : Q;
  cs_transactions : nat;
  cs_lastPurchase : Z
}.

(** [sale.customerName] as a condition: present and not empty. *)
Definition named_customer (sale : Sale.t) : option string :=
  match Sale.customerName sale with
  | Some n => if is_empty n then None else Some n
  | None => None
  end.

Definition customerAnalysis_step (acc : JsObject.t CustomerStats)
    (sale : Sale.t) : JsObject.t CustomerStats :=
  match Sale.customerName sale with
  | None => acc
  | Some key =>
      let acc1 :=
        match JsObject.get key acc with
        | Some _ => acc
        | None =>
            JsObject.set key
              {| cs_name := key;
                 cs_totalSpent := 0;
                 cs_transactions := 0;
                 cs_lastPurchase := Sale.date sale |} acc
        end in
      match JsObject.get key acc1 with
      | Some e =>
          JsObject.set key
            {| cs_name := cs_name e;
               cs_totalSpent := cs_totalSpent e + Sale.totalAmount sale;
               cs_transactions := cs_transactions e + 1;
               cs_lastPurchase :=
                 if (Sale.date sale >? cs_lastPurchase e)%Z
                 then Sale.date sale else cs_lastPurchase e |} acc1
      | None => acc1
      end
  end.

Definition customerAnalysis (filteredSales : list Sale.t)
  : JsObject.t CustomerStats :=
  fold_left customerAnalysis_step
    (filter (fun sale =>
               match named_customer sale with
               | Some _ => true
               | None => false
               end) filteredSales)
    (JsObject.empty CustomerStats).

Definition by_totalSpent_desc (a b : CustomerStats) : Q :=
  cs_totalSpent b - cs_totalSpent a.

Definition topCustomers (filteredSales : list Sale.t)
  : list CustomerStats :=
  firstn 10 (array_sort by_totalSpent_desc
               (JsObject.values (customerAnalysis filteredSales))).

(** *** The analytics object *)

Record Analytics : Type := {
  a_totalSales : Q;
  a_totalExpenses : Q;
  a_profit : Q;
  a_profitMargin : number;
  a_salesByMonth : JsObject.t Q;
  a_salesByShop : list ShopSales;
  a_topProducts : list ProductSales;
  a_paymentMethods : JsObject.t Q;
  a_expenseCategories : JsObject.t CategoryTotal;
  a_dailySales : list DailySales;
  a_stockAnalysis : list StockAnalysis;
  a_topCustomers : list CustomerStats;
  a_totalTransactions : nat;
  a_averageTransactionValue : number
}.

(** The value of the [analytics] memo.  Beside the application state and
    the filter it reads the zone of the host ([tz]) and its clock. *)
Definition analytics (tz : Z) (clock : nat -> Z)
    (sales : list Sale.t) (expenses : list Expense.t)
    (shops : list Shop.t) (products : list Product.t) (f : Filter)
  : Analytics :=
  let filteredSales := getFilteredData f sales in
  let filteredExpenses := getFilteredData f expenses in
  {| a_totalSales := totalSales filteredSales;
     a_totalExpenses := totalExpenses filteredExpenses;
     a_profit := profit filteredSales filteredExpenses;
     a_profitMargin := profitMargin filteredSales filteredExpenses;
     a_salesByMonth := salesByMonth tz filteredSales;
     a_salesByShop := salesByShop shops filteredSales filteredExpenses;
     a_topProducts := topProducts filteredSales;
     a_paymentMethods := paymentMethods filteredSales;
     a_expenseCategories := expenseCategories filteredExpenses;
     a_dailySales := dailySales tz clock filteredSales;
     a_stockAnalysis := stockAnalysis products filteredSales;
     a_topCustomers := topCustomers filteredSales;
     a_totalTransactions := List.length filteredSales;
     a_averageTransactionValue := averageTransactionValue filteredSales |}.

(** *** Figures derived in the view *)




(** [(amount / total) * 100] *)
Definition share_of (amount total : Q) : number :=
  mul (div (Fin amount) (Fin total)) (Fin 100).

(** The payment methods with their share of the total sales. *)
Definition payment_shares (a : Analytics) : list (string * Q * number) :=
  map (fun entry =>
         (fst entry, snd entry, share_of (snd entry) (a_totalSales a)))
      (a_paymentMethods a).

(** The entries of an object whose values are all amounts; [None] when
    one of them is a string. *)
Fixpoint amounts_of (o : JsObject.t CategoryTotal) : option (JsObject.t Q) :=
  match o with
  | [] => Some []
  | (k, Amount q) :: o' =>
      match amounts_of o' with
      | Some r => Some ((k, q) :: r)
      | None => None
      end
  | (_, Text _ _) :: _ => None
  end.

(** The expense categories, largest first, with their share of the total
    expenses.  [None] when an entry is a string: [amount.toFixed] is then
    not a function and rendering the list throws. *)
Definition expense_rows (a : Analytics)
  : option (list (string * Q * number)) :=
  match amounts_of (a_expenseCategories a) with
  | Some entries =>
      Some (map (fun entry =>
                   (fst entry, snd entry,
                    share_of (snd entry) (a_totalExpenses a)))
                (array_sort (fun x y => snd y - snd x) entries))
  | None => None
  end.

End Reports.

(* ------------------------------------------------------------------ *)
(** ** Sales.tsx: recording a sale *)

Module Sales.

(** The [formData] state: every field is the text of its input. *)
Record FormData : Type := {
  productId : string;
  shopId : string;
  quantity : string;
  customerName : string;
  paymentMethod : PaymentMethod;
  discount : string;
  notes : string
}.

(** The argument of [addSale]. *)
Record NewSale : Type := {
  ns_productId : string;
  ns_productName : string;
  ns_shopId : string;
  ns_shopName : string;
  ns_quantity : number;
  ns_unitPrice : Q;
  ns_totalAmount : number;
  ns_userId : string;
  ns_customerName : option string;
  ns_paymentMethod : PaymentMethod;
  ns_discount : number;
  ns_notes : option string
}.

Inductive SubmitError : Type :=
| MissingFields
| InvalidSelection
| InsufficientStock (available : Q).

(** What [handleSubmit] does: report an error, or call [addSale]. *)
Inductive Outcome : Type :=
| Rejected (e : SubmitError)
| Recorded (sale : NewSale).

(** [s || undefined] *)
Definition nonempty (s : string) : option string :=
  match s with EmptyString => None | _ => Some s end.

Section Submit.
(** The global functions [parseInt] and [parseFloat]. *)
Variable parseInt : string -> number.
Variable parseFloat : string -> number.

Variable products : list Product.t.
Variable shops : list Shop.t.
(** [currentUser?.id] *)
Variable currentUserId : option string.

Definition selectedProduct (formData : FormData) : option Product.t :=
  find (fun p => String.eqb (Product.id p) (productId formData)) products.

Definition availableStock (formData : FormData) : Q :=
  match selectedProduct formData with
  | Some p =>
      if Reports.is_empty (shopId formData) then 0
      else or0 (JsObject.get (shopId formData) (Product.stock p))
  | None => 0
  end.

Definition handleSubmit (formData : FormData) : Outcome :=
  if (Reports.is_empty (productId formData)
      || Reports.is_empty (shopId formData)
      || Reports.is_empty (quantity formData))%bool
  then Rejected MissingFields
  else
    match find (fun p => String.eqb (Product.id p) (productId formData))
               products,
          find (fun s => String.eqb (Shop.id s) (shopId formData)) shops
    with
    | Some product, Some shop =>
        let quantityNum := parseInt (quantity formData) in
        if gt quantityNum (Fin (availableStock formData))
        then Rejected (InsufficientStock (availableStock formData))
        else
          let discount := or_else (parseFloat (discount formData)) (Fin 0) in
          let subtotal := mul (Fin (Product.price product)) quantityNum in
          let discountAmount := div (mul subtotal discount) (Fin 100) in
          let totalAmount := sub subtotal discountAmount in
          Recorded
            {| ns_productId := Product.id product;
               ns_productName := Product.name product;
               ns_shopId := Shop.id shop;
               ns_shopName := Shop.name shop;
               ns_quantity := quantityNum;
               ns_unitPrice := Product.price product;
               ns_totalAmount := totalAmount;
               ns_userId :=
                 match currentUserId with
                 | Some u => if Reports.is_empty u then "1"%string else u
                 | None => "1"%string
                 end;
               ns_customerName := nonempty (customerName formData);
               ns_paymentMethod := paymentMethod formData;
               ns_discount := discount;
               ns_notes := nonempty (notes formData) |}
    | _, _ => Rejected InvalidSelection
    end.
End Submit.

(** [parseInt] and [parseFloat] on the plain decimal numerals a number
    input yields: an optional sign, digits, and for [parseFloat] an
    optional fraction. *)
Fixpoint digits_prefix (s : string) (acc : N) (seen : nat)
  : N * nat * string :=
  match s with
  | EmptyString => (acc, seen, s)
  | String c s' =>
      match JsObject.digit_of c with
      | Some d => digits_prefix s' (10 * acc + d)%N (S seen)
      | None => (acc, seen, s)
      end
  end.

Definition split_sign (s : string) : bool * string :=
  match s with
  | String "-"%char s' => (true, s')
  | String "+"%char s' => (false, s')
  | _ => (false, s)
  end.

Definition apply_sign (negative : bool) (q : Q) : Q :=
  if negative then - q else q.

Definition parseInt_decimal (s : string) : number :=
  let '(negative, body) := split_sign s in
  let '(n, seen, _) := digits_prefix body 0 0 in
  match seen with
  | O => NaN
  | _ => Fin (apply_sign negative (inject_Z (Z.of_N n)))
  end.

Definition parseFloat_decimal (s : string) : number :=
  let '(negative, body) := split_sign s in
  let '(n, seen, rest) := digits_prefix body 0 0 in
  let '(f, fseen) :=
    match rest with
    | String "."%char frac =>
        let '(f, fseen, _) := digits_prefix frac 0 0 in (f, fseen)
    | _ => (0%N, O)
    end in
  match (seen + fseen)%nat with
  | O => NaN
  | _ =>
      Fin (apply_sign negative
             (inject_Z (Z.of_N n)
              + Qmake (Z.of_N f) (Pos.of_nat (Nat.pow 10 fseen))))
  end.

(** *** The list of sales of the page *)

(** The filter and pagination state of the page; [selectedShop] and
    [selectedPaymentMethod] are [""] for no selection. *)
Record ListState : Type := {
  searchTerm : string;
  selectedShop : string;
  selectedPaymentMethod : string;
  dateRange : Reports.DateRange;
  currentPage : Z
}.

Definition itemsPerPage : Z := 10.

(** [setCurrentPage(p)] *)
Definition setCurrentPage (p : Z) (st : ListState) : ListState :=
  {| searchTerm := searchTerm st;
     selectedShop := selectedShop st;
     selectedPaymentMethod := selectedPaymentMethod st;
     dateRange := dateRange st;
     currentPage := p |}.

(** [(a, b) => new Date(b.date).getTime() - new Date(a.date).getTime()] *)
Definition newest_first (a b : Sale.t) : Q :=
  inject_Z (Sale.date b - Sale.date a).

Section SalesList.
(** [String.prototype.toLowerCase] *)
Variable toLowerCase : string -> string.

Definition matchesSearch (st : ListState) (sale : Sale.t) : bool :=
  includes (toLowerCase (Sale.productName sale)) (toLowerCase (searchTerm st))
  || match Sale.customerName sale with
     | Some n => includes (toLowerCase n) (toLowerCase (searchTerm st))
     | None => false
     end
  || includes (toLowerCase (Sale.id sale)) (toLowerCase (searchTerm st)).

Definition matchesShop (st : ListState) (sale : Sale.t) : bool :=
  Reports.is_empty (selectedShop st)
  || String.eqb (Sale.shopId sale) (selectedShop st).

Definition matchesPayment (st : ListState) (sale : Sale.t) : bool :=
  Reports.is_empty (selectedPaymentMethod st)
  || String.eqb (paymentMethod_key (Sale.paymentMethod sale))
                (selectedPaymentMethod st).

Definition matchesDate (st : ListState) (sale : Sale.t) : bool :=
  let saleDate := Sale.date sale in
  let matches1 :=
    match Reports.from (dateRange st) with
    | Some d => (saleDate >=? d)%Z
    | None => true
    end in
  match Reports.to (dateRange st) with
  | Some d => matches1 && (saleDate <=? d)%Z
  | None => matches1
  end.

Definition filteredSales (st : ListState) (sales : list Sale.t)
  : list Sale.t :=
  array_sort newest_first
    (filter (fun sale =>
               matchesSearch st sale && matchesShop st sale
               && matchesPayment st sale && matchesDate st sale)
            sales).

Definition paginatedSales (st : ListState) (sales : list Sale.t)
  : list Sale.t :=
  let startIndex := ((currentPage st - 1) * itemsPerPage)%Z in
  slice startIndex (startIndex + itemsPerPage) (filteredSales st sales).

(** [Math.ceil(filteredSales.length / itemsPerPage)] *)
Definition totalPages (st : ListState) (sales : list Sale.t) : Z :=
  Qceiling (inject_Z (Z.of_nat (List.length (filteredSales st sales)))
            / inject_Z itemsPerPage).

(** The page the Previous and the Next button go to. *)
Definition previousPage (st : ListState) : Z :=
  Z.max 1 (currentPage st - 1).

Definition nextPage (st : ListState) (sales : list Sale.t) : Z :=
  Z.min (totalPages st sales) (currentPage st + 1).

(** "Showing [from] to [to] of [n] results" *)
Definition showing_from (st : ListState) : Z :=
  ((currentPage st - 1) * itemsPerPage + 1)%Z.

Definition showing_to (st : ListState) (sales : list Sale.t) : Z :=
  Z.min (currentPage st * itemsPerPage)
        (Z.of_nat (List.length (filteredSales st sales))).

(** The statistics above the list. *)
Definition totalSales (st : ListState) (sales : list Sale.t) : Q :=
  reduce_sum Sale.totalAmount (filteredSales st sales).

Definition averageSale (st : ListState) (sales : list Sale.t) : number :=
  if (0 <? List.length (filteredSales st sales))%nat
  then div (Fin (totalSales st sales))
           (Fin (inject_Z (Z.of_nat (List.length (filteredSales st sales)))))
  else Fin 0.

Definition paymentBreakdown (st : ListState) (sales : list Sale.t)
  : JsObject.t Q :=
  fold_left (fun acc sale =>
    let key := paymentMethod_key (Sale.paymentMethod sale) in
    JsObject.set key (or0 (JsObject.get key acc) + Sale.totalAmount sale)
      acc)
    (filteredSales st sales) (JsObject.empty Q).
End SalesList.

(** *** The total shown in the form before it is submitted *)

Section Preview.
Variable parseInt : string -> number.
Variable parseFloat : string -> number.
Variable products : list Product.t.

(** The "Total Amount" line, shown once a product is selected and a
    quantity typed. *)
Definition previewTotal (formData : FormData) : option number :=
  match selectedProduct products formData with
  | Some p =>
      if Reports.is_empty (quantity formData) then None
      else
        let q := parseInt (quantity formData) in
        let d :=
          parseFloat (if Reports.is_empty (discount formData)
                      then "0"%string else discount formData) in
        Some (sub (mul (Fin (Product.price p)) q)
                  (div (mul (mul (Fin (Product.price p)) q) d) (Fin 100)))
  | None => None
  end.
End Preview.

(** ASCII lower case, for the examples. *)
Definition lower_ascii (c : ascii) : ascii :=
  let n := N_of_ascii c in
  if ((65 <=? n) && (n <=? 90))%N then ascii_of_N (n + 32) else c.

Fixpoint toLowerCase_ascii (s : string) : string :=
  match s with
  | EmptyString => EmptyString
  | String c s' => String (lower_ascii c) (toLowerCase_ascii s')
  end.

End Sales.

(* ------------------------------------------------------------------ *)
(** ** StockTransfers.tsx *)

Module StockTransfers.

Inductive Status : Type := pending | completed | cancelled.

Definition status_key (s : Status) : string :=
  match s with
  | pending => "pending"
  | completed => "completed"
  | cancelled => "cancelled"
  end.

Inductive Priority : Type := low | normal | high.

Record StockTransfer : Type := {
  id : string;
  date : Z;
  productId : string;
  productName : string;
  fromShopId : string;
  fromShopName : string;
  toShopId : string;
  toShopName : string;
  quantity : Q;
  status : Status;
  userId : string;
  reason : option string;
  priority : option Priority;
  notes : option string
}.

Record FormData : Type := {
  fd_productId : string;
  fd_fromShopId : string;
  fd_toShopId : string;
  fd_quantity : string;
  fd_reason : string;
  fd_priority : Priority;
  fd_notes : string
}.

(** The argument of [addStockTransfer]. *)
Record NewTransfer : Type := {
  nt_productId : string;
  nt_productName : string;
  nt_fromShopId : string;
  nt_fromShopName : string;
  nt_toShopId : string;
  nt_toShopName : string;
  nt_quantity : number;
  nt_userId : string;
  nt_reason : string;
  nt_priority : Priority;
  nt_notes : option string
}.

Inductive SubmitError : Type :=
| MissingFields
| SameShop
| InvalidSelection
| InsufficientStock (available : Q).

Inductive Outcome : Type :=
| Rejected (e : SubmitError)
| Recorded (transfer : NewTransfer).

Section Submit.
Variable parseInt : string -> number.
Variable products : list Product.t.
Variable shops : list Shop.t.
Variable currentUserId : option string.

Definition selectedProduct (formData : FormData) : option Product.t :=
  find (fun p => String.eqb (Product.id p) (fd_productId formData)) products.

Definition availableStock (formData : FormData) : Q :=
  match selectedProduct formData with
  | Some p =>
      if Reports.is_empty (fd_fromShopId formData) then 0
      else or0 (JsObject.get (fd_fromShopId formData) (Product.stock p))
  | None => 0
  end.

Definition handleSubmit (formData : FormData) : Outcome :=
  if (Reports.is_empty (fd_productId formData)
      || Reports.is_empty (fd_fromShopId formData)
      || Reports.is_empty (fd_toShopId formData)
      || Reports.is_empty (fd_quantity formData))%bool
  then Rejected MissingFields
  else if String.eqb (fd_fromShopId formData) (fd_toShopId formData)
  then Rejected SameShop
  else
    match find (fun p => String.eqb (Product.id p) (fd_productId formData))
               products,
          find (fun s => String.eqb (Shop.id s) (fd_fromShopId formData))
               shops,
          find (fun s => String.eqb (Shop.id s) (fd_toShopId formData)) shops
    with
    | Some product, Some fromShop, Some toShop =>
        let quantityNum := parseInt (fd_quantity formData) in
        if gt quantityNum (Fin (availableStock formData))
        then Rejected (InsufficientStock (availableStock formData))
        else
          Recorded
            {| nt_productId := Product.id product;
               nt_productName := Product.name product;
               nt_fromShopId := Shop.id fromShop;
               nt_fromShopName := Shop.name fromShop;
               nt_toShopId := Shop.id toShop;
               nt_toShopName := Shop.name toShop;
               nt_quantity := quantityNum;
               nt_userId :=
                 match currentUserId with
                 | Some u => if Reports.is_empty u then "1"%string else u
                 | None => "1"%string
                 end;
               nt_reason := fd_reason formData;
               nt_priority := fd_priority formData;
               nt_notes := Sales.nonempty (fd_notes formData) |}
    | _, _, _ => Rejected InvalidSelection
    end.
End Submit.

(** *** The list of transfers and its statistics *)

Record ListState : Type := {
  searchTerm : string;
  selectedStatus : string;
  selectedFromShop : string;
  selectedToShop : string;
  dateRange : Reports.DateRange;
  currentPage : Z
}.

Definition itemsPerPage : Z := 10.

(** [setCurrentPage(p)] *)
Definition setCurrentPage (p : Z) (st : ListState) : ListState :=
  {| searchTerm := searchTerm st;
     selectedStatus := selectedStatus st;
     selectedFromShop := selectedFromShop st;
     selectedToShop := selectedToShop st;
     dateRange := dateRange st;
     currentPage := p |}.

Definition newest_first (a b : StockTransfer) : Q :=
  inject_Z (date b - date a).

Section TransferList.
Variable toLowerCase : string -> string.

Definition matchesSearch (st : ListState) (t : StockTransfer) : bool :=
  includes (toLowerCase (productName t)) (toLowerCase (searchTerm st))
  || includes (toLowerCase (fromShopName t)) (toLowerCase (searchTerm st))
  || includes (toLowerCase (toShopName t)) (toLowerCase (searchTerm st))
  || includes (toLowerCase (id t)) (toLowerCase (searchTerm st)).

Definition matchesStatus (st : ListState) (t : StockTransfer) : bool :=
  Reports.is_empty (selectedStatus st)
  || String.eqb (status_key (status t)) (selectedStatus st).

Definition matchesFromShop (st : ListState) (t : StockTransfer) : bool :=
  Reports.is_empty (selectedFromShop st)
  || String.eqb (fromShopId t) (selectedFromShop st).

Definition matchesToShop (st : ListState) (t : StockTransfer) : bool :=
  Reports.is_empty (selectedToShop st)
  || String.eqb (toShopId t) (selectedToShop st).

Definition matchesDate (st : ListState) (t : StockTransfer) : bool :=
  let transferDate := date t in
  let matches1 :=
    match Reports.from (dateRange st) with
    | Some d => (transferDate >=? d)%Z
    | None => true
    end in
  match Reports.to (dateRange st) with
  | Some d => matches1 && (transferDate <=? d)%Z
  | None => matches1
  end.

Definition filteredTransfers (st : ListState) (transfers : list StockTransfer)
  : list StockTransfer :=
  array_sort newest_first
    (filter (fun t =>
               matchesSearch st t && matchesStatus st t
               && matchesFromShop st t && matchesToShop st t
               && matchesDate st t)
            transfers).

Definition paginatedTransfers (st : ListState)
    (transfers : list StockTransfer) : list StockTransfer :=
  let startIndex := ((currentPage st - 1) * itemsPerPage)%Z in
  slice startIndex (startIndex + itemsPerPage) (filteredTransfers st transfers).

Definition totalPages (st : ListState) (transfers : list StockTransfer) : Z :=
  Qceiling (inject_Z (Z.of_nat (List.length (filteredTransfers st transfers)))
            / inject_Z itemsPerPage).

Definition is_status (s : Status) (t : StockTransfer) : bool :=
  String.eqb (status_key (status t)) (status_key s).

Definition totalTransfers (st : ListState) (transfers : list StockTransfer)
  : nat :=
  List.length (filteredTransfers st transfers).

Definition completedTransfers (st : ListState)
    (transfers : list StockTransfer) : nat :=
  List.length (filter (is_status completed) (filteredTransfers st transfers)).

Definition pendingTransfers (st : ListState)
    (transfers : list StockTransfer) : nat :=
  List.length (filter (is_status pending) (filteredTransfers st transfers)).

Definition totalQuantityTransferred (st : ListState)
    (transfers : list StockTransfer) : Q :=
  reduce_sum quantity
    (filter (is_status completed) (filteredTransfers st transfers)).

(** The "success rate" line, in percent. *)
Definition successRate (st : ListState) (transfers : list StockTransfer)
  : number :=
  if (0 <? totalTransfers st transfers)%nat
  then round
         (mul (div (Fin (inject_Z (Z.of_nat (completedTransfers st transfers))))
                   (Fin (inject_Z (Z.of_nat (totalTransfers st transfers)))))
              (Fin 100))
  else Fin 0.
End TransferList.

(** The products whose stock, over all shops, is below their minimum. *)
Definition lowStockProducts (products : list Product.t) : list Product.t :=
  filter (fun product =>
            let totalStock :=
              reduce_sum (fun qty => qty)
                (JsObject.values (Product.stock product)) in
            Qlt_bool totalStock (Product.minStock product))
         products.

End StockTransfers.

(* ------------------------------------------------------------------ *)
(** ** The vocabulary of the specification

    Sums and counts over the records that satisfy a condition, written by
    recursion on the list, and the keep condition of the filters as the
    specification words it.  The theorems below relate what the code
    computes to these. *)

Module Spec.

Fixpoint sum_of {A : Type} (f : A -> Q) (l : list A) : Q :=
  match l with
  | [] => 0
  | x :: l' => f x + sum_of f l'
  end.

Fixpoint sum_where {A : Type} (P : A -> bool) (f : A -> Q) (l : list A)
  : Q :=
  match l with
  | [] => 0
  | x :: l' => if P x then f x + sum_where P f l' else sum_where P f l'
  end.

Fixpoint count_where {A : Type} (P : A -> bool) (l : list A) : nat :=
  match l with
  | [] => O
  | x :: l' => if P x then S (count_where P l') else count_where P l'
  end.

(** A record passes the date filter and the shop filter. *)
Definition passes {A : Type} `{Filterable A} (f : Reports.Filter)
    (item : A) : Prop :=
  (match Reports.from (Reports.dateRange f) with
   | None => True
   | Some dateFrom => (item_date item >= dateFrom)%Z
   end)
  /\ (match Reports.to (Reports.dateRange f) with
      | None => True
      | Some dateTo => (item_date item <= dateTo)%Z
      end)
  /\ (Reports.selectedShop f = ""%string
      \/ item_shopId item = Reports.selectedShop f).

(** The same condition as a test. *)
Definition passesb {A : Type} `{Filterable A} (f : Reports.Filter)
    (item : A) : bool :=
  (match Reports.from (Reports.dateRange f) with
   | None => true
   | Some dateFrom => (dateFrom <=? item_date item)%Z
   end)
  && (match Reports.to (Reports.dateRange f) with
      | None => true
      | Some dateTo => (item_date item <=? dateTo)%Z
      end)
  && (Reports.is_empty (Reports.selectedShop f)
      || String.eqb (item_shopId item) (Reports.selectedShop f)).

(** The sales of one shop, of one product, of one local calendar day. *)
Definition of_shop (shop : Shop.t) (sale : Sale.t) : bool :=
  String.eqb (Sale.shopId sale) (Shop.id shop).

Definition expense_of_shop (shop : Shop.t) (e : Expense.t) : bool :=
  String.eqb (Expense.shopId e) (Shop.id shop).

Definition of_product (pid : string) (sale : Sale.t) : bool :=
  String.eqb (Sale.productId sale) pid.

Definition on_day (tz day : Z) (sale : Sale.t) : bool :=
  (localDay tz (Sale.date sale) =? day)%Z.

Definition in_window (tz first last : Z) (sale : Sale.t) : bool :=
  ((first <=? localDay tz (Sale.date sale))
   && (localDay tz (Sale.date sale) <=? last))%Z.

(** The label of a calendar day, as [month day]. *)
Definition day_label (day : Z) : string :=
  let '(_, m, d) := civil_from_days day in
  (monthShort m ++ " " ++ show_Z d)%string.

(** Position of the first occurrence of [k] in [keys] (their length when
    there is none). *)
Fixpoint first_pos (k : string) (keys : list string) : nat :=
  match keys with
  | [] => O
  | k' :: rest => if String.eqb k' k then O else S (first_pos k rest)
  end.

(** [k1] is first seen before [k2] in the list of keys. *)
Definition first_seen_before (keys : list string) (k1 k2 : string) : Prop :=
  (first_pos k1 keys < first_pos k2 keys)%nat.

(** [k1] is enumerated before [k2] in an object whose keys were created
    in the order of [keys]: array indices first, in ascending order, then
    the other keys as first seen. *)
Definition enumerated_before (keys : list string) (k1 k2 : string) : Prop :=
  match JsObject.array_index k1, JsObject.array_index k2 with
  | Some n1, Some n2 => (n1 < n2)%N
  | Some _, None => True
  | None, Some _ => False
  | None, None => first_seen_before keys k1 k2
  end.

(** The ranking of [topProducts] with the product id kept beside each
    entry: the entries of [productSales] sorted and cut like its values. *)
Definition ranked_products (filteredSales : list Sale.t)
  : list (string * Reports.ProductSales) :=
  firstn 10
    (array_sort (fun a b => Reports.by_revenue_desc (snd a) (snd b))
       (Reports.productSales filteredSales)).

(** Entries of equal revenue appear in the order in which their product
    ids are first seen in the sales. *)
Definition ties_in_first_seen_order (filteredSales : list Sale.t) : Prop :=
  forall (i j : nat) (k1 k2 : string) (e1 e2 : Reports.ProductSales),
    (i < j)%nat ->
    nth_error (ranked_products filteredSales) i = Some (k1, e1) ->
    nth_error (ranked_products filteredSales) j = Some (k2, e2) ->
    Reports.ps_revenue e1 == Reports.ps_revenue e2 ->
    first_seen_before (map Sale.productId filteredSales) k1 k2.

End Spec.

(* ------------------------------------------------------------------ *)
(** ** Notions used in the proofs *)

(** What [JsObject.set] does on a key the object does not have. *)
Definition insert_new {V : Type} (k : string) (v : V) (o : JsObject.t V)
  : JsObject.t V :=
  match JsObject.array_index k with
  | Some n => JsObject.insert_index n k v o
  | None => o ++ [(k, v)]
  end.

(** The enumeration order, on entries. *)
Definition entry_before {V : Type} (all : list string) (a b : string * V)
  : Prop :=
  Spec.enumerated_before all (fst a) (fst b).

(** [a] outranks [b], or ties with it and was before it. *)
Definition ranked_before {A : Type} (score : A -> Q)
    (before : A -> A -> Prop) (a b : A) : Prop :=
  score b < score a \/ (score b == score a /\ before a b).

(** The entry of a product after one more sale of it, and the entry a
    product starts from. *)
Definition bump (sale : Sale.t) (e : Reports.ProductSales)
  : Reports.ProductSales :=
  {| Reports.ps_name := Reports.ps_name e;
     Reports.ps_quantity := Reports.ps_quantity e + Sale.quantity sale;
     Reports.ps_revenue := Reports.ps_revenue e + Sale.totalAmount sale;
     Reports.ps_transactions := Reports.ps_transactions e + 1 |}.

Definition fresh (sale : Sale.t) : Reports.ProductSales :=
  {| Reports.ps_name := Sale.productName sale;
     Reports.ps_quantity := 0;
     Reports.ps_revenue := 0;
     Reports.ps_transactions := 0 |}.

(** The entry [e] of product [k] sums up the sales of [k] among [sales]. *)
Definition group_of (sales : list Sale.t) (k : string)
    (e : Reports.ProductSales) : Prop :=
  Reports.ps_quantity e
  == Spec.sum_where (Spec.of_product k) Sale.quantity sales
  /\ Reports.ps_revenue e
     == Spec.sum_where (Spec.of_product k) Sale.totalAmount sales
  /\ Reports.ps_transactions e = Spec.count_where (Spec.of_product k) sales.

(** After the sales [pre], the object [o] has one entry per product id
    seen, holding the sums over [pre], and enumerates its keys in the
    order of an object whose keys are created in the order [all]. *)
Definition productSales_inv (all : list string) (pre : list Sale.t)
    (o : JsObject.t Reports.ProductSales) : Prop :=
  (forall k,
     match JsObject.get k o with
     | Some e => In k (map Sale.productId pre) /\ group_of pre k e
     | None => ~ In k (map Sale.productId pre)
     end)
  /\ StronglySorted (entry_before all) o.

(** Grouping by key into an object: what one step of such a reduction
    does to the object, and the value the group of [k] has after the
    items [l]. *)
Section Grouping.
Variables X V : Type.
Variable key : X -> string.
Variable init : X -> V.
Variable upd : X -> V -> V.

Definition group_step (o : JsObject.t V) (x : X) : JsObject.t V :=
  match JsObject.get (key x) o with
  | Some e => JsObject.replace (key x) (upd x e) o
  | None => insert_new (key x) (upd x (init x)) o
  end.

Definition grouped (l : list X) : JsObject.t V :=
  fold_left group_step l (JsObject.empty V).

Definition group_value (k : string) (l : list X) : option V :=
  fold_left
    (fun acc x =>
       if String.eqb (key x) k
       then Some (upd x (match acc with Some e => e | None => init x end))
       else acc)
    l None.
End Grouping.

(** The steps of the reductions of the pages. *)
Definition amount_step {X : Type} (amount : X -> Q) (x : X) (e : Q) : Q :=
  or0 (Some e) + amount x.

Definition customer_key (sale : Sale.t) : string :=
  match Sale.customerName sale with Some n => n | None => ""%string end.



(** The sales that name a customer. *)
Definition named (sale : Sale.t) : bool :=
  match Reports.named_customer sale with Some _ => true | None => false end.

Definition of_customer (name : string) (sale : Sale.t) : bool :=
  named sale && String.eqb (customer_key sale) name.

(** A breakdown by key, as the pages write the reduction. *)
Definition breakdown_fold {X : Type} (key : X -> string) (amount : X -> Q)
    (l : list X) : JsObject.t Q :=
  fold_left (fun acc x =>
    JsObject.set (key x) (or0 (JsObject.get (key x) acc) + amount x) acc)
    l (JsObject.empty Q).


(** The expense categories as a grouping: the expenses that are not of
    category ["__proto__"] (which leaves the object as it is), the entry a
    category starts from, what one more expense does to it, and the
    amount an entry stands for in a sum. *)
Definition not_proto (e : Expense.t) : bool :=
  negb (String.eqb (Expense.category e) "__proto__").

(** The category does not name a property of [Object.prototype]. *)
Definition plain_category (e : Expense.t) : bool :=
  negb (JsObject.inherited (Expense.category e)).

Definition category_init (e : Expense.t) : Reports.CategoryTotal :=
  if JsObject.inherited (Expense.category e)
  then Reports.Text (Expense.category e) []
  else Reports.Amount 0.

Definition category_upd (e : Expense.t) (v : Reports.CategoryTotal)
  : Reports.CategoryTotal :=
  match v with
  | Reports.Amount q => Reports.Amount (or0 (Some q) + Expense.amount e)
  | Reports.Text property appended =>
      Reports.Text property (appended ++ [Expense.amount e])
  end.

Definition amount_part (v : Reports.CategoryTotal) : Q :=
  match v with
  | Reports.Amount q => q
  | Reports.Text _ _ => 0
  end.

Definition of_category (category : string) (e : Expense.t) : bool :=
  String.eqb (Expense.category e) category.

(** What the group of [k] holds: for a name that objects inherit, the text
    of the inherited property and the amounts appended; for any other key,
    the sum of the amounts. *)
Definition category_holds (l : list Expense.t) (k : string)
    (v : Reports.CategoryTotal) : Prop :=
  if JsObject.inherited k
  then v = Reports.Text k (map Expense.amount (filter (of_category k) l))
  else exists q, v = Reports.Amount q
                 /\ q == Spec.sum_where (of_category k) Expense.amount l.


(* ------------------------------------------------------------------ *)
(** ** Sample data *)

Definition june_1st_2024 : Z := 1717200000000.

Definition one_sale : Sale.t :=
  {| Sale.id := "s1"; Sale.date := june_1st_2024;
     Sale.productId := "p1"; Sale.productName := "Soap";
     Sale.shopId := "shop-a"; Sale.shopName := "Main";
     Sale.quantity := 1; Sale.unitPrice := 100; Sale.totalAmount := 100;
     Sale.customerName := None; Sale.paymentMethod := cash;
     Sale.discount := None |}.

Definition no_filter : Reports.Filter :=
  {| Reports.selectedShop := "";
     Reports.dateRange := {| Reports.from := None; Reports.to := None |} |}.

(** Two sales of 10 each, of product "2" and then of product "1". *)
Definition sale_of (pid pname : string) (amount : Q) : Sale.t :=
  {| Sale.id := "s"; Sale.date := june_1st_2024;
     Sale.productId := pid; Sale.productName := pname;
     Sale.shopId := "shop-a"; Sale.shopName := "Main";
     Sale.quantity := 1; Sale.unitPrice := amount; Sale.totalAmount := amount;
     Sale.customerName := None; Sale.paymentMethod := cash;
     Sale.discount := None |}.

Definition tied_sales : list Sale.t :=
  [sale_of "2" "Bread" 10; sale_of "1" "Apples" 10].


(** The clock of an evaluation that reads [now] at every iteration. *)
Definition steady_clock (now : Z) : nat -> Z := fun _ => now.

(** Two shops, with sales of 100 and 50 and an expense of 30. *)
Definition shop_a : Shop.t :=
  {| Shop.id := "shop-a"; Shop.name := "Main"; Shop.location := "Centre" |}.

Definition shop_b : Shop.t :=
  {| Shop.id := "shop-b"; Shop.name := "Annex"; Shop.location := "Harbour" |}.

Definition sale_in (shop : Shop.t) (amount : Q) : Sale.t :=
  {| Sale.id := "s"; Sale.date := june_1st_2024;
     Sale.productId := "p1"; Sale.productName := "Soap";
     Sale.shopId := Shop.id shop; Sale.shopName := Shop.name shop;
     Sale.quantity := 1; Sale.unitPrice := amount; Sale.totalAmount := amount;
     Sale.customerName := None; Sale.paymentMethod := cash;
     Sale.discount := None |}.

Definition expense_in (shop : Shop.t) (amount : Q) : Expense.t :=
  {| Expense.id := "e"; Expense.date := june_1st_2024;
     Expense.description := "Rent"; Expense.category := "rent";
     Expense.shopId := Shop.id shop; Expense.shopName := Shop.name shop;
     Expense.amount := amount; Expense.approved := true |}.

Definition two_shops : list Shop.t := [shop_a; shop_b].
Definition two_sales : list Sale.t := [sale_in shop_a 100; sale_in shop_b 50].
Definition one_expense : list Expense.t := [expense_in shop_a 30].

(** A product at 25 with 10 units in the first shop, and the form that
    sells 3 of them at a discount of 10 percent. *)
Definition soap : Product.t :=
  {| Product.id := "p1"; Product.name := "Soap"; Product.category := "care";
     Product.price := 25; Product.stock := [("shop-a"%string, 10)];
     Product.minStock := 2 |}.

Definition soap_form : Sales.FormData :=
  {| Sales.productId := "p1"; Sales.shopId := "shop-a"; Sales.quantity := "3";
     Sales.customerName := ""; Sales.paymentMethod := cash;
     Sales.discount := "10"; Sales.notes := "" |}.

Definition soap_sale : Sales.NewSale :=
  {| Sales.ns_productId := "p1"; Sales.ns_productName := "Soap";
     Sales.ns_shopId := "shop-a"; Sales.ns_shopName := "Main";
     Sales.ns_quantity := Fin 3; Sales.ns_unitPrice := 25;
     Sales.ns_totalAmount := Fin (6750 # 100);
     Sales.ns_userId := "1"; Sales.ns_customerName := None;
     Sales.ns_paymentMethod := cash; Sales.ns_discount := Fin 10;
     Sales.ns_notes := None |}.




Definition nothing_selected : Sales.ListState :=
  {| Sales.searchTerm := ""; Sales.selectedShop := "";
     Sales.selectedPaymentMethod := "";
     Sales.dateRange := {| Reports.from := None; Reports.to := None |};
     Sales.currentPage := 1 |}.

Definition soap_form_no_discount : Sales.FormData :=
  {| Sales.productId := "p1"; Sales.shopId := "shop-a"; Sales.quantity := "3";
     Sales.customerName := ""; Sales.paymentMethod := cash;
     Sales.discount := ""; Sales.notes := "" |}.

Definition soap_sale_no_discount : Sales.NewSale :=
  {| Sales.ns_productId := "p1"; Sales.ns_productName := "Soap";
     Sales.ns_shopId := "shop-a"; Sales.ns_shopName := "Main";
     Sales.ns_quantity := Fin 3; Sales.ns_unitPrice := 25;
     Sales.ns_totalAmount := Fin (7500 # 100);
     Sales.ns_userId := "1"; Sales.ns_customerName := None;
     Sales.ns_paymentMethod := cash; Sales.ns_discount := Fin 0;
     Sales.ns_notes := None |}.

(** A clock that passes midnight while the loop of the daily trend runs:
    its first 15 readings are the last millisecond of June 1st, the others
    the first millisecond of June 2nd; and a sale of 11 made at noon on
    May 18th. *)
Definition clock_across_midnight : nat -> Z :=
  fun k =>
    if (k <? 15)%nat
    then (june_1st_2024 + msPerDay - 1)%Z
    else (june_1st_2024 + msPerDay)%Z.

Definition may_18th_sale : Sale.t :=
  {| Sale.id := "s1"; Sale.date := (june_1st_2024 - 14 * msPerDay + 43200000)%Z;
     Sale.productId := "p1"; Sale.productName := "Soap";
     Sale.shopId := "shop-a"; Sale.shopName := "Main";
     Sale.quantity := 1; Sale.unitPrice := 11; Sale.totalAmount := 11;
     Sale.customerName := None; Sale.paymentMethod := cash;
     Sale.discount := None |}.


(** Expenses of a given category. *)
Definition expense_of (category : string) (amount : Q) : Expense.t :=
  {| Expense.id := "e"; Expense.date := june_1st_2024;
     Expense.description := ""; Expense.category := category;
     Expense.shopId := "shop-a"; Expense.shopName := "Main";
     Expense.amount := amount; Expense.approved := true |}.

Definition named_expenses : list Expense.t :=
  [expense_of "constructor" 30; expense_of "rent" 5;
   expense_of "constructor" 2; expense_of "__proto__" 7].

(* ------------------------------------------------------------------ *)
(** * Properties *)

(** ** Rationals and sums *)

Lemma Qlt_bool_iff (a b : Q) : Qlt_bool a b = true <-> a < b.
Proof.
  unfold Qlt_bool. rewrite negb_true_iff.
  split; intro Hab.
  - apply Qnot_le_lt. intro Hle. apply Qle_bool_iff in Hle. congruence.
  - destruct (Qle_bool b a) eqn:E; [|reflexivity].
    apply Qle_bool_iff in E. exfalso. exact (Qlt_not_le _ _ Hab E).
Qed.

Lemma Qlt_bool_false_iff (a b : Q) : Qlt_bool a b = false <-> b <= a.
Proof.
  unfold Qlt_bool. rewrite negb_false_iff. apply Qle_bool_iff.
Qed.

Lemma Qeq_bool_false_of_lt (a : Q) : 0 < a -> Qeq_bool a 0 = false.
Proof.
  intro Ha. destruct (Qeq_bool a 0) eqn:E; [|reflexivity].
  apply Qeq_bool_iff in E. rewrite E in Ha. exfalso.
  exact (Qlt_irrefl _ Ha).
Qed.

Lemma fold_left_sum_acc {A : Type} (f : A -> Q) (l : list A) (a : Q) :
  fold_left (fun sum x => sum + f x) l a == a + Spec.sum_of f l.
Proof.
  revert a. induction l as [|x l IH]; intro a; simpl.
  - ring.
  - rewrite IH. ring.
Qed.

Lemma reduce_sum_sum_of {A : Type} (f : A -> Q) (l : list A) :
  reduce_sum f l == Spec.sum_of f l.
Proof.
  unfold reduce_sum. rewrite fold_left_sum_acc. ring.
Qed.

Lemma sum_of_filter {A : Type} (P : A -> bool) (f : A -> Q) (l : list A) :
  Spec.sum_of f (filter P l) == Spec.sum_where P f l.
Proof.
  induction l as [|x l IH]; simpl.
  - reflexivity.
  - destruct (P x); simpl; rewrite IH; reflexivity.
Qed.

Lemma reduce_sum_filter {A : Type} (P : A -> bool) (f : A -> Q)
    (l : list A) :
  reduce_sum f (filter P l) == Spec.sum_where P f l.
Proof.
  rewrite reduce_sum_sum_of. apply sum_of_filter.
Qed.

Lemma length_filter_count {A : Type} (P : A -> bool) (l : list A) :
  List.length (filter P l) = Spec.count_where P l.
Proof.
  induction l as [|x l IH]; simpl; [reflexivity|].
  destruct (P x); simpl; congruence.
Qed.

Lemma sum_of_map {A B : Type} (g : A -> B) (f : B -> Q) (l : list A) :
  Spec.sum_of f (map g l) = Spec.sum_of (fun x => f (g x)) l.
Proof.
  induction l as [|x l IH]; simpl; congruence.
Qed.

Lemma sum_of_ext {A : Type} (f g : A -> Q) (l : list A) :
  (forall x, In x l -> f x == g x) -> Spec.sum_of f l == Spec.sum_of g l.
Proof.
  induction l as [|x l IH]; intro Hfg; simpl.
  - reflexivity.
  - rewrite (Hfg x (or_introl eq_refl)), IH; [reflexivity|].
    intros y Hy. apply Hfg. right. exact Hy.
Qed.

Lemma sum_of_plus {A : Type} (f g : A -> Q) (l : list A) :
  Spec.sum_of (fun x => f x + g x) l == Spec.sum_of f l + Spec.sum_of g l.
Proof.
  induction l as [|x l IH]; simpl; [ring|]. rewrite IH. ring.
Qed.

Lemma sum_of_minus {A : Type} (f g : A -> Q) (l : list A) :
  Spec.sum_of (fun x => f x - g x) l == Spec.sum_of f l - Spec.sum_of g l.
Proof.
  induction l as [|x l IH]; simpl; [ring|]. rewrite IH. ring.
Qed.

Lemma sum_of_zero {A : Type} (f : A -> Q) (l : list A) :
  (forall x, In x l -> f x == 0) -> Spec.sum_of f l == 0.
Proof.
  induction l as [|x l IH]; intro Hf; simpl; [reflexivity|].
  rewrite (Hf x (or_introl eq_refl)), IH; [ring|].
  intros y Hy. apply Hf. right. exact Hy.
Qed.

(** ** The filters *)

(** Case analysis on every integer comparison of the goal. *)
Ltac z_cases :=
  repeat match goal with
         | |- context [Z.ltb ?a ?b] => destruct (Z.ltb_spec a b)
         | |- context [Z.leb ?a ?b] => destruct (Z.leb_spec a b)
         | |- context [Z.eqb ?a ?b] => destruct (Z.eqb_spec a b)
         end;
  simpl; try reflexivity; try lia.

Section FilterFacts.
Context {A : Type} `{Filterable A}.

Lemma passesb_passes (f : Reports.Filter) (item : A) :
  Spec.passesb f item = true <-> Spec.passes f item.
Proof.
  unfold Spec.passesb, Spec.passes.
  rewrite !andb_true_iff, orb_true_iff, String.eqb_eq.
  assert (Hempty : Reports.is_empty (Reports.selectedShop f) = true
                   <-> Reports.selectedShop f = ""%string).
  { destruct (Reports.selectedShop f); simpl; split; congruence. }
  rewrite Hempty.
  destruct (Reports.from (Reports.dateRange f)),
           (Reports.to (Reports.dateRange f));
    rewrite ?Z.leb_le; intuition lia.
Qed.

Lemma filterDataByDate_filter (f : Reports.Filter) (data : list A) :
  Reports.filterDataByDate f data =
  filter (fun item =>
    (match Reports.from (Reports.dateRange f) with
     | None => true
     | Some dateFrom => (dateFrom <=? item_date item)%Z
     end)
    && (match Reports.to (Reports.dateRange f) with
        | None => true
        | Some dateTo => (item_date item <=? dateTo)%Z
        end)) data.
Proof.
  unfold Reports.filterDataByDate.
  destruct (Reports.from (Reports.dateRange f)) as [df|],
           (Reports.to (Reports.dateRange f)) as [dt|];
    try (apply filter_ext; intro x; cbv beta zeta;
         rewrite ?Z.gtb_ltb; z_cases).
  simpl. induction data as [|x l IH]; simpl; congruence.
Qed.

Lemma filterDataByShop_filter (f : Reports.Filter) (data : list A) :
  Reports.filterDataByShop f data =
  filter (fun item =>
    Reports.is_empty (Reports.selectedShop f)
    || String.eqb (item_shopId item) (Reports.selectedShop f)) data.
Proof.
  unfold Reports.filterDataByShop.
  destruct (Reports.is_empty (Reports.selectedShop f)); simpl.
  - induction data as [|x l IH]; simpl; congruence.
  - reflexivity.
Qed.

Lemma filter_filter (P R : A -> bool) (l : list A) :
  filter R (filter P l) = filter (fun x => P x && R x) l.
Proof.
  induction l as [|x l IH]; simpl; [reflexivity|].
  destruct (P x); simpl; [destruct (R x)|]; congruence.
Qed.

(** C4.  A record is kept by [getFilteredData] exactly when it passes the
    inclusive date bounds that are set and the shop selection, if any;
    the kept records stay in their order.  The statement is generic in
    the record type, hence the same for sales and for expenses. *)
Theorem getFilteredData_keeps_exactly_passing
    (f : Reports.Filter) (data : list A) :
  Reports.getFilteredData f data = filter (Spec.passesb f) data
  /\ forall item,
       In item (Reports.getFilteredData f data)
       <-> In item data /\ Spec.passes f item.
Proof.
  assert (Heq : Reports.getFilteredData f data
                = filter (Spec.passesb f) data).
  { unfold Reports.getFilteredData.
    rewrite filterDataByDate_filter, filterDataByShop_filter, filter_filter.
    reflexivity. }
  split; [exact Heq|].
  intro item. rewrite Heq, filter_In, passesb_passes. reflexivity.
Qed.
End FilterFacts.

(** ** Totals and guarded divisions *)

Lemma div_Fin_nonzero (a b : Q) :
  Qeq_bool b 0 = false -> div (Fin a) (Fin b) = Fin (a / b).
Proof.
  intro Hb. simpl. rewrite Hb. reflexivity.
Qed.

Lemma inject_Z_of_nat_pos (n : nat) :
  (0 < n)%nat -> 0 < inject_Z (Z.of_nat n).
Proof.
  intro Hn. change 0 with (inject_Z 0). rewrite <- Zlt_Qlt. lia.
Qed.

(** C6.  The profit margin is [profit / totalSales * 100] when the total of
    the filtered sales is positive and [0] otherwise; in both cases it is a
    finite number, the division being reached only with a positive
    divisor. *)
Theorem profitMargin_guarded
    (tz : Z) (clock : nat -> Z)
    (sales : list Sale.t) (expenses : list Expense.t)
    (shops : list Shop.t) (products : list Product.t) (f : Reports.Filter) :
  let a := Reports.analytics tz clock sales expenses shops products f in
  (0 < Reports.a_totalSales a ->
     Reports.a_profitMargin a
     = Fin (Reports.a_profit a / Reports.a_totalSales a * 100))
  /\ (Reports.a_totalSales a <= 0 -> Reports.a_profitMargin a = Fin 0)
  /\ (Reports.a_totalSales a == 0 -> Reports.a_profitMargin a = Fin 0)
  /\ is_finite (Reports.a_profitMargin a) = true
  /\ Reports.a_profitMargin a <> NaN.
Proof.
  cbv zeta. unfold Reports.analytics. simpl.
  set (fs := Reports.getFilteredData f sales).
  set (fe := Reports.getFilteredData f expenses).
  unfold Reports.profitMargin.
  destruct (Qlt_bool 0 (Reports.totalSales fs)) eqn:E.
  - apply Qlt_bool_iff in E.
    rewrite div_Fin_nonzero by (apply Qeq_bool_false_of_lt; exact E). simpl.
    repeat split; try reflexivity; try discriminate.
    + intro Hle. exfalso. exact (Qlt_not_le _ _ E Hle).
    + intro Hz. exfalso. rewrite Hz in E. exact (Qlt_irrefl _ E).
  - apply Qlt_bool_false_iff in E.
    repeat split; try reflexivity; try discriminate.
    intro Hlt. exfalso. exact (Qlt_not_le _ _ Hlt E).
Qed.

(** C10.  The average transaction value is the total of the filtered sales
    divided by their number when there is at least one, and [0] when there
    is none; it is a finite number in both cases. *)
Theorem averageTransactionValue_guarded
    (tz : Z) (clock : nat -> Z)
    (sales : list Sale.t) (expenses : list Expense.t)
    (shops : list Shop.t) (products : list Product.t) (f : Reports.Filter) :
  let a := Reports.analytics tz clock sales expenses shops products f in
  let n := List.length (Reports.getFilteredData f sales) in
  Reports.a_totalTransactions a = n
  /\ ((0 < n)%nat ->
        Reports.a_averageTransactionValue a
        = Fin (Reports.a_totalSales a / inject_Z (Z.of_nat n)))
  /\ (n = O -> Reports.a_averageTransactionValue a = Fin 0)
  /\ is_finite (Reports.a_averageTransactionValue a) = true
  /\ Reports.a_averageTransactionValue a <> NaN.
Proof.
  cbv zeta. unfold Reports.analytics. simpl.
  set (fs := Reports.getFilteredData f sales).
  unfold Reports.averageTransactionValue.
  split; [reflexivity|].
  destruct (Nat.ltb_spec 0 (List.length fs)) as [Hpos|Hzero].
  - rewrite div_Fin_nonzero
      by (apply Qeq_bool_false_of_lt, inject_Z_of_nat_pos; exact Hpos).
    repeat split; try reflexivity; try discriminate. lia.
  - repeat split; try reflexivity; try discriminate. lia.
Qed.

(** ** Sales by shop *)

(** C5.  [salesByShop] has one entry per shop, in the order of the shops;
    the entry of a shop carries its name, the sum of the amounts of its
    sales, the sum of its expenses, the number of its sales, and as profit
    the difference of the two sums.  A shop without records gets an entry
    of zeros. *)
Theorem salesByShop_one_entry_per_shop
    (shops : list Shop.t) (filteredSales : list Sale.t)
    (filteredExpenses : list Expense.t) :
  let result := Reports.salesByShop shops filteredSales filteredExpenses in
  List.length result = List.length shops
  /\ map Reports.ss_shopName result = map Shop.name shops
  /\ forall (i : nat) (shop : Shop.t),
       nth_error shops i = Some shop ->
       exists e,
         nth_error result i = Some e
         /\ Reports.ss_shopName e = Shop.name shop
         /\ Reports.ss_sales e
            == Spec.sum_where (Spec.of_shop shop) Sale.totalAmount
                 filteredSales
         /\ Reports.ss_expenses e
            == Spec.sum_where (Spec.expense_of_shop shop) Expense.amount
                 filteredExpenses
         /\ Reports.ss_transactions e
            = Spec.count_where (Spec.of_shop shop) filteredSales
         /\ Reports.ss_profit e
            == Spec.sum_where (Spec.of_shop shop) Sale.totalAmount
                 filteredSales
               - Spec.sum_where (Spec.expense_of_shop shop) Expense.amount
                   filteredExpenses
         /\ ((forall s, In s filteredSales -> Spec.of_shop shop s = false) ->
             (forall x, In x filteredExpenses ->
                        Spec.expense_of_shop shop x = false) ->
             Reports.ss_sales e = 0 /\ Reports.ss_expenses e = 0
             /\ Reports.ss_transactions e = O).
Proof.
  cbv zeta. unfold Reports.salesByShop.
  split; [apply length_map|].
  split; [rewrite map_map; reflexivity|].
  intros i shop Hi.
  eexists. split; [apply map_nth_error; exact Hi|]. simpl.
  fold (Spec.of_shop shop). fold (Spec.expense_of_shop shop).
  assert (Hnone : forall (B : Type) (P : B -> bool) (l : list B),
             (forall x, In x l -> P x = false) -> filter P l = []).
  { intros B P l HP. induction l as [|x l IH]; [reflexivity|].
    simpl. rewrite (HP x (or_introl eq_refl)). apply IH.
    intros y Hy. apply HP. right. exact Hy. }
  split; [reflexivity|].
  split; [apply reduce_sum_filter|].
  split; [apply reduce_sum_filter|].
  split; [apply length_filter_count|].
  split; [rewrite !reduce_sum_filter; reflexivity|].
  intros Hs He. rewrite (Hnone _ _ _ Hs), (Hnone _ _ _ He).
  repeat split.
Qed.

Section ShopTotals.
Variable shops : list Shop.t.
Hypothesis distinct_ids : NoDup (map Shop.id shops).

Lemma sum_over_shops_of_one (A : Type) (key : A -> string) (amount : A -> Q)
    (x : A) :
  In (key x) (map Shop.id shops) ->
  Spec.sum_of
    (fun shop => if String.eqb (key x) (Shop.id shop) then amount x else 0)
    shops
  == amount x.
Proof.
  revert distinct_ids.
  induction shops as [|shop l IH]; intros Hnd Hin; simpl in *.
  - contradiction.
  - inversion Hnd as [|? ? Hnotin Hnd']; subst.
    destruct (String.eqb_spec (key x) (Shop.id shop)) as [Heq|Hne].
    + rewrite sum_of_zero; [ring|].
      intros shop' Hshop'.
      destruct (String.eqb_spec (key x) (Shop.id shop')) as [Heq'|_];
        [|reflexivity].
      exfalso. apply Hnotin. rewrite <- Heq, Heq'.
      apply in_map. exact Hshop'.
    + destruct Hin as [Hhere|Hin]; [congruence|].
      rewrite (IH Hnd' Hin). ring.
Qed.

Lemma sum_over_shops (A : Type) (key : A -> string) (amount : A -> Q)
    (l : list A) :
  (forall x, In x l -> In (key x) (map Shop.id shops)) ->
  Spec.sum_of
    (fun shop =>
       Spec.sum_where (fun x => String.eqb (key x) (Shop.id shop)) amount l)
    shops
  == Spec.sum_of amount l.
Proof.
  induction l as [|x l IH]; intro Hin; simpl.
  - apply sum_of_zero. intros; reflexivity.
  - rewrite <- IH by (intros y Hy; apply Hin; right; exact Hy).
    rewrite <- (sum_over_shops_of_one key amount x)
      by (apply Hin; left; reflexivity).
    rewrite <- sum_of_plus. apply sum_of_ext.
    intros shop _. simpl.
    destruct (String.eqb (key x) (Shop.id shop)); ring.
Qed.

(** C9.  When the shops have pairwise distinct ids and every filtered sale
    and expense belongs to one of them, the per-shop sales add up to the
    total sales, the per-shop expenses to the total expenses, and the
    per-shop profits to the overall profit. *)
Theorem salesByShop_sums_to_totals
    (filteredSales : list Sale.t) (filteredExpenses : list Expense.t) :
  (forall s, In s filteredSales ->
             In (Sale.shopId s) (map Shop.id shops)) ->
  (forall e, In e filteredExpenses ->
             In (Expense.shopId e) (map Shop.id shops)) ->
  let result := Reports.salesByShop shops filteredSales filteredExpenses in
  Spec.sum_of Reports.ss_sales result == Reports.totalSales filteredSales
  /\ Spec.sum_of Reports.ss_expenses result
     == Reports.totalExpenses filteredExpenses
  /\ Spec.sum_of Reports.ss_profit result
     == Reports.profit filteredSales filteredExpenses.
Proof.
  intros Hs He. cbv zeta.
  unfold Reports.salesByShop, Reports.profit, Reports.totalSales,
    Reports.totalExpenses.
  rewrite !sum_of_map. simpl.
  assert (Hsales :
    Spec.sum_of
      (fun shop =>
         reduce_sum Sale.totalAmount
           (filter (fun sale => String.eqb (Sale.shopId sale) (Shop.id shop))
                   filteredSales)) shops
    == reduce_sum Sale.totalAmount filteredSales).
  { rewrite reduce_sum_sum_of, <- (sum_over_shops Sale.shopId _ _ Hs).
    apply sum_of_ext. intros shop _. apply reduce_sum_filter. }
  assert (Hexp :
    Spec.sum_of
      (fun shop =>
         reduce_sum Expense.amount
           (filter (fun e => String.eqb (Expense.shopId e) (Shop.id shop))
                   filteredExpenses)) shops
    == reduce_sum Expense.amount filteredExpenses).
  { rewrite reduce_sum_sum_of, <- (sum_over_shops Expense.shopId _ _ He).
    apply sum_of_ext. intros shop _. apply reduce_sum_filter. }
  split; [exact Hsales|]. split; [exact Hexp|].
  rewrite sum_of_minus, Hsales, Hexp. reflexivity.
Qed.
End ShopTotals.

(** ** Stock analysis *)

(** C7.  [stockAnalysis] has one record per product, in order.  Its total
    stock is the sum of the quantities of the product's stock table, its
    stock value that total times the price, its total sold the summed
    quantity of the filtered sales of the product, its turnover rate
    [totalSold / totalStock] when the total stock is positive and [0]
    otherwise (a finite number in both cases), and the low-stock flag holds
    exactly when the total stock is below the minimum stock. *)
Theorem stockAnalysis_per_product
    (products : list Product.t) (filteredSales : list Sale.t) :
  let result := Reports.stockAnalysis products filteredSales in
  List.length result = List.length products
  /\ forall (i : nat) (product : Product.t),
       nth_error products i = Some product ->
       exists r,
         nth_error result i = Some r
         /\ Reports.sa_name r = Product.name product
         /\ Reports.sa_category r = Product.category product
         /\ Reports.sa_totalStock r
            == Spec.sum_of snd (Product.stock product)
         /\ Reports.sa_stockValue r
            = Reports.sa_totalStock r * Product.price product
         /\ Reports.sa_totalSold r
            == Spec.sum_where (Spec.of_product (Product.id product))
                 Sale.quantity filteredSales
         /\ (0 < Reports.sa_totalStock r ->
             Reports.sa_turnoverRate r
             = Fin (Reports.sa_totalSold r / Reports.sa_totalStock r))
         /\ (Reports.sa_totalStock r <= 0 ->
             Reports.sa_turnoverRate r = Fin 0)
         /\ is_finite (Reports.sa_turnoverRate r) = true
         /\ (Reports.sa_isLowStock r = true
             <-> Reports.sa_totalStock r < Product.minStock product).
Proof.
  cbv zeta. unfold Reports.stockAnalysis.
  split; [apply length_map|].
  intros i product Hi.
  eexists. split; [apply map_nth_error; exact Hi|].
  cbn [Reports.sa_name Reports.sa_category Reports.sa_totalStock
       Reports.sa_stockValue Reports.sa_totalSold Reports.sa_turnoverRate
       Reports.sa_isLowStock].
  set (totalStock :=
         reduce_sum (fun qty => qty) (JsObject.values (Product.stock product))).
  split; [reflexivity|]. split; [reflexivity|].
  split.
  { unfold totalStock, JsObject.values.
    rewrite reduce_sum_sum_of, sum_of_map. reflexivity. }
  split; [reflexivity|].
  split; [apply reduce_sum_filter|].
  destruct (Qlt_bool 0 totalStock) eqn:E.
  - apply Qlt_bool_iff in E.
    rewrite div_Fin_nonzero by (apply Qeq_bool_false_of_lt; exact E).
    repeat split; try reflexivity; try apply Qlt_bool_iff.
    intro Hle. exfalso. exact (Qlt_not_le _ _ E Hle).
  - apply Qlt_bool_false_iff in E.
    repeat split; try reflexivity; try apply Qlt_bool_iff.
    intro Hlt. exfalso. exact (Qlt_not_le _ _ Hlt E).
Qed.

(** ** Recording a sale *)

(** C8.  A sale handed to [addSale] by [handleSubmit] carries the price of
    the selected product as unit price, the parsed quantity and the parsed
    discount (0 when it does not parse or is 0); when these are numbers [q]
    and [d], its total amount is [p * q - (p * q * d) / 100], which equals
    [unitPrice * quantity * (1 - discount / 100)]. *)
Theorem handleSubmit_totalAmount
    (parseInt parseFloat : string -> number)
    (products : list Product.t) (shops : list Shop.t)
    (currentUserId : option string)
    (formData : Sales.FormData) (sale : Sales.NewSale) :
  Sales.handleSubmit parseInt parseFloat products shops currentUserId formData
  = Sales.Recorded sale ->
  (exists product,
     find (fun p => String.eqb (Product.id p) (Sales.productId formData))
          products = Some product
     /\ Sales.ns_unitPrice sale = Product.price product)
  /\ Sales.ns_quantity sale = parseInt (Sales.quantity formData)
  /\ Sales.ns_discount sale
     = or_else (parseFloat (Sales.discount formData)) (Fin 0)
  /\ forall q d : Q,
       Sales.ns_quantity sale = Fin q ->
       Sales.ns_discount sale = Fin d ->
       exists t : Q,
         Sales.ns_totalAmount sale = Fin t
         /\ t = Sales.ns_unitPrice sale * q
                - (Sales.ns_unitPrice sale * q * d) / 100
         /\ t == Sales.ns_unitPrice sale * q * (1 - d / 100).
Proof.
  unfold Sales.handleSubmit.
  destruct (Reports.is_empty (Sales.productId formData)
            || Reports.is_empty (Sales.shopId formData)
            || Reports.is_empty (Sales.quantity formData))%bool;
    [discriminate|].
  destruct (find _ products) as [product|]; [|discriminate].
  destruct (find _ shops) as [shop|]; [|discriminate].
  destruct (gt _ _); [discriminate|].
  intro Hrec. injection Hrec as <-.
  cbn [Sales.ns_unitPrice Sales.ns_quantity Sales.ns_discount
       Sales.ns_totalAmount].
  split; [exists product; split; reflexivity|].
  split; [reflexivity|]. split; [reflexivity|].
  intros q d Hq Hd. rewrite Hq, Hd.
  eexists. split; [reflexivity|]. split; [reflexivity|].
  field.
Qed.

(** ** The daily trend *)

Lemma localDay_midnight (tz day : Z) :
  localDay tz (day * msPerDay - tz) = day.
Proof.
  unfold localDay.
  replace (day * msPerDay - tz + tz)%Z with (day * msPerDay)%Z by ring.
  apply Z.div_mul. unfold msPerDay. lia.
Qed.

Lemma localDay_setHours0 (tz t : Z) :
  localDay tz (setHours0 tz t) = localDay tz t.
Proof.
  unfold setHours0. apply localDay_midnight.
Qed.

Lemma localDay_setDateBack (tz t i : Z) :
  localDay tz (setDateBack t i) = (localDay tz t - i)%Z.
Proof.
  unfold localDay, setDateBack.
  replace (t - i * msPerDay + tz)%Z with (t + tz + (- i) * msPerDay)%Z
    by ring.
  rewrite Z.div_add by (unfold msPerDay; lia). ring.
Qed.

Lemma setHours0_eqb (tz a b : Z) :
  (setHours0 tz a =? setHours0 tz b)%Z = (localDay tz a =? localDay tz b)%Z.
Proof.
  unfold setHours0.
  destruct (Z.eqb_spec (localDay tz a) (localDay tz b)) as [Heq|Hne].
  - rewrite Heq. apply Z.eqb_refl.
  - apply Z.eqb_neq. intro Heq. apply Hne.
    apply (Z.mul_cancel_r _ _ msPerDay); [unfold msPerDay|]; lia.
Qed.

(** The sales a bucket of the loop selects are those of one local day. *)
Lemma dailySales_bucket_filter (tz now i : Z) (filteredSales : list Sale.t) :
  filter (fun sale =>
            (setHours0 tz (Sale.date sale)
             =? setHours0 tz (setDateBack now i))%Z) filteredSales
  = filter (Spec.on_day tz (localDay tz now - i)) filteredSales.
Proof.
  apply filter_ext. intro sale. unfold Spec.on_day.
  rewrite setHours0_eqb, localDay_setDateBack. reflexivity.
Qed.

Lemma dailySales_bucket_day (tz now i : Z) (filteredSales : list Sale.t) :
  let b := Reports.dailySales_bucket tz now i filteredSales in
  let day := (localDay tz now - i)%Z in
  Reports.ds_date b = Spec.day_label day
  /\ Reports.ds_amount b
     = reduce_sum Sale.totalAmount (filter (Spec.on_day tz day) filteredSales)
  /\ Reports.ds_transactions b
     = List.length (filter (Spec.on_day tz day) filteredSales).
Proof.
  cbv zeta. unfold Reports.dailySales_bucket.
  cbn [Reports.ds_date Reports.ds_amount Reports.ds_transactions].
  rewrite dailySales_bucket_filter.
  split; [|split; reflexivity].
  unfold monthDayLabel, Spec.day_label.
  rewrite localDay_setHours0, localDay_setDateBack. reflexivity.
Qed.

Lemma dailySales_loop_length (tz : Z) (clock : nat -> Z) (n first : nat)
    (filteredSales : list Sale.t) :
  List.length (Reports.dailySales_loop tz clock first n filteredSales) = n.
Proof.
  revert first. induction n as [|n IH]; intro first; simpl; congruence.
Qed.

(** The [k]-th bucket pushed comes from the [k]-th reading of the clock and
    the loop index [n - 1 - k]. *)
Lemma dailySales_loop_nth (tz : Z) (clock : nat -> Z) (n first k : nat)
    (filteredSales : list Sale.t) :
  (k < n)%nat ->
  nth_error (Reports.dailySales_loop tz clock first n filteredSales) k
  = Some (Reports.dailySales_bucket tz (clock (first + k)%nat)
            (Z.of_nat (n - 1 - k)) filteredSales).
Proof.
  revert first k. induction n as [|n IH]; intros first k Hk; [lia|].
  destruct k as [|k]; cbn [Reports.dailySales_loop nth_error].
  - replace (first + 0)%nat with first by lia.
    replace (S n - 1 - 0)%nat with n by lia.
    reflexivity.
  - rewrite IH by lia.
    replace (S first + k)%nat with (first + S k)%nat by lia.
    replace (S n - 1 - S k)%nat with (n - 1 - k)%nat by lia.
    reflexivity.
Qed.

Lemma sum_where_split {A : Type} (P R U : A -> bool) (f : A -> Q)
    (l : list A) :
  (forall x, U x = (P x || R x)%bool) ->
  (forall x, P x = true -> R x = false) ->
  Spec.sum_where P f l + Spec.sum_where R f l == Spec.sum_where U f l.
Proof.
  intros Hunion Hdisj. induction l as [|x l IH]; simpl; [ring|].
  rewrite (Hunion x). specialize (Hdisj x).
  destruct (P x), (R x); simpl; try (rewrite <- IH; ring).
  discriminate Hdisj. reflexivity.
Qed.

Lemma sum_where_none {A : Type} (P : A -> bool) (f : A -> Q) (l : list A) :
  (forall x, P x = false) -> Spec.sum_where P f l == 0.
Proof.
  intro HP. induction l as [|x l IH]; simpl; [reflexivity|].
  rewrite HP. exact IH.
Qed.

(** The amounts of the buckets of a run of the loop whose clock readings
    all fall on day [today] add up to the sales of the last [n] days. *)
Lemma dailySales_loop_sum (tz : Z) (clock : nat -> Z) (today : Z)
    (n first : nat) (filteredSales : list Sale.t) :
  (forall k, (k < n)%nat -> localDay tz (clock (first + k)%nat) = today) ->
  Spec.sum_of Reports.ds_amount
    (Reports.dailySales_loop tz clock first n filteredSales)
  == Spec.sum_where (Spec.in_window tz (today - Z.of_nat n + 1) today)
       Sale.totalAmount filteredSales.
Proof.
  revert first. induction n as [|n IH]; intros first Hclock.
  - simpl. symmetry. apply sum_where_none. intro s.
    unfold Spec.in_window. z_cases.
  - cbn [Reports.dailySales_loop Spec.sum_of].
    rewrite IH
      by (intros k Hk; replace (S first + k)%nat with (first + S k)%nat
            by lia; apply Hclock; lia).
    destruct (dailySales_bucket_day tz (clock first) (Z.of_nat n)
                filteredSales) as (_ & -> & _).
    rewrite reduce_sum_filter.
    replace (localDay tz (clock first)) with today
      by (symmetry; rewrite <- (Nat.add_0_r first); apply Hclock; lia).
    apply sum_where_split; intro s; unfold Spec.on_day, Spec.in_window.
    + z_cases.
    + z_cases.
Qed.

(** X22.  In an evaluation whose clock readings all fall on the calendar
    day [today], [dailySales] has exactly 30 buckets; the [k]-th is the
    bucket of day [today - 29 + k], so the days are consecutive and end at
    [today]; it carries the label of that day, the summed amount and the
    number of the filtered sales of that local calendar day, which are [0]
    and [0] when the day has no sale; and the amounts of the buckets add
    up to the amounts of the filtered sales of the 30 days. *)
Theorem dailySales_thirty_days
    (tz : Z) (clock : nat -> Z)
    (sales : list Sale.t) (expenses : list Expense.t)
    (shops : list Shop.t) (products : list Product.t) (f : Reports.Filter)
    (today : Z) :
  (forall k, (k < 30)%nat -> localDay tz (clock k) = today) ->
  let filteredSales := Reports.getFilteredData f sales in
  let buckets :=
    Reports.a_dailySales
      (Reports.analytics tz clock sales expenses shops products f) in
  List.length buckets = 30%nat
  /\ (forall k, (k < 30)%nat ->
        let day := (today - 29 + Z.of_nat k)%Z in
        exists b,
          nth_error buckets k = Some b
          /\ Reports.ds_date b = Spec.day_label day
          /\ Reports.ds_amount b
             == Spec.sum_where (Spec.on_day tz day) Sale.totalAmount
                  filteredSales
          /\ Reports.ds_transactions b
             = Spec.count_where (Spec.on_day tz day) filteredSales
          /\ (Spec.count_where (Spec.on_day tz day) filteredSales = O ->
              Reports.ds_amount b = 0 /\ Reports.ds_transactions b = O))
  /\ Spec.sum_of Reports.ds_amount buckets
     == Spec.sum_where (Spec.in_window tz (today - 29) today)
          Sale.totalAmount filteredSales.
Proof.
  intros Hclock. cbv zeta.
  cbn [Reports.analytics Reports.a_dailySales]. unfold Reports.dailySales.
  set (fs := Reports.getFilteredData f sales).
  split; [apply dailySales_loop_length|]. split.
  - intros k Hk. eexists.
    split; [apply dailySales_loop_nth; exact Hk|].
    destruct (dailySales_bucket_day tz (clock (0 + k)%nat)
                (Z.of_nat (30 - 1 - k)) fs) as (Hlabel & Hamount & Hcount).
    rewrite Hlabel, Hamount, Hcount. simpl (0 + k)%nat.
    rewrite (Hclock k Hk).
    replace (today - Z.of_nat (30 - 1 - k))%Z
      with (today - 29 + Z.of_nat k)%Z by lia.
    split; [reflexivity|].
    split; [apply reduce_sum_filter|].
    split; [apply length_filter_count|].
    rewrite <- length_filter_count. intro Hnone.
    apply length_zero_iff_nil in Hnone. rewrite Hnone.
    split; reflexivity.
  - rewrite (dailySales_loop_sum tz clock (today := today)) by
      (intros k Hk; apply Hclock; exact Hk).
    replace (today - Z.of_nat 30 + 1)%Z with (today - 29)%Z by lia.
    reflexivity.
Qed.

(** C1.  [dailySales] is written to give the 30 consecutive days that end
    today, but it reads [new Date()] anew in each iteration of its loop
    instead of once.  When midnight passes while the loop runs the days
    are not consecutive: with 15 readings on June 1st and 15 on June 2nd
    the buckets go from May 3 to June 2 and leave out May 18, every bucket
    is empty, and the amounts add up to 0, while the one filtered sale, of
    11 on May 18, lies in the 30 days that end on either date. *)
Lemma dailySales_skips_a_day_across_midnight :
  let filteredSales := Reports.getFilteredData no_filter [may_18th_sale] in
  let buckets :=
    Reports.a_dailySales
      (Reports.analytics 0 clock_across_midnight [may_18th_sale] [] [] []
         no_filter) in
  let first_reading := localDay 0 (clock_across_midnight 0) in
  let last_reading := localDay 0 (clock_across_midnight 29) in
  (Spec.day_label first_reading = "Jun 1"%string
   /\ Spec.day_label last_reading = "Jun 2"%string
   /\ Spec.day_label (localDay 0 (Sale.date may_18th_sale)) = "May 18"%string)
  /\ map Reports.ds_date buckets
     = ["May 3"; "May 4"; "May 5"; "May 6"; "May 7"; "May 8"; "May 9";
        "May 10"; "May 11"; "May 12"; "May 13"; "May 14"; "May 15";
        "May 16"; "May 17"; "May 19"; "May 20"; "May 21"; "May 22";
        "May 23"; "May 24"; "May 25"; "May 26"; "May 27"; "May 28";
        "May 29"; "May 30"; "May 31"; "Jun 1"; "Jun 2"]%string
  /\ Forall (fun b => Reports.ds_amount b == 0
                      /\ Reports.ds_transactions b = O) buckets
  /\ Spec.sum_of Reports.ds_amount buckets == 0
  /\ Spec.sum_where (Spec.in_window 0 (first_reading - 29) first_reading)
       Sale.totalAmount filteredSales == 11
  /\ Spec.sum_where (Spec.in_window 0 (last_reading - 29) last_reading)
       Sale.totalAmount filteredSales == 11.
Proof.
  cbv zeta.
  split; [repeat split; reflexivity|].
  split; [vm_compute; reflexivity|].
  split.
  { unfold Reports.analytics, Reports.a_dailySales, Reports.dailySales.
    cbn [Reports.dailySales_loop].
    repeat (constructor; [split; vm_compute; reflexivity|]).
    constructor. }
  repeat split; vm_compute; reflexivity.
Qed.

(** ** What the analytics depend on *)

Lemma dailySales_bucket_same_day (tz now1 now2 i : Z)
    (filteredSales : list Sale.t) :
  localDay tz now1 = localDay tz now2 ->
  Reports.dailySales_bucket tz now1 i filteredSales
  = Reports.dailySales_bucket tz now2 i filteredSales.
Proof.
  intro Hday. unfold Reports.dailySales_bucket.
  assert (Hdate : setHours0 tz (setDateBack now1 i)
                  = setHours0 tz (setDateBack now2 i)).
  { unfold setHours0. rewrite !localDay_setDateBack, Hday. reflexivity. }
  rewrite Hdate. reflexivity.
Qed.

Lemma dailySales_loop_same_days (tz : Z) (clock1 clock2 : nat -> Z)
    (n first : nat) (filteredSales : list Sale.t) :
  (forall k, (k < n)%nat ->
     localDay tz (clock1 (first + k)%nat)
     = localDay tz (clock2 (first + k)%nat)) ->
  Reports.dailySales_loop tz clock1 first n filteredSales
  = Reports.dailySales_loop tz clock2 first n filteredSales.
Proof.
  revert first. induction n as [|n IH]; intros first Hdays; [reflexivity|].
  cbn [Reports.dailySales_loop]. f_equal.
  - apply dailySales_bucket_same_day.
    specialize (Hdays O). rewrite Nat.add_0_r in Hdays. apply Hdays. lia.
  - apply IH. intros k Hk.
    replace (S first + k)%nat with (first + S k)%nat by lia.
    apply Hdays. lia.
Qed.

(** C3, as stated, fails: the same sales, expenses, shops, products and
    filter give two different results when the clock of the host stands at
    two different days, because the daily trend is anchored at [new Date()]. *)
Lemma analytics_differ_with_the_clock :
  Reports.analytics 0 (steady_clock june_1st_2024) [one_sale] [] [] [] no_filter
  <> Reports.analytics 0 (steady_clock (june_1st_2024 + msPerDay))
       [one_sale] [] [] [] no_filter.
Proof.
  intro Heq. apply (f_equal Reports.a_dailySales) in Heq.
  apply (f_equal (fun l => map Reports.ds_date (firstn 1 l))) in Heq.
  vm_compute in Heq. discriminate Heq.
Qed.

(** C3, amended.  The result is determined by the sales, expenses, shops,
    products and filter together with the time zone of the host and the
    local calendar day of each of the 30 clock readings: two evaluations
    that agree on these give the same result in every field.  Every field
    other than [dailySales] and [salesByMonth] is the same whatever the
    zone and the clock. *)
Theorem analytics_determined_up_to_clock_day
    (tz : Z) (clock1 clock2 : nat -> Z)
    (sales : list Sale.t) (expenses : list Expense.t)
    (shops : list Shop.t) (products : list Product.t) (f : Reports.Filter) :
  (forall k, (k < 30)%nat ->
     localDay tz (clock1 k) = localDay tz (clock2 k)) ->
  Reports.analytics tz clock1 sales expenses shops products f
  = Reports.analytics tz clock2 sales expenses shops products f
  /\ forall (tz' : Z) (clock' : nat -> Z),
       let a := Reports.analytics tz clock1 sales expenses shops products f in
       let a' :=
         Reports.analytics tz' clock' sales expenses shops products f in
       Reports.a_totalSales a = Reports.a_totalSales a'
       /\ Reports.a_totalExpenses a = Reports.a_totalExpenses a'
       /\ Reports.a_profit a = Reports.a_profit a'
       /\ Reports.a_profitMargin a = Reports.a_profitMargin a'
       /\ Reports.a_salesByShop a = Reports.a_salesByShop a'
       /\ Reports.a_topProducts a = Reports.a_topProducts a'
       /\ Reports.a_paymentMethods a = Reports.a_paymentMethods a'
       /\ Reports.a_expenseCategories a = Reports.a_expenseCategories a'
       /\ Reports.a_stockAnalysis a = Reports.a_stockAnalysis a'
       /\ Reports.a_topCustomers a = Reports.a_topCustomers a'
       /\ Reports.a_totalTransactions a = Reports.a_totalTransactions a'
       /\ Reports.a_averageTransactionValue a
          = Reports.a_averageTransactionValue a'.
Proof.
  intro Hdays. split.
  - unfold Reports.analytics, Reports.dailySales.
    f_equal. apply dailySales_loop_same_days. exact Hdays.
  - intros tz' clock'. cbv zeta. repeat split.
Qed.

(** ** Objects: lookup, update and enumeration order *)

Lemma array_index_canonical (k : string) (n : N) :
  JsObject.array_index k = Some n -> k = JsObject.show_N n.
Proof.
  unfold JsObject.array_index. destruct k as [|c k]; [discriminate|].
  destruct (JsObject.parse_digits (String c k) 0) as [m|]; [|discriminate].
  destruct (String.eqb_spec (JsObject.show_N m) (String c k)) as [Heq|_];
    [|discriminate].
  destruct (m <? 4294967295)%N; [|discriminate].
  intro Hm. injection Hm as <-. symmetry. exact Heq.
Qed.

Lemma array_index_inj (k1 k2 : string) (n : N) :
  JsObject.array_index k1 = Some n -> JsObject.array_index k2 = Some n ->
  k1 = k2.
Proof.
  intros H1 H2. apply array_index_canonical in H1, H2. congruence.
Qed.

Section ObjectFacts.
Variable V : Type.
Implicit Types (o : JsObject.t V) (k : string) (v : V).

Lemma get_None_not_key k o :
  JsObject.get k o = None <-> ~ In k (JsObject.keys o).
Proof.
  induction o as [|[k' v'] o IH]; simpl.
  - tauto.
  - destruct (String.eqb_spec k' k) as [Heq|Hne].
    + split; [discriminate|]. intro Hno. exfalso. apply Hno. left. exact Heq.
    + rewrite IH. tauto.
Qed.

Lemma get_Some_In k v o :
  JsObject.get k o = Some v -> In (k, v) o.
Proof.
  induction o as [|[k' v'] o IH]; simpl; [discriminate|].
  destruct (String.eqb_spec k' k) as [Heq|Hne].
  - intro Hv. injection Hv as <-. left. congruence.
  - intro Hv. right. exact (IH Hv).
Qed.

Lemma set_present k v v0 o :
  JsObject.get k o = Some v0 -> JsObject.set k v o = JsObject.replace k v o.
Proof.
  intro Hget. unfold JsObject.set. rewrite Hget. reflexivity.
Qed.

Lemma set_absent k v o :
  JsObject.get k o = None -> JsObject.set k v o = insert_new k v o.
Proof.
  intro Hget. unfold JsObject.set, insert_new. rewrite Hget. reflexivity.
Qed.

Lemma keys_replace k v o :
  JsObject.keys (JsObject.replace k v o) = JsObject.keys o.
Proof.
  induction o as [|[k' v'] o IH]; simpl; [reflexivity|].
  destruct (String.eqb k' k); simpl; congruence.
Qed.

Lemma get_replace k k' v o :
  JsObject.get k' (JsObject.replace k v o)
  = if String.eqb k k'
    then match JsObject.get k o with Some _ => Some v | None => None end
    else JsObject.get k' o.
Proof.
  induction o as [|[k0 v0] o IH]; simpl.
  - destruct (String.eqb k k'); reflexivity.
  - destruct (String.eqb_spec k0 k) as [H0|H0]; simpl.
    + subst k0. destruct (String.eqb k k'); reflexivity.
    + destruct (String.eqb_spec k0 k') as [H1|H1].
      * subst k0. destruct (String.eqb_spec k k'); [congruence|reflexivity].
      * exact IH.
Qed.

Lemma In_insert_index n k v o (x : string * V) :
  In x (JsObject.insert_index n k v o) <-> x = (k, v) \/ In x o.
Proof.
  induction o as [|[k' v'] o IH]; simpl.
  - intuition congruence.
  - destruct (JsObject.array_index k') as [n'|];
      [destruct (n' <? n)%N|]; simpl; rewrite ?IH; intuition congruence.
Qed.

Lemma In_insert_new k v o (x : string * V) :
  In x (insert_new k v o) <-> x = (k, v) \/ In x o.
Proof.
  unfold insert_new. destruct (JsObject.array_index k).
  - apply In_insert_index.
  - rewrite in_app_iff. simpl. intuition congruence.
Qed.

Lemma get_insert_index n k k' v o :
  JsObject.get k o = None ->
  JsObject.get k' (JsObject.insert_index n k v o)
  = if String.eqb k k' then Some v else JsObject.get k' o.
Proof.
  induction o as [|[k0 v0] o IH]; simpl; intro Hnone.
  - reflexivity.
  - destruct (String.eqb_spec k0 k) as [H0|H0]; [discriminate|].
    destruct (JsObject.array_index k0) as [n0|];
      [destruct (n0 <? n)%N|]; simpl; try reflexivity.
    rewrite (IH Hnone).
    destruct (String.eqb_spec k0 k') as [H1|H1]; [|reflexivity].
    destruct (String.eqb_spec k k'); [congruence|reflexivity].
Qed.

Lemma get_app_single k k' v o :
  JsObject.get k o = None ->
  JsObject.get k' (o ++ [(k, v)])
  = if String.eqb k k' then Some v else JsObject.get k' o.
Proof.
  induction o as [|[k0 v0] o IH]; simpl; intro Hnone.
  - reflexivity.
  - destruct (String.eqb_spec k0 k) as [H0|H0]; [discriminate|].
    rewrite (IH Hnone).
    destruct (String.eqb_spec k0 k') as [H1|H1]; [|reflexivity].
    destruct (String.eqb_spec k k'); [congruence|reflexivity].
Qed.

Lemma get_insert_new k k' v o :
  JsObject.get k o = None ->
  JsObject.get k' (insert_new k v o)
  = if String.eqb k k' then Some v else JsObject.get k' o.
Proof.
  unfold insert_new. destruct (JsObject.array_index k).
  - apply get_insert_index.
  - apply get_app_single.
Qed.

Lemma replace_insert_new k v v' o :
  JsObject.get k o = None ->
  JsObject.replace k v' (insert_new k v o) = insert_new k v' o.
Proof.
  intro Hnone. unfold insert_new.
  destruct (JsObject.array_index k) as [n|].
  - induction o as [|[k0 v0] o IH]; simpl in *.
    + rewrite String.eqb_refl. reflexivity.
    + destruct (String.eqb_spec k0 k) as [H0|H0]; [discriminate|].
      destruct (JsObject.array_index k0) as [n0|];
        [destruct (n0 <? n)%N|]; simpl;
        rewrite ?String.eqb_refl; try reflexivity.
      destruct (String.eqb_spec k0 k); [congruence|].
      rewrite (IH Hnone). reflexivity.
  - induction o as [|[k0 v0] o IH]; simpl in *.
    + rewrite String.eqb_refl. reflexivity.
    + destruct (String.eqb_spec k0 k) as [H0|H0]; [discriminate|].
      rewrite (IH Hnone). reflexivity.
Qed.

(** *** Enumeration order *)

Variable all : list string.

Lemma enumerated_before_irrefl k : ~ Spec.enumerated_before all k k.
Proof.
  unfold Spec.enumerated_before, Spec.first_seen_before.
  destruct (JsObject.array_index k); lia.
Qed.

Lemma enumerated_before_trans k1 k2 k3 :
  Spec.enumerated_before all k1 k2 -> Spec.enumerated_before all k2 k3 ->
  Spec.enumerated_before all k1 k3.
Proof.
  unfold Spec.enumerated_before, Spec.first_seen_before.
  destruct (JsObject.array_index k1), (JsObject.array_index k2),
    (JsObject.array_index k3); try tauto; lia.
Qed.

Lemma In_sorted_get k v o :
  StronglySorted (entry_before all) o -> In (k, v) o ->
  JsObject.get k o = Some v.
Proof.
  induction o as [|[k0 v0] o IH]; simpl; intros Hsorted Hin; [tauto|].
  inversion Hsorted as [|? ? Hrest Hhead]; subst.
  destruct (String.eqb_spec k0 k) as [H0|H0].
  - destruct Hin as [Hin|Hin]; [congruence|]. exfalso. subst k0.
    rewrite Forall_forall in Hhead. specialize (Hhead _ Hin).
    exact (enumerated_before_irrefl _ Hhead).
  - destruct Hin as [Hin|Hin]; [congruence|]. exact (IH Hrest Hin).
Qed.

Lemma sorted_replace k v o :
  StronglySorted (entry_before all) o ->
  StronglySorted (entry_before all) (JsObject.replace k v o).
Proof.
  induction 1 as [|[k0 v0] o Hrest IH Hhead]; simpl; [constructor|].
  destruct (String.eqb k0 k).
  - constructor; assumption.
  - constructor; [exact IH|].
    rewrite Forall_forall in *. intros [k1 v1] Hin.
    assert (Hkey : In k1 (JsObject.keys o)).
    { rewrite <- (keys_replace k v o). apply (in_map fst) in Hin.
      exact Hin. }
    apply in_map_iff in Hkey. destruct Hkey as ([k2 v2] & Hk & Hin2).
    simpl in Hk. subst k2. exact (Hhead _ Hin2).
Qed.

(** A new array index goes in front of the first larger index or
    non-index. *)
Lemma sorted_insert_index n k v o :
  JsObject.array_index k = Some n ->
  JsObject.get k o = None ->
  StronglySorted (entry_before all) o ->
  StronglySorted (entry_before all) (JsObject.insert_index n k v o).
Proof.
  intros Hidx Hnone Hsorted.
  induction Hsorted as [|[k0 v0] o Hrest IH Hhead]; simpl in *.
  - repeat constructor.
  - destruct (String.eqb_spec k0 k) as [H0|H0]; [discriminate|].
    assert (Hfront : entry_before all (k, v) (k0, v0) ->
              StronglySorted (entry_before all) ((k, v) :: (k0, v0) :: o)).
    { intro Hb. constructor; [constructor; assumption|].
      constructor; [exact Hb|].
      rewrite Forall_forall in *. intros x Hx.
      unfold entry_before in *.
      eapply enumerated_before_trans; [exact Hb|exact (Hhead x Hx)]. }
    destruct (JsObject.array_index k0) as [n0|] eqn:Hidx0.
    + destruct (N.ltb_spec n0 n) as [Hlt|Hge].
      * constructor; [exact (IH Hnone)|].
        rewrite Forall_forall in *. intros x Hx.
        apply In_insert_index in Hx. destruct Hx as [->|Hx].
        -- unfold entry_before, Spec.enumerated_before. simpl.
           rewrite Hidx0, Hidx. exact Hlt.
        -- exact (Hhead x Hx).
      * apply Hfront.
        unfold entry_before, Spec.enumerated_before. simpl.
        rewrite Hidx0, Hidx.
        assert (n0 <> n)
          by (intro; subst n0; apply H0;
              exact (array_index_inj _ _ Hidx0 Hidx)).
        lia.
    + apply Hfront.
      unfold entry_before, Spec.enumerated_before. simpl.
      rewrite Hidx0, Hidx. exact I.
Qed.

Lemma sorted_app_single (x : string * V) o :
  StronglySorted (entry_before all) o ->
  Forall (fun y => entry_before all y x) o ->
  StronglySorted (entry_before all) (o ++ [x]).
Proof.
  induction 1 as [|y o Hrest IH Hhead]; simpl; intro Hall.
  - repeat constructor.
  - inversion Hall as [|? ? Hyx Hall']; subst.
    constructor; [exact (IH Hall')|].
    apply Forall_app. split; [exact Hhead|]. repeat constructor. exact Hyx.
Qed.
End ObjectFacts.

(** ** Sorting *)

Section SortFacts.
Variable A : Type.
Variable cmp : A -> A -> Q.

Lemma In_sort_insert (x y : A) (l : list A) :
  In y (sort_insert cmp x l) <-> y = x \/ In y l.
Proof.
  induction l as [|z l IH]; simpl.
  - intuition congruence.
  - destruct (Qle_bool (cmp x z) 0); simpl; rewrite ?IH;
      intuition congruence.
Qed.

Lemma In_array_sort (y : A) (l : list A) :
  In y (array_sort cmp l) <-> In y l.
Proof.
  induction l as [|x l IH]; simpl; [tauto|].
  rewrite In_sort_insert, IH. intuition congruence.
Qed.

Lemma length_sort_insert (x : A) (l : list A) :
  List.length (sort_insert cmp x l) = S (List.length l).
Proof.
  induction l as [|z l IH]; simpl; [reflexivity|].
  destruct (Qle_bool (cmp x z) 0); simpl; congruence.
Qed.

Lemma length_array_sort (l : list A) :
  List.length (array_sort cmp l) = List.length l.
Proof.
  induction l as [|x l IH]; simpl; [reflexivity|].
  rewrite length_sort_insert. congruence.
Qed.

(** The comparator ranks by a score, the larger first. *)
Variable score : A -> Q.
Hypothesis cmp_score : forall a b, cmp a b = score b - score a.
(** The order of the array that is sorted. *)
Variable before : A -> A -> Prop.

Lemma cmp_nonpositive (x y : A) :
  Qle_bool (cmp x y) 0 = true <-> score y <= score x.
Proof.
  rewrite Qle_bool_iff, cmp_score. split; intro Hle.
  - apply Qplus_le_l with (z := - score x).
    rewrite Qplus_opp_r. exact Hle.
  - apply Qplus_le_l with (z := score x).
    ring_simplify. exact Hle.
Qed.

Lemma sorted_sort_insert (x : A) (s : list A) :
  Forall (before x) s ->
  StronglySorted (ranked_before score before) s ->
  StronglySorted (ranked_before score before) (sort_insert cmp x s).
Proof.
  intros Hbefore Hsorted.
  induction Hsorted as [|y s Hrest IH Hhead]; simpl.
  - repeat constructor.
  - inversion Hbefore as [|? ? Hxy Hbefore']; subst.
    destruct (Qle_bool (cmp x y) 0) eqn:E.
    + apply cmp_nonpositive in E.
      assert (Hrank : forall z, before x z -> score z <= score x ->
                                ranked_before score before x z).
      { intros z Hxz Hle. apply Qle_lteq in Hle.
        destruct Hle as [Hlt|Heq]; [left; exact Hlt|right; tauto]. }
      constructor; [constructor; assumption|].
      constructor; [exact (Hrank y Hxy E)|].
      rewrite Forall_forall in *. intros z Hz.
      apply Hrank; [exact (Hbefore' z Hz)|].
      apply Qle_trans with (y := score y); [|exact E].
      destruct (Hhead z Hz) as [Hlt|[Heq _]].
      * apply Qlt_le_weak. exact Hlt.
      * rewrite Heq. apply Qle_refl.
    + constructor; [exact (IH Hbefore')|].
      rewrite Forall_forall in *. intros z Hz.
      apply In_sort_insert in Hz. destruct Hz as [->|Hz].
      * left. apply Qnot_le_lt. intro Hle.
        apply cmp_nonpositive in Hle. congruence.
      * exact (Hhead z Hz).
Qed.

(** A stable sort: elements are ranked by score, and among equal scores
    keep the order they had. *)
Lemma sorted_array_sort (l : list A) :
  StronglySorted before l ->
  StronglySorted (ranked_before score before) (array_sort cmp l).
Proof.
  induction 1 as [|x l Hrest IH Hhead]; simpl; [constructor|].
  apply sorted_sort_insert; [|exact IH].
  rewrite Forall_forall in *. intros z Hz.
  apply Hhead. apply (proj1 (In_array_sort z l)). exact Hz.
Qed.
End SortFacts.

Lemma array_sort_map {A B : Type} (g : B -> A) (cmp : A -> A -> Q)
    (l : list B) :
  map g (array_sort (fun a b => cmp (g a) (g b)) l)
  = array_sort cmp (map g l).
Proof.
  induction l as [|x l IH]; simpl; [reflexivity|].
  rewrite <- IH. generalize (array_sort (fun a b => cmp (g a) (g b)) l).
  intro s. induction s as [|y s IHs]; simpl; [reflexivity|].
  destruct (Qle_bool (cmp (g x) (g y)) 0); simpl; congruence.
Qed.

Lemma StronglySorted_nth {A : Type} (T : A -> A -> Prop) (l : list A) :
  StronglySorted T l ->
  forall (i j : nat) (a b : A),
    (i < j)%nat -> nth_error l i = Some a -> nth_error l j = Some b -> T a b.
Proof.
  induction 1 as [|x l Hrest IH Hhead]; intros i j a b Hij Hi Hj.
  - destruct i; discriminate.
  - destruct j as [|j]; [lia|]. simpl in Hj.
    destruct i as [|i]; simpl in Hi.
    + injection Hi as <-. rewrite Forall_forall in Hhead.
      apply Hhead. exact (nth_error_In _ _ Hj).
    + apply (IH i j); [lia|assumption|assumption].
Qed.

Lemma firstn_In {A : Type} (n : nat) (l : list A) (x : A) :
  In x (firstn n l) -> In x l.
Proof.
  intro Hin. rewrite <- (firstn_skipn n l). apply in_or_app. left. exact Hin.
Qed.

Lemma StronglySorted_firstn {A : Type} (T : A -> A -> Prop) (n : nat)
    (l : list A) :
  StronglySorted T l -> StronglySorted T (firstn n l).
Proof.
  intro Hsorted. revert n.
  induction Hsorted as [|x l Hrest IH Hhead]; intro n.
  - rewrite firstn_nil. constructor.
  - destruct n as [|n]; simpl; constructor; [apply IH|].
    rewrite Forall_forall in *. intros z Hz.
    apply Hhead. rewrite <- (firstn_skipn n l). apply in_or_app.
    left. exact Hz.
Qed.

(** ** Top products *)

Lemma sum_where_app {A : Type} (P : A -> bool) (f : A -> Q)
    (l1 l2 : list A) :
  Spec.sum_where P f (l1 ++ l2)
  == Spec.sum_where P f l1 + Spec.sum_where P f l2.
Proof.
  induction l1 as [|x l1 IH]; simpl; [ring|].
  destruct (P x); rewrite IH; ring.
Qed.

Lemma count_where_app {A : Type} (P : A -> bool) (l1 l2 : list A) :
  Spec.count_where P (l1 ++ l2)
  = (Spec.count_where P l1 + Spec.count_where P l2)%nat.
Proof.
  induction l1 as [|x l1 IH]; simpl; [reflexivity|].
  destruct (P x); rewrite IH; reflexivity.
Qed.

Lemma of_product_absent (k : string) (sales : list Sale.t) :
  ~ In k (map Sale.productId sales) ->
  forall s, In s sales -> Spec.of_product k s = false.
Proof.
  intros Hno s Hs. unfold Spec.of_product.
  destruct (String.eqb_spec (Sale.productId s) k) as [Heq|]; [|reflexivity].
  exfalso. apply Hno. rewrite <- Heq. apply in_map. exact Hs.
Qed.

Lemma sum_where_absent {A : Type} (P : A -> bool) (f : A -> Q) (l : list A) :
  (forall x, In x l -> P x = false) -> Spec.sum_where P f l = 0.
Proof.
  induction l as [|x l IH]; intro HP; simpl; [reflexivity|].
  rewrite (HP x (or_introl eq_refl)). apply IH.
  intros y Hy. apply HP. right. exact Hy.
Qed.

Lemma count_where_absent {A : Type} (P : A -> bool) (l : list A) :
  (forall x, In x l -> P x = false) -> Spec.count_where P l = O.
Proof.
  induction l as [|x l IH]; intro HP; simpl; [reflexivity|].
  rewrite (HP x (or_introl eq_refl)). apply IH.
  intros y Hy. apply HP. right. exact Hy.
Qed.

Lemma count_where_present (k : string) (sales : list Sale.t) :
  In k (map Sale.productId sales) ->
  (1 <= Spec.count_where (Spec.of_product k) sales)%nat.
Proof.
  induction sales as [|s l IH]; simpl; [tauto|].
  unfold Spec.of_product at 1.
  destruct (String.eqb_spec (Sale.productId s) k) as [Heq|Hne]; [lia|].
  intros [Hhere|Hin]; [congruence|]. exact (IH Hin).
Qed.

Lemma first_pos_app_in (k : string) (pre rest : list string) :
  In k pre ->
  Spec.first_pos k (pre ++ rest) = Spec.first_pos k pre
  /\ (Spec.first_pos k pre < List.length pre)%nat.
Proof.
  induction pre as [|k0 pre IH]; simpl; [tauto|].
  intro Hin. destruct (String.eqb_spec k0 k) as [Heq|Hne]; [lia|].
  destruct Hin as [Hhere|Hin]; [congruence|].
  destruct (IH Hin). lia.
Qed.

Lemma first_pos_app_notin (k : string) (pre rest : list string) :
  ~ In k pre ->
  Spec.first_pos k (pre ++ k :: rest) = List.length pre.
Proof.
  induction pre as [|k0 pre IH]; simpl; intro Hno.
  - rewrite String.eqb_refl. reflexivity.
  - destruct (String.eqb_spec k0 k) as [Heq|Hne]; [tauto|].
    rewrite IH; tauto.
Qed.

Lemma productSales_step_cases (o : JsObject.t Reports.ProductSales)
    (sale : Sale.t) :
  Reports.productSales_step o sale
  = match JsObject.get (Sale.productId sale) o with
    | Some e => JsObject.replace (Sale.productId sale) (bump sale e) o
    | None => insert_new (Sale.productId sale) (bump sale (fresh sale)) o
    end.
Proof.
  unfold Reports.productSales_step.
  destruct (JsObject.get (Sale.productId sale) o) as [e|] eqn:Hget.
  - rewrite Hget. eapply set_present. exact Hget.
  - fold (fresh sale).
    rewrite (set_absent _ _ _ Hget), (get_insert_new _ _ _ _ Hget),
      String.eqb_refl.
    erewrite set_present
      by (rewrite (get_insert_new _ _ _ _ Hget), String.eqb_refl;
          reflexivity).
    apply (replace_insert_new _ _ _ _ Hget).
Qed.

Lemma group_of_other (pre : list Sale.t) (s : Sale.t) (k : string)
    (e : Reports.ProductSales) :
  Sale.productId s <> k -> group_of pre k e -> group_of (pre ++ [s]) k e.
Proof.
  intros Hne (Hq & Hr & Ht). unfold group_of.
  rewrite !sum_where_app, count_where_app. simpl.
  unfold Spec.of_product at 2 4 6.
  destruct (String.eqb_spec (Sale.productId s) k) as [|_]; [contradiction|].
  rewrite Hq, Hr, Ht. repeat split; try ring. lia.
Qed.

Lemma group_of_same (pre : list Sale.t) (s : Sale.t)
    (e : Reports.ProductSales) :
  group_of pre (Sale.productId s) e ->
  group_of (pre ++ [s]) (Sale.productId s) (bump s e).
Proof.
  intros (Hq & Hr & Ht). unfold group_of, bump.
  cbn [Reports.ps_quantity Reports.ps_revenue Reports.ps_transactions].
  rewrite !sum_where_app, count_where_app. simpl.
  unfold Spec.of_product at 2 4 6. rewrite String.eqb_refl.
  rewrite Hq, Hr, Ht. repeat split; try ring.
Qed.

Lemma group_of_fresh (pre : list Sale.t) (s : Sale.t) (k : string) :
  ~ In k (map Sale.productId pre) -> group_of pre k (fresh s).
Proof.
  intro Hno. unfold group_of, fresh.
  cbn [Reports.ps_quantity Reports.ps_revenue Reports.ps_transactions].
  rewrite !(sum_where_absent _ _ _ (of_product_absent _ _ Hno)),
    (count_where_absent _ _ (of_product_absent _ _ Hno)).
  repeat split; reflexivity.
Qed.

Section ProductSalesInvariant.
(** The product ids of all the sales, in order. *)
Variable all : list string.

Lemma productSales_inv_step (pre rest : list Sale.t) (s : Sale.t)
    (o : JsObject.t Reports.ProductSales) :
  all = map Sale.productId (pre ++ s :: rest) ->
  productSales_inv all pre o ->
  productSales_inv all (pre ++ [s]) (Reports.productSales_step o s).
Proof.
  intros Hall (Hgroups & Hsorted).
  rewrite productSales_step_cases.
  assert (Hids : forall k, In k (map Sale.productId (pre ++ [s]))
                           <-> In k (map Sale.productId pre)
                               \/ Sale.productId s = k).
  { intro k. rewrite map_app, in_app_iff. simpl. tauto. }
  pose proof (Hgroups (Sale.productId s)) as Hown.
  destruct (JsObject.get (Sale.productId s) o) as [e|] eqn:Hget.
  - split; [|apply sorted_replace; exact Hsorted].
    intro k. rewrite get_replace, Hget.
    destruct (String.eqb_spec (Sale.productId s) k) as [<-|Hne].
    + split; [apply Hids; tauto|]. apply group_of_same. tauto.
    + specialize (Hgroups k).
      destruct (JsObject.get k o) as [ek|].
      * split; [apply Hids; tauto|]. apply group_of_other; tauto.
      * rewrite Hids. tauto.
  - split.
    + intro k. rewrite (get_insert_new _ _ _ _ Hget).
      destruct (String.eqb_spec (Sale.productId s) k) as [<-|Hne].
      * split; [apply Hids; tauto|].
        apply group_of_same, group_of_fresh. exact Hown.
      * specialize (Hgroups k).
        destruct (JsObject.get k o) as [ek|].
        -- split; [apply Hids; tauto|]. apply group_of_other; tauto.
        -- rewrite Hids. tauto.
    + unfold insert_new.
      destruct (JsObject.array_index (Sale.productId s)) as [n|] eqn:Hidx.
      * apply sorted_insert_index; assumption.
      * apply sorted_app_single; [exact Hsorted|].
        rewrite Forall_forall. intros [k e] Hin.
        pose proof (In_sorted_get _ _ Hsorted Hin) as Hk.
        specialize (Hgroups k). rewrite Hk in Hgroups.
        destruct Hgroups as (Hseen & _).
        unfold entry_before, Spec.enumerated_before. simpl.
        rewrite Hidx. destruct (JsObject.array_index k); [exact I|].
        unfold Spec.first_seen_before. rewrite Hall, map_app. simpl.
        destruct (first_pos_app_in k (map Sale.productId pre)
                    (Sale.productId s :: map Sale.productId rest) Hseen)
          as (-> & Hlt).
        rewrite first_pos_app_notin by exact Hown. exact Hlt.
Qed.

Lemma productSales_inv_fold (rest pre : list Sale.t)
    (o : JsObject.t Reports.ProductSales) :
  all = map Sale.productId (pre ++ rest) ->
  productSales_inv all pre o ->
  productSales_inv all (pre ++ rest) (fold_left Reports.productSales_step rest o).
Proof.
  revert pre o. induction rest as [|s rest IH]; intros pre o Hall Hinv.
  - rewrite app_nil_r. exact Hinv.
  - simpl.
    replace (pre ++ s :: rest) with ((pre ++ [s]) ++ rest)
      by (rewrite <- app_assoc; reflexivity).
    apply IH.
    + rewrite <- app_assoc. exact Hall.
    + eapply productSales_inv_step; eassumption.
Qed.
End ProductSalesInvariant.

Lemma productSales_invariant (filteredSales : list Sale.t) :
  productSales_inv (map Sale.productId filteredSales) filteredSales
    (Reports.productSales filteredSales).
Proof.
  unfold Reports.productSales.
  change filteredSales with ([] ++ filteredSales) at 2.
  apply productSales_inv_fold.
  - reflexivity.
  - split; [intro k; simpl; tauto|constructor].
Qed.

Lemma topProducts_ranked_products (filteredSales : list Sale.t) :
  Reports.topProducts filteredSales
  = map snd (Spec.ranked_products filteredSales).
Proof.
  unfold Reports.topProducts, Spec.ranked_products, JsObject.values.
  rewrite <- firstn_map, array_sort_map. reflexivity.
Qed.

Lemma StronglySorted_app_cross {A : Type} (T : A -> A -> Prop)
    (l1 l2 : list A) :
  StronglySorted T (l1 ++ l2) ->
  forall a b, In a l1 -> In b l2 -> T a b.
Proof.
  induction l1 as [|x l1 IH]; simpl; intros Hsorted a b Ha Hb; [tauto|].
  inversion Hsorted as [|? ? Hrest Hhead]; subst.
  destruct Ha as [<-|Ha].
  - rewrite Forall_forall in Hhead. apply Hhead, in_or_app. right. exact Hb.
  - exact (IH Hrest a b Ha Hb).
Qed.

(** The sorted entries: a later entry has no larger revenue, and on equal
    revenue its key is enumerated later by [productSales]. *)
Lemma sorted_products_sorted (filteredSales : list Sale.t) :
  StronglySorted
    (ranked_before (fun a => Reports.ps_revenue (snd a))
       (entry_before (map Sale.productId filteredSales)))
    (array_sort (fun a b => Reports.by_revenue_desc (snd a) (snd b))
       (Reports.productSales filteredSales)).
Proof.
  apply sorted_array_sort.
  - intros a b. reflexivity.
  - apply productSales_invariant.
Qed.

Lemma ranked_products_sorted (filteredSales : list Sale.t) :
  StronglySorted
    (ranked_before (fun a => Reports.ps_revenue (snd a))
       (entry_before (map Sale.productId filteredSales)))
    (Spec.ranked_products filteredSales).
Proof.
  unfold Spec.ranked_products. apply StronglySorted_firstn.
  apply sorted_products_sorted.
Qed.

Lemma In_ranked_products (filteredSales : list Sale.t) (k : string)
    (e : Reports.ProductSales) :
  In (k, e) (Spec.ranked_products filteredSales) ->
  JsObject.get k (Reports.productSales filteredSales) = Some e.
Proof.
  intro Hin. unfold Spec.ranked_products in Hin.
  assert (Hin' : In (k, e) (Reports.productSales filteredSales)).
  { apply firstn_In in Hin. rewrite In_array_sort in Hin. exact Hin. }
  destruct (productSales_invariant filteredSales) as (_ & Hsorted).
  exact (In_sorted_get _ _ Hsorted Hin').
Qed.

(** C2, as stated, fails on the tie-break: two sales of equal amount, of
    product "2" and then of product "1", are ranked with product "1"
    first, because [Object.values] enumerates array-index keys in numeric
    order whatever the order of creation. *)
Lemma topProducts_ties_not_first_seen :
  map Reports.ps_name (Reports.topProducts tied_sales) = ["Apples"; "Bread"]%string
  /\ ~ Spec.ties_in_first_seen_order tied_sales.
Proof.
  split; [vm_compute; reflexivity|].
  intro Hties.
  assert (Hbefore :
    Spec.first_seen_before (map Sale.productId tied_sales) "1" "2").
  { eapply (Hties 0%nat 1%nat); [lia|reflexivity|reflexivity|reflexivity]. }
  vm_compute in Hbefore. lia.
Qed.

(** C2, amended.  [topProducts] groups the sales by product id, each entry
    holding the summed quantity, the summed amount and the number of the
    sales of its product (at least one); every product id sold has a
    group, and the result is the first 10 groups (all, when fewer) in
    order of non-increasing revenue, no group left out having a larger
    revenue than one kept.  Entries of equal revenue keep the
    enumeration order of the object they were collected in: product ids
    that are array indices first, in ascending numeric order, then the
    other ids in the order in which they are first seen.  In particular,
    when no product id is an array index, ties are in first-seen order. *)
Theorem topProducts_ranking (filteredSales : list Sale.t) :
  let ranked := Spec.ranked_products filteredSales in
  let ids := map Sale.productId filteredSales in
  Reports.topProducts filteredSales = map snd ranked
  /\ (List.length (Reports.topProducts filteredSales) <= 10)%nat
  /\ (forall k e,
        In (k, e) ranked ->
        In k ids
        /\ Reports.ps_quantity e
           == Spec.sum_where (Spec.of_product k) Sale.quantity filteredSales
        /\ Reports.ps_revenue e
           == Spec.sum_where (Spec.of_product k) Sale.totalAmount
                filteredSales
        /\ Reports.ps_transactions e
           = Spec.count_where (Spec.of_product k) filteredSales
        /\ (1 <= Reports.ps_transactions e)%nat)
  /\ (forall i j a b,
        (i < j)%nat ->
        nth_error (Reports.topProducts filteredSales) i = Some a ->
        nth_error (Reports.topProducts filteredSales) j = Some b ->
        Reports.ps_revenue b <= Reports.ps_revenue a)
  /\ (forall i j k1 e1 k2 e2,
        (i < j)%nat ->
        nth_error ranked i = Some (k1, e1) ->
        nth_error ranked j = Some (k2, e2) ->
        Reports.ps_revenue e1 == Reports.ps_revenue e2 ->
        Spec.enumerated_before ids k1 k2)
  /\ ((forall s, In s filteredSales ->
                 JsObject.array_index (Sale.productId s) = None) ->
      Spec.ties_in_first_seen_order filteredSales)
  /\ (forall k, In k ids ->
        exists e, JsObject.get k (Reports.productSales filteredSales) = Some e)
  /\ List.length ranked
     = Nat.min 10 (List.length (Reports.productSales filteredSales))
  /\ (forall k e k' e',
        In (k, e) ranked ->
        In (k', e') (Reports.productSales filteredSales) ->
        ~ In (k', e') ranked ->
        Reports.ps_revenue e' <= Reports.ps_revenue e).
Proof.
  cbv zeta.
  pose proof (ranked_products_sorted filteredSales) as Hsorted.
  assert (Hgroup : forall k e,
            In (k, e) (Spec.ranked_products filteredSales) ->
            In k (map Sale.productId filteredSales)
            /\ group_of filteredSales k e).
  { intros k e Hin. apply In_ranked_products in Hin.
    destruct (productSales_invariant filteredSales) as (Hgroups & _).
    specialize (Hgroups k). rewrite Hin in Hgroups. exact Hgroups. }
  assert (Hpair : forall i j k1 e1 k2 e2,
            (i < j)%nat ->
            nth_error (Spec.ranked_products filteredSales) i = Some (k1, e1) ->
            nth_error (Spec.ranked_products filteredSales) j = Some (k2, e2) ->
            Reports.ps_revenue e2 <= Reports.ps_revenue e1
            /\ (Reports.ps_revenue e1 == Reports.ps_revenue e2 ->
                Spec.enumerated_before (map Sale.productId filteredSales)
                  k1 k2)).
  { intros i j k1 e1 k2 e2 Hij Hi Hj.
    pose proof (@StronglySorted_nth _ _ _ Hsorted i j _ _ Hij Hi Hj)
      as Hrank.
    destruct Hrank as [Hlt|(Heq & Hb)]; simpl in *.
    - split; [apply Qlt_le_weak; exact Hlt|].
      intro Heq. rewrite Heq in Hlt. exfalso. exact (Qlt_irrefl _ Hlt).
    - split; [rewrite Heq; apply Qle_refl|]. intros _. exact Hb. }
  split; [apply topProducts_ranked_products|].
  split; [apply firstn_le_length|].
  split.
  { intros k e Hin. destruct (Hgroup k e Hin) as (Hseen & Hq & Hr & Ht).
    repeat split; try assumption.
    rewrite Ht. apply count_where_present. exact Hseen. }
  split.
  { intros i j a b Hij Hi Hj.
    rewrite topProducts_ranked_products, nth_error_map in Hi, Hj.
    destruct (nth_error (Spec.ranked_products filteredSales) i)
      as [[k1 e1]|] eqn:Ei; [|discriminate].
    destruct (nth_error (Spec.ranked_products filteredSales) j)
      as [[k2 e2]|] eqn:Ej; [|discriminate].
    simpl in Hi, Hj. injection Hi as <-. injection Hj as <-.
    exact (proj1 (Hpair i j k1 e1 k2 e2 Hij Ei Ej)). }
  split.
  { intros i j k1 e1 k2 e2 Hij Hi Hj.
    exact (proj2 (Hpair i j k1 e1 k2 e2 Hij Hi Hj)). }
  split.
  { intros Hplain i j k1 k2 e1 e2 Hij Hi Hj Heq.
    pose proof (proj2 (Hpair i j k1 e1 k2 e2 Hij Hi Hj) Heq) as Hb.
    assert (Hnoidx : forall k e,
              In (k, e) (Spec.ranked_products filteredSales) ->
              JsObject.array_index k = None).
    { intros k e Hin. destruct (Hgroup k e Hin) as (Hseen & _).
      apply in_map_iff in Hseen. destruct Hseen as (s & <- & Hs).
      exact (Hplain s Hs). }
    unfold Spec.enumerated_before in Hb.
    rewrite (Hnoidx k1 e1 (nth_error_In _ _ Hi)),
      (Hnoidx k2 e2 (nth_error_In _ _ Hj)) in Hb.
    exact Hb. }
  split.
  { intros k Hk.
    destruct (productSales_invariant filteredSales) as (Hgroups & _).
    specialize (Hgroups k).
    destruct (JsObject.get k (Reports.productSales filteredSales)) as [e|];
      [exists e; reflexivity|contradiction]. }
  split.
  { unfold Spec.ranked_products.
    rewrite length_firstn, length_array_sort. reflexivity. }
  intros k e k' e' Hin Hall Hout.
  unfold Spec.ranked_products in Hin, Hout.
  set (sorted := array_sort
                   (fun a b => Reports.by_revenue_desc (snd a) (snd b))
                   (Reports.productSales filteredSales)) in *.
  assert (Hrest : In (k', e') (skipn 10 sorted)).
  { assert (Hs : In (k', e') sorted) by (apply In_array_sort; exact Hall).
    rewrite <- (firstn_skipn 10 sorted) in Hs.
    apply in_app_or in Hs. tauto. }
  pose proof (sorted_products_sorted filteredSales) as Hfull.
  fold sorted in Hfull. rewrite <- (firstn_skipn 10 sorted) in Hfull.
  destruct (@StronglySorted_app_cross _ _ _ _ Hfull _ _ Hin Hrest)
    as [Hlt|(Heq & _)]; simpl in *.
  - apply Qlt_le_weak. exact Hlt.
  - rewrite Heq. apply Qle_refl.
Qed.

(** ** The properties at the sample data *)

(** The daily trend of one sale of 100 made on 2024-06-01 (day 19875),
    evaluated on that day in UTC. *)
Lemma dailySales_thirty_days_witness :
  (forall k, (k < 30)%nat ->
     localDay 0 (steady_clock june_1st_2024 k) = 19875%Z)
  /\ List.length
       (Reports.a_dailySales
          (Reports.analytics 0 (steady_clock june_1st_2024)
             [one_sale] [] [] [] no_filter)) = 30%nat
  /\ Spec.sum_of Reports.ds_amount
       (Reports.a_dailySales
          (Reports.analytics 0 (steady_clock june_1st_2024)
             [one_sale] [] [] [] no_filter)) == 100.
Proof.
  assert (Hclock : forall k, (k < 30)%nat ->
            localDay 0 (steady_clock june_1st_2024 k) = 19875%Z)
    by (intros k Hk; vm_compute; reflexivity).
  split; [exact Hclock|].
  destruct (dailySales_thirty_days 0 (steady_clock june_1st_2024)
              [one_sale] [] [] [] no_filter Hclock) as (Hlen & _ & Hsum).
  split; [exact Hlen|].
  exact (Qeq_trans _ _ _ Hsum (Qeq_refl 100)).
Defined.

(** Two evaluations one hour apart on the same day. *)
Lemma analytics_determined_up_to_clock_day_witness :
  (forall k, (k < 30)%nat ->
     localDay 0 (steady_clock june_1st_2024 k)
     = localDay 0 (steady_clock (june_1st_2024 + 3600000) k))
  /\ Reports.analytics 0 (steady_clock june_1st_2024)
       two_sales one_expense two_shops [soap] no_filter
     = Reports.analytics 0 (steady_clock (june_1st_2024 + 3600000))
         two_sales one_expense two_shops [soap] no_filter.
Proof.
  assert (Hdays : forall k, (k < 30)%nat ->
            localDay 0 (steady_clock june_1st_2024 k)
            = localDay 0 (steady_clock (june_1st_2024 + 3600000) k))
    by (intros k Hk; vm_compute; reflexivity).
  split; [exact Hdays|].
  exact (proj1 (analytics_determined_up_to_clock_day 0
                  (steady_clock june_1st_2024)
                  (steady_clock (june_1st_2024 + 3600000))
                  two_sales one_expense two_shops [soap] no_filter Hdays)).
Defined.

(** Three soaps at 25 with 10 percent off are recorded at 67.50. *)
Lemma handleSubmit_totalAmount_witness :
  Sales.handleSubmit Sales.parseInt_decimal Sales.parseFloat_decimal
    [soap] two_shops None soap_form = Sales.Recorded soap_sale
  /\ exists t : Q,
       Sales.ns_totalAmount soap_sale = Fin t
       /\ t == 25 * 3 * (1 - 10 / 100).
Proof.
  assert (Hrec : Sales.handleSubmit Sales.parseInt_decimal
                   Sales.parseFloat_decimal [soap] two_shops None soap_form
                 = Sales.Recorded soap_sale) by (vm_compute; reflexivity).
  split; [exact Hrec|].
  destruct (handleSubmit_totalAmount Sales.parseInt_decimal
              Sales.parseFloat_decimal [soap] two_shops None soap_form Hrec)
    as (_ & _ & _ & Htotal).
  destruct (Htotal 3 10 eq_refl eq_refl) as (t & Ht & _ & Heq).
  exists t. split; [exact Ht|exact Heq].
Defined.

(** Two shops with sales of 100 and 50 and one expense of 30. *)
Lemma salesByShop_sums_to_totals_witness :
  NoDup (map Shop.id two_shops)
  /\ Spec.sum_of Reports.ss_sales
       (Reports.salesByShop two_shops two_sales one_expense)
     == Reports.totalSales two_sales
  /\ Spec.sum_of Reports.ss_profit
       (Reports.salesByShop two_shops two_sales one_expense)
     == Reports.profit two_sales one_expense.
Proof.
  assert (Hdistinct : NoDup (map Shop.id two_shops)).
  { simpl. repeat constructor; simpl; intuition discriminate. }
  assert (Hsales : forall s, In s two_sales ->
                     In (Sale.shopId s) (map Shop.id two_shops)).
  { intros s [<-|[<-|[]]]; simpl; tauto. }
  assert (Hexpenses : forall e, In e one_expense ->
                        In (Expense.shopId e) (map Shop.id two_shops)).
  { intros e [<-|[]]; simpl; tauto. }
  split; [exact Hdistinct|].
  destruct (salesByShop_sums_to_totals two_shops Hdistinct two_sales one_expense
              Hsales Hexpenses) as (Hs & _ & Hp).
  split; [exact Hs|exact Hp].
Defined.

(** The worked example of the two shops: revenue 150, expenses 30, profit
    120, margin 80, and per shop 100 - 30 = 70 and 50 - 0 = 50. *)
Example analytics_of_two_shops :
  let a := Reports.analytics 0 (steady_clock june_1st_2024)
             two_sales one_expense two_shops [soap] no_filter in
  Reports.a_totalSales a == 150
  /\ Reports.a_totalExpenses a == 30
  /\ Reports.a_profit a == 120
  /\ num_eq (Reports.a_profitMargin a) (Fin 80)
  /\ map (fun e => (Reports.ss_shopName e, Reports.ss_transactions e))
         (Reports.a_salesByShop a) = [("Main"%string, 1%nat);
                                      ("Annex"%string, 1%nat)]
  /\ Forall2 (fun e expected =>
                Reports.ss_sales e == fst (fst expected)
                /\ Reports.ss_expenses e == snd (fst expected)
                /\ Reports.ss_profit e == snd expected)
       (Reports.a_salesByShop a) [((100, 30), 70); ((50, 0), 50)].
Proof.
  cbv zeta. repeat split; try (vm_compute; reflexivity).
  repeat constructor; vm_compute; reflexivity.
Qed.

(** Daily trend without any sale: 30 buckets of zero. *)
Example dailySales_without_sales :
  map (fun b => (Reports.ds_amount b, Reports.ds_transactions b))
      (Reports.dailySales 0 (steady_clock june_1st_2024) [])
  = repeat (0, O) 30
  /\ map Reports.ds_date
       (skipn 27 (Reports.dailySales 0 (steady_clock june_1st_2024) []))
     = ["May 30"; "May 31"; "Jun 1"]%string.
Proof.
  split; vm_compute; reflexivity.
Qed.

(* ------------------------------------------------------------------ *)
(** * Further properties of the pages *)

(** ** Grouping into an object *)

Lemma fold_left_ext_in {A B : Type} (f g : A -> B -> A) (l : list B) (a : A) :
  (forall acc x, In x l -> f acc x = g acc x) ->
  fold_left f l a = fold_left g l a.
Proof.
  revert a. induction l as [|x l IH]; intros a Hfg; simpl; [reflexivity|].
  rewrite (Hfg a x (or_introl eq_refl)). apply IH.
  intros acc y Hy. apply Hfg. right. exact Hy.
Qed.

Lemma or0_Some (e : Q) : or0 (Some e) == e.
Proof.
  simpl. destruct (Qeq_bool e 0) eqn:E; [|reflexivity].
  apply Qeq_bool_iff in E. symmetry. exact E.
Qed.

Section GroupingFacts.
Variables X V : Type.
Variable key : X -> string.
Variable init : X -> V.
Variable upd : X -> V -> V.

Lemma grouped_snoc (l : list X) (x : X) :
  grouped key init upd (l ++ [x])
  = group_step key init upd (grouped key init upd l) x.
Proof.
  unfold grouped. rewrite fold_left_app. reflexivity.
Qed.

Lemma group_value_snoc (k : string) (l : list X) (x : X) :
  group_value key init upd k (l ++ [x])
  = if String.eqb (key x) k
    then Some (upd x (match group_value key init upd k l with
                      | Some e => e
                      | None => init x
                      end))
    else group_value key init upd k l.
Proof.
  unfold group_value. rewrite fold_left_app. reflexivity.
Qed.

Lemma group_value_None_iff (k : string) (l : list X) :
  group_value key init upd k l = None <-> ~ In k (map key l).
Proof.
  induction l as [|x l IH] using rev_ind.
  - simpl. tauto.
  - rewrite group_value_snoc, map_app, in_app_iff. simpl.
    destruct (String.eqb_spec (key x) k) as [Heq|Hne].
    + split; [discriminate|]. intro Hno. exfalso. apply Hno. tauto.
    + rewrite IH. tauto.
Qed.

(** Lookup in the object gives the value of the group. *)
Lemma grouped_get (l : list X) (k : string) :
  JsObject.get k (grouped key init upd l) = group_value key init upd k l.
Proof.
  induction l as [|x l IH] using rev_ind; [reflexivity|].
  rewrite grouped_snoc, group_value_snoc. unfold group_step.
  pose proof (IH) as Hk. rewrite <- Hk.
  destruct (JsObject.get (key x) (grouped key init upd l)) as [e|] eqn:Hget.
  - rewrite get_replace, Hget.
    destruct (String.eqb_spec (key x) k) as [<-|Hne]; [|reflexivity].
    rewrite Hget. reflexivity.
  - rewrite (get_insert_new _ _ _ _ Hget).
    destruct (String.eqb_spec (key x) k) as [<-|Hne]; [|reflexivity].
    rewrite Hget. reflexivity.
Qed.

(** The object enumerates its keys as an object whose keys were created
    in the order of the items does. *)
Lemma grouped_sorted_prefix (l rest : list X) :
  StronglySorted (entry_before (map key (l ++ rest)))
    (grouped key init upd l).
Proof.
  revert rest. induction l as [|x l IH] using rev_ind; intro rest.
  - constructor.
  - rewrite grouped_snoc. rewrite <- app_assoc. simpl.
    specialize (IH (x :: rest)). unfold group_step.
    destruct (JsObject.get (key x) (grouped key init upd l)) as [e|] eqn:Hget.
    + apply sorted_replace. exact IH.
    + unfold insert_new.
      destruct (JsObject.array_index (key x)) as [n|] eqn:Hidx.
      * apply sorted_insert_index; assumption.
      * apply sorted_app_single; [exact IH|].
        rewrite Forall_forall. intros [k e] Hin.
        pose proof (In_sorted_get _ _ IH Hin) as Hk.
        assert (Hseen : In k (map key l)).
        { destruct (in_dec string_dec k (map key l)) as [Hy|Hn]; [exact Hy|].
          apply group_value_None_iff in Hn.
          rewrite <- grouped_get in Hn. congruence. }
        assert (Hnew : ~ In (key x) (map key l)).
        { apply group_value_None_iff. rewrite <- grouped_get. exact Hget. }
        unfold entry_before, Spec.enumerated_before. simpl.
        rewrite Hidx. destruct (JsObject.array_index k); [exact I|].
        unfold Spec.first_seen_before. rewrite map_app. simpl.
        destruct (first_pos_app_in k (map key l)
                    (key x :: map key rest) Hseen) as (-> & Hlt).
        rewrite first_pos_app_notin by exact Hnew. exact Hlt.
Qed.

Lemma grouped_sorted (l : list X) :
  StronglySorted (entry_before (map key l)) (grouped key init upd l).
Proof.
  pose proof (grouped_sorted_prefix l []) as Hs.
  rewrite app_nil_r in Hs. exact Hs.
Qed.

(** An entry of the object is the value of its group. *)
Lemma grouped_In (l : list X) (k : string) (e : V) :
  In (k, e) (grouped key init upd l) <-> group_value key init upd k l = Some e.
Proof.
  rewrite <- grouped_get. split.
  - apply In_sorted_get with (all := map key l). apply grouped_sorted.
  - apply get_Some_In.
Qed.

Lemma grouped_keys_NoDup (l : list X) :
  NoDup (JsObject.keys (grouped key init upd l)).
Proof.
  pose proof (grouped_sorted l) as Hs.
  induction Hs as [|[k e] o Hrest IH Hhead]; simpl; constructor; [|exact IH].
  intro Hin. apply in_map_iff in Hin. destruct Hin as ([k' e'] & Hk & Hin).
  simpl in Hk. subst k'. rewrite Forall_forall in Hhead.
  exact (enumerated_before_irrefl _ _ (Hhead _ Hin)).
Qed.
End GroupingFacts.

(** ** Breakdowns: sums grouped by a key *)

Lemma sum_of_snd_replace (k : string) (v old : Q) (o : JsObject.t Q) :
  JsObject.get k o = Some old ->
  Spec.sum_of snd (JsObject.replace k v o) == Spec.sum_of snd o - old + v.
Proof.
  induction o as [|[k0 v0] o IH]; simpl; [discriminate|].
  destruct (String.eqb_spec k0 k) as [Heq|Hne]; simpl.
  - intro Hv. injection Hv as <-. ring.
  - intro Hv. rewrite (IH Hv). ring.
Qed.

Lemma sum_of_snd_insert_new (k : string) (v : Q) (o : JsObject.t Q) :
  Spec.sum_of snd (insert_new k v o) == Spec.sum_of snd o + v.
Proof.
  unfold insert_new. destruct (JsObject.array_index k) as [n|].
  - induction o as [|[k0 v0] o IH]; simpl; [ring|].
    destruct (JsObject.array_index k0) as [n0|];
      [destruct (n0 <? n)%N|]; simpl; rewrite ?IH; ring.
  - induction o as [|[k0 v0] o IH]; simpl; [ring|]. rewrite IH. ring.
Qed.

Section AmountGroups.
Variable X : Type.
Variable key : X -> string.
Variable amount : X -> Q.

Lemma breakdown_fold_grouped (l : list X) :
  breakdown_fold key amount l = grouped key (fun _ => 0) (amount_step amount) l.
Proof.
  unfold breakdown_fold, grouped. apply fold_left_ext_in.
  intros acc x _. unfold group_step, JsObject.set, insert_new.
  destruct (JsObject.get (key x) acc); reflexivity.
Qed.

Lemma amount_group_value (k : string) (l : list X) :
  match group_value key (fun _ => 0) (amount_step amount) k l with
  | Some v =>
      In k (map key l)
      /\ v == Spec.sum_where (fun x => String.eqb (key x) k) amount l
  | None => ~ In k (map key l)
  end.
Proof.
  induction l as [|x l IH] using rev_ind; [simpl; tauto|].
  rewrite group_value_snoc.
  assert (Hin : In k (map key (l ++ [x])) <-> In k (map key l) \/ key x = k).
  { rewrite map_app, in_app_iff. simpl. tauto. }
  assert (Hsum : Spec.sum_where (fun y => String.eqb (key y) k) amount
                   (l ++ [x])
                 == Spec.sum_where (fun y => String.eqb (key y) k) amount l
                    + (if String.eqb (key x) k then amount x else 0)).
  { rewrite sum_where_app. simpl.
    destruct (String.eqb (key x) k); ring. }
  destruct (String.eqb_spec (key x) k) as [Heq|Hne].
  - split; [apply Hin; tauto|]. rewrite Hsum.
    destruct (group_value key (fun _ => 0) (amount_step amount) k l) as [e|];
      unfold amount_step.
    + rewrite or0_Some. destruct IH as (_ & He). rewrite He. ring.
    + rewrite (sum_where_absent _ amount l).
      * simpl. ring.
      * intros y Hy.
        destruct (String.eqb_spec (key y) k) as [Hy'|]; [|reflexivity].
        exfalso. apply IH. rewrite <- Hy'. apply in_map. exact Hy.
  - destruct (group_value key (fun _ => 0) (amount_step amount) k l) as [e|].
    + destruct IH as (Hk & He). split; [apply Hin; tauto|].
      rewrite Hsum, He. ring.
    + rewrite Hin. tauto.
Qed.

Lemma amount_groups_total (l : list X) :
  Spec.sum_of snd (grouped key (fun _ => 0) (amount_step amount) l)
  == Spec.sum_of amount l.
Proof.
  induction l as [|x l IH] using rev_ind; [reflexivity|].
  rewrite grouped_snoc. unfold group_step.
  assert (Hsnoc : Spec.sum_of amount (l ++ [x])
                  == Spec.sum_of amount l + amount x).
  { clear IH. induction l as [|y l IHl]; simpl; [ring|]. rewrite IHl. ring. }
  rewrite Hsnoc.
  destruct (JsObject.get (key x)
              (grouped key (fun _ => 0) (amount_step amount) l))
    as [e|] eqn:Hget.
  - rewrite (sum_of_snd_replace _ _ _ Hget), IH. unfold amount_step.
    rewrite or0_Some. ring.
  - rewrite sum_of_snd_insert_new, IH. unfold amount_step. simpl. ring.
Qed.

(** What a breakdown holds: under each key that occurs, the sum of the
    amounts of its items; no other key; each key once; and in total the
    sum of all the amounts. *)
Lemma breakdown_fold_spec (l : list X) :
  (forall k,
     match JsObject.get k (breakdown_fold key amount l) with
     | Some v =>
         In k (map key l)
         /\ v == Spec.sum_where (fun x => String.eqb (key x) k) amount l
     | None => ~ In k (map key l)
     end)
  /\ (forall k v, In (k, v) (breakdown_fold key amount l) <->
                  JsObject.get k (breakdown_fold key amount l) = Some v)
  /\ NoDup (JsObject.keys (breakdown_fold key amount l))
  /\ Spec.sum_of snd (breakdown_fold key amount l) == Spec.sum_of amount l.
Proof.
  rewrite breakdown_fold_grouped.
  split; [intro k; rewrite grouped_get; apply amount_group_value|].
  split; [intros k v; rewrite grouped_get; apply grouped_In|].
  split; [apply grouped_keys_NoDup|apply amount_groups_total].
Qed.
End AmountGroups.

Lemma paymentMethod_key_inj (m1 m2 : PaymentMethod) :
  paymentMethod_key m1 = paymentMethod_key m2 -> m1 = m2.
Proof.
  destruct m1, m2; simpl; intro H; try reflexivity; discriminate H.
Qed.

(** X1.  [paymentMethods] holds, under the name of each payment method
    with at least one filtered sale, the sum of the amounts of the sales
    paid that way; a method without sales has no entry (it is absent, not
    zero); every key is the name of a method and occurs once; and the
    values add up to [totalSales]. *)
Theorem paymentMethods_breakdown (filteredSales : list Sale.t) :
  let o := Reports.paymentMethods filteredSales in
  (forall m,
     match JsObject.get (paymentMethod_key m) o with
     | Some v =>
         (exists s, In s filteredSales /\ Sale.paymentMethod s = m)
         /\ v == Spec.sum_where
                   (fun s => String.eqb
                               (paymentMethod_key (Sale.paymentMethod s))
                               (paymentMethod_key m))
                   Sale.totalAmount filteredSales
     | None => forall s, In s filteredSales -> Sale.paymentMethod s <> m
     end)
  /\ (forall k v, In (k, v) o ->
        exists m, k = paymentMethod_key m /\ JsObject.get k o = Some v)
  /\ NoDup (JsObject.keys o)
  /\ Spec.sum_of snd o == Reports.totalSales filteredSales.
Proof.
  cbv zeta.
  change (Reports.paymentMethods filteredSales)
    with (breakdown_fold (fun s => paymentMethod_key (Sale.paymentMethod s))
            Sale.totalAmount filteredSales).
  destruct (breakdown_fold_spec
              (fun s => paymentMethod_key (Sale.paymentMethod s))
              Sale.totalAmount filteredSales)
    as (Hget & Hin & Hnodup & Htotal).
  split.
  { intro m. specialize (Hget (paymentMethod_key m)).
    destruct (JsObject.get (paymentMethod_key m) _) as [v|].
    - destruct Hget as (Hk & Hv). split; [|exact Hv].
      apply in_map_iff in Hk. destruct Hk as (s & Hs & Hins).
      exists s. split; [exact Hins|]. exact (paymentMethod_key_inj _ _ Hs).
    - intros s Hs Hm. apply Hget. rewrite <- Hm.
      apply (in_map (fun s => paymentMethod_key (Sale.paymentMethod s))).
      exact Hs. }
  split.
  { intros k v Hkv. apply Hin in Hkv. specialize (Hget k).
    rewrite Hkv in Hget. destruct Hget as (Hk & _).
    apply in_map_iff in Hk. destruct Hk as (s & Hs & _).
    exists (Sale.paymentMethod s). split; [symmetry; exact Hs|exact Hkv]. }
  split; [exact Hnodup|].
  rewrite Htotal. unfold Reports.totalSales. symmetry.
  apply reduce_sum_sum_of.
Qed.

(** ** Expense categories *)

Lemma fold_left_skip {A B : Type} (f g : A -> B -> A) (keep : B -> bool)
    (l : list B) (a : A) :
  (forall acc x, keep x = true -> f acc x = g acc x) ->
  (forall acc x, keep x = false -> f acc x = acc) ->
  fold_left f l a = fold_left g (filter keep l) a.
Proof.
  intros Hkeep Hskip. revert a.
  induction l as [|x l IH]; intro a; simpl; [reflexivity|].
  destruct (keep x) eqn:E; simpl.
  - rewrite (Hkeep a x E). apply IH.
  - rewrite (Hskip a x E). apply IH.
Qed.

Lemma expenseCategories_grouped (fe : list Expense.t) :
  Reports.expenseCategories fe
  = grouped Expense.category category_init category_upd (filter not_proto fe).
Proof.
  unfold Reports.expenseCategories, grouped.
  apply fold_left_skip; intros acc e He;
    unfold Reports.expenseCategories_step, not_proto in *.
  - apply negb_true_iff in He. rewrite He.
    unfold group_step, JsObject.set, insert_new, category_init.
    destruct (JsObject.get (Expense.category e) acc) as [[q|p l]|];
      [reflexivity|reflexivity|].
    destruct (JsObject.inherited (Expense.category e)); reflexivity.
  - apply negb_false_iff in He. rewrite He. reflexivity.
Qed.

Lemma sum_of_value_replace {V : Type} (g : V -> Q) (k : string) (v old : V)
    (o : JsObject.t V) :
  JsObject.get k o = Some old ->
  Spec.sum_of (fun e => g (snd e)) (JsObject.replace k v o)
  == Spec.sum_of (fun e => g (snd e)) o - g old + g v.
Proof.
  induction o as [|[k0 v0] o IH]; simpl; [discriminate|].
  destruct (String.eqb_spec k0 k) as [Heq|Hne]; simpl.
  - intro Hv. injection Hv as <-. ring.
  - intro Hv. rewrite (IH Hv). ring.
Qed.

Lemma sum_of_value_insert_new {V : Type} (g : V -> Q) (k : string) (v : V)
    (o : JsObject.t V) :
  Spec.sum_of (fun e => g (snd e)) (insert_new k v o)
  == Spec.sum_of (fun e => g (snd e)) o + g v.
Proof.
  unfold insert_new. destruct (JsObject.array_index k) as [n|].
  - induction o as [|[k0 v0] o IH]; simpl; [ring|].
    destruct (JsObject.array_index k0) as [n0|];
      [destruct (n0 <? n)%N|]; simpl; rewrite ?IH; ring.
  - induction o as [|[k0 v0] o IH]; simpl; [ring|]. rewrite IH. ring.
Qed.

Lemma of_category_absent (k : string) (l : list Expense.t) :
  ~ In k (map Expense.category l) ->
  forall e, In e l -> of_category k e = false.
Proof.
  intros Hno e He. unfold of_category.
  destruct (String.eqb_spec (Expense.category e) k) as [Heq|]; [|reflexivity].
  exfalso. apply Hno. rewrite <- Heq. apply in_map. exact He.
Qed.

Lemma filter_absent {A : Type} (P : A -> bool) (l : list A) :
  (forall x, In x l -> P x = false) -> filter P l = [].
Proof.
  induction l as [|x l IH]; intro HP; simpl; [reflexivity|].
  rewrite (HP x (or_introl eq_refl)). apply IH.
  intros y Hy. apply HP. right. exact Hy.
Qed.

Lemma category_group_value (k : string) (l : list Expense.t) :
  match group_value Expense.category category_init category_upd k l with
  | Some v => In k (map Expense.category l) /\ category_holds l k v
  | None => ~ In k (map Expense.category l)
  end.
Proof.
  induction l as [|x l IH] using rev_ind; [simpl; tauto|].
  rewrite group_value_snoc.
  assert (Hin : In k (map Expense.category (l ++ [x]))
                <-> In k (map Expense.category l) \/ Expense.category x = k).
  { rewrite map_app, in_app_iff. simpl. tauto. }
  unfold category_holds in *.
  rewrite filter_app, (map_app Expense.amount). cbn [filter].
  destruct (String.eqb_spec (Expense.category x) k) as [Heq|Hne].
  - split; [apply Hin; tauto|].
    assert (Hx : of_category k x = true).
    { unfold of_category. rewrite Heq. apply String.eqb_refl. }
    rewrite Hx. cbn [map].
    destruct (group_value Expense.category category_init category_upd k l)
      as [v|].
    + destruct IH as (_ & Hv).
      destruct (JsObject.inherited k).
      * rewrite Hv. reflexivity.
      * destruct Hv as (q & -> & Hq). cbn [category_upd].
        eexists. split; [reflexivity|].
        rewrite or0_Some, sum_where_app, Hq. cbn [Spec.sum_where].
        rewrite Hx. ring.
    + pose proof (of_category_absent _ _ IH) as Habs.
      unfold category_init. rewrite Heq.
      destruct (JsObject.inherited k); cbn [category_upd].
      * rewrite (filter_absent _ _ Habs). reflexivity.
      * eexists. split; [reflexivity|].
        rewrite sum_where_app, (sum_where_absent _ _ _ Habs).
        cbn [Spec.sum_where]. rewrite Hx. simpl. ring.
  - assert (Hx : of_category k x = false).
    { unfold of_category. apply String.eqb_neq. exact Hne. }
    rewrite Hx. cbn [map]. rewrite app_nil_r.
    destruct (group_value Expense.category category_init category_upd k l)
      as [v|].
    + destruct IH as (Hk & Hv). split; [apply Hin; tauto|].
      destruct (JsObject.inherited k); [exact Hv|].
      destruct Hv as (q & -> & Hq). exists q. split; [reflexivity|].
      rewrite sum_where_app, Hq. cbn [Spec.sum_where]. rewrite Hx. ring.
    + rewrite Hin. tauto.
Qed.

Lemma category_groups_total (l : list Expense.t) :
  Spec.sum_of (fun e => amount_part (snd e))
    (grouped Expense.category category_init category_upd l)
  == Spec.sum_where plain_category Expense.amount l.
Proof.
  induction l as [|x l IH] using rev_ind; [reflexivity|].
  rewrite grouped_snoc, sum_where_app. unfold group_step.
  cbn [Spec.sum_where].
  pose proof (category_group_value (Expense.category x) l) as Hv.
  rewrite <- grouped_get in Hv. unfold category_holds, plain_category in *.
  destruct (JsObject.get (Expense.category x)
              (grouped Expense.category category_init category_upd l))
    as [old|] eqn:Hget.
  - rewrite (@sum_of_value_replace _ amount_part _ _ _ _ Hget), IH.
    destruct Hv as (_ & Hold).
    destruct (JsObject.inherited (Expense.category x)).
    + rewrite Hold. simpl. ring.
    + destruct Hold as (q & -> & _). cbn [category_upd amount_part negb].
      rewrite or0_Some. ring.
  - rewrite sum_of_value_insert_new, IH. unfold category_init.
    destruct (JsObject.inherited (Expense.category x)); simpl; ring.
Qed.

Lemma filter_filter_implied {A : Type} (P R : A -> bool) (l : list A) :
  (forall x, In x l -> R x = true -> P x = true) ->
  filter R (filter P l) = filter R l.
Proof.
  induction l as [|x l IH]; intro HPR; simpl; [reflexivity|].
  assert (IH' : filter R (filter P l) = filter R l).
  { apply IH. intros y Hy. apply HPR. right. exact Hy. }
  destruct (R x) eqn:ER.
  - rewrite (HPR x (or_introl eq_refl) ER). simpl. rewrite ER, IH'.
    reflexivity.
  - destruct (P x); simpl; rewrite ?ER; exact IH'.
Qed.

Lemma sum_where_filter_implied {A : Type} (P R : A -> bool) (f : A -> Q)
    (l : list A) :
  (forall x, In x l -> R x = true -> P x = true) ->
  Spec.sum_where R f (filter P l) == Spec.sum_where R f l.
Proof.
  intro HPR. rewrite <- !sum_of_filter.
  rewrite (@filter_filter_implied _ P R l HPR). reflexivity.
Qed.

Lemma sum_where_all {A : Type} (P : A -> bool) (f : A -> Q) (l : list A) :
  (forall x, In x l -> P x = true) -> Spec.sum_where P f l = Spec.sum_of f l.
Proof.
  induction l as [|x l IH]; intro HP; simpl; [reflexivity|].
  rewrite (HP x (or_introl eq_refl)), IH; [reflexivity|].
  intros y Hy. apply HP. right. exact Hy.
Qed.

Lemma of_category_not_proto (k : string) (e : Expense.t) :
  k <> "__proto__"%string -> of_category k e = true -> not_proto e = true.
Proof.
  unfold of_category, not_proto. intros Hk He.
  apply String.eqb_eq in He. rewrite He.
  apply negb_true_iff, String.eqb_neq. exact Hk.
Qed.

Lemma plain_category_not_proto (e : Expense.t) :
  plain_category e = true -> not_proto e = true.
Proof.
  unfold plain_category, not_proto.
  destruct (String.eqb_spec (Expense.category e) "__proto__") as [->|];
    [discriminate|reflexivity].
Qed.

Lemma In_category_not_proto (k : string) (fe : list Expense.t) :
  k <> "__proto__"%string ->
  In k (map Expense.category (filter not_proto fe))
  <-> In k (map Expense.category fe).
Proof.
  intro Hk. rewrite !in_map_iff. split.
  - intros (e & He & Hin). apply filter_In in Hin. exists e. tauto.
  - intros (e & He & Hin). exists e. split; [exact He|].
    apply filter_In. split; [exact Hin|].
    apply (@of_category_not_proto k e Hk). unfold of_category. rewrite He.
    apply String.eqb_refl.
Qed.

(** What [expenseCategories] holds under a key other than ["__proto__"]. *)
Lemma expenseCategories_get (fe : list Expense.t) (k : string) :
  k <> "__proto__"%string ->
  match JsObject.get k (Reports.expenseCategories fe) with
  | Some v => In k (map Expense.category fe) /\ category_holds fe k v
  | None => ~ In k (map Expense.category fe)
  end.
Proof.
  intro Hk. rewrite expenseCategories_grouped, grouped_get.
  pose proof (category_group_value k (filter not_proto fe)) as Hv.
  destruct (group_value Expense.category category_init category_upd k
              (filter not_proto fe)) as [v|].
  - destruct Hv as (Hin & Hv). split; [apply (@In_category_not_proto k fe Hk), Hin|].
    unfold category_holds in *.
    destruct (JsObject.inherited k).
    + rewrite Hv. f_equal. f_equal. apply filter_filter_implied.
      intros e _. apply (@of_category_not_proto k e Hk).
    + destruct Hv as (q & -> & Hq). exists q. split; [reflexivity|].
      rewrite Hq. apply sum_where_filter_implied.
      intros e _. apply (@of_category_not_proto k e Hk).
  - rewrite <- (@In_category_not_proto k fe Hk). exact Hv.
Qed.

Lemma expenseCategories_no_proto (fe : list Expense.t) :
  JsObject.get "__proto__" (Reports.expenseCategories fe) = None.
Proof.
  rewrite expenseCategories_grouped, grouped_get.
  apply group_value_None_iff. rewrite in_map_iff.
  intros (e & He & Hin). apply filter_In in Hin. destruct Hin as (_ & Hnp).
  unfold not_proto in Hnp. rewrite He in Hnp. discriminate Hnp.
Qed.

Lemma expenseCategories_In (fe : list Expense.t) (k : string)
    (v : Reports.CategoryTotal) :
  In (k, v) (Reports.expenseCategories fe)
  <-> JsObject.get k (Reports.expenseCategories fe) = Some v.
Proof.
  rewrite expenseCategories_grouped, grouped_get. apply grouped_In.
Qed.

Lemma expenseCategories_amounts (fe : list Expense.t) :
  Spec.sum_of (fun e => amount_part (snd e)) (Reports.expenseCategories fe)
  == Spec.sum_where plain_category Expense.amount fe.
Proof.
  rewrite expenseCategories_grouped, category_groups_total.
  apply sum_where_filter_implied.
  intros e _. apply plain_category_not_proto.
Qed.

(** When the only inherited name among the categories is ["__proto__"],
    every entry is an amount. *)
Lemma expenseCategories_all_amounts (fe : list Expense.t) :
  (forall e, In e fe -> JsObject.inherited (Expense.category e) = true ->
             Expense.category e = "__proto__"%string) ->
  forall k v, In (k, v) (Reports.expenseCategories fe) ->
              exists q, v = Reports.Amount q.
Proof.
  intros Hplain k v Hkv. apply expenseCategories_In in Hkv.
  assert (Hk : k <> "__proto__"%string).
  { intros ->. rewrite expenseCategories_no_proto in Hkv. discriminate. }
  pose proof (@expenseCategories_get fe k Hk) as Hv. rewrite Hkv in Hv.
  destruct Hv as (Hin & Hv). apply in_map_iff in Hin.
  destruct Hin as (e & He & Hin). unfold category_holds in Hv.
  destruct (JsObject.inherited k) eqn:Hinh.
  - exfalso. apply Hk. rewrite <- He. apply (Hplain e Hin).
    rewrite He. exact Hinh.
  - destruct Hv as (q & Hq & _). exists q. exact Hq.
Qed.

(** When no category names an inherited property, the amounts add up to
    the total of the expenses. *)
Lemma expenseCategories_total (fe : list Expense.t) :
  (forall e, In e fe -> JsObject.inherited (Expense.category e) = false) ->
  Spec.sum_of (fun e => amount_part (snd e)) (Reports.expenseCategories fe)
  == Reports.totalExpenses fe.
Proof.
  intro Hplain. rewrite expenseCategories_amounts, sum_where_all.
  - unfold Reports.totalExpenses. symmetry. apply reduce_sum_sum_of.
  - intros e He. unfold plain_category. rewrite (Hplain e He). reflexivity.
Qed.

(** X2.  What [expenseCategories] holds.  Under a category that does not
    name a property of [Object.prototype] and occurs among the filtered
    expenses: the sum of the amounts of the expenses of that category.
    Under a category that names such a property (["constructor"],
    ["toString"], ...) other than ["__proto__"]: a string, made of the
    text of the inherited property and the amounts of the expenses of
    that category in their order.  Nothing under ["__proto__"] and nothing
    under a key that does not occur.  Each key occurs once.  The amounts
    held add up to the amounts of the expenses whose category names no
    inherited property; when no expense is of such a category, every
    entry is an amount and they add up to [totalExpenses]. *)
Theorem expenseCategories_breakdown (filteredExpenses : list Expense.t) :
  let o := Reports.expenseCategories filteredExpenses in
  let categories := map Expense.category filteredExpenses in
  (forall category,
     JsObject.inherited category = false ->
     match JsObject.get category o with
     | Some v =>
         In category categories
         /\ exists q,
              v = Reports.Amount q
              /\ q == Spec.sum_where (of_category category) Expense.amount
                        filteredExpenses
     | None => ~ In category categories
     end)
  /\ (forall category,
        JsObject.inherited category = true ->
        category <> "__proto__"%string ->
        match JsObject.get category o with
        | Some v =>
            In category categories
            /\ v = Reports.Text category
                     (map Expense.amount
                        (filter (of_category category) filteredExpenses))
        | None => ~ In category categories
        end)
  /\ JsObject.get "__proto__" o = None
  /\ (forall k v, In (k, v) o <-> JsObject.get k o = Some v)
  /\ NoDup (JsObject.keys o)
  /\ Spec.sum_of (fun e => amount_part (snd e)) o
     == Spec.sum_where plain_category Expense.amount filteredExpenses
  /\ ((forall e, In e filteredExpenses ->
                 JsObject.inherited (Expense.category e) = false) ->
      (forall k v, In (k, v) o -> exists q, v = Reports.Amount q)
      /\ Spec.sum_of (fun e => amount_part (snd e)) o
         == Reports.totalExpenses filteredExpenses).
Proof.
  cbv zeta.
  split.
  { intros category Hplain.
    assert (Hk : category <> "__proto__"%string).
    { intros ->. discriminate Hplain. }
    pose proof (@expenseCategories_get filteredExpenses category Hk) as Hv.
    unfold category_holds in Hv. rewrite Hplain in Hv. exact Hv. }
  split.
  { intros category Hinh Hk.
    pose proof (@expenseCategories_get filteredExpenses category Hk) as Hv.
    unfold category_holds in Hv. rewrite Hinh in Hv. exact Hv. }
  split; [apply expenseCategories_no_proto|].
  split; [intros k v; apply expenseCategories_In|].
  split.
  { rewrite expenseCategories_grouped. apply grouped_keys_NoDup. }
  split; [apply expenseCategories_amounts|].
  intro Hplain. split; [|apply expenseCategories_total; exact Hplain].
  apply expenseCategories_all_amounts.
  intros e He Hinh. rewrite (Hplain e He) in Hinh. discriminate Hinh.
Qed.

(** X3.  [salesByMonth] holds, under the label of each month in which a
    filtered sale falls (in the local time of the host), the sum of the
    amounts of the sales of that month; no other label; and the values add
    up to [totalSales]. *)
Theorem salesByMonth_breakdown (tz : Z) (filteredSales : list Sale.t) :
  let o := Reports.salesByMonth tz filteredSales in
  let month := fun s => monthYearLabel tz (Sale.date s) in
  (forall label,
     match JsObject.get label o with
     | Some v =>
         In label (map month filteredSales)
         /\ v == Spec.sum_where (fun s => String.eqb (month s) label)
                   Sale.totalAmount filteredSales
     | None => ~ In label (map month filteredSales)
     end)
  /\ (forall k v, In (k, v) o <-> JsObject.get k o = Some v)
  /\ NoDup (JsObject.keys o)
  /\ Spec.sum_of snd o == Reports.totalSales filteredSales.
Proof.
  cbv zeta.
  change (Reports.salesByMonth tz filteredSales)
    with (breakdown_fold (fun s => monthYearLabel tz (Sale.date s))
            Sale.totalAmount filteredSales).
  destruct (breakdown_fold_spec (fun s => monthYearLabel tz (Sale.date s))
              Sale.totalAmount filteredSales)
    as (Hget & Hin & Hnodup & Htotal).
  repeat split; try assumption; try apply Hin.
  rewrite Htotal. unfold Reports.totalSales. symmetry.
  apply reduce_sum_sum_of.
Qed.

(** ** Top customers *)



Lemma named_customerName (sale : Sale.t) :
  named sale = true ->
  Sale.customerName sale = Some (customer_key sale)
  /\ customer_key sale <> ""%string.
Proof.
  unfold named, Reports.named_customer, customer_key.
  destruct (Sale.customerName sale) as [[|c n]|]; simpl;
    try discriminate. intros _. split; [reflexivity|discriminate].
Qed.

Lemma of_customer_iff (name : string) (sale : Sale.t) :
  of_customer name sale = true
  <-> Sale.customerName sale = Some name /\ name <> ""%string.
Proof.
  unfold of_customer. rewrite andb_true_iff, String.eqb_eq. split.
  - intros (Hn & <-). apply named_customerName. exact Hn.
  - intros (Hs & Hne). unfold named, Reports.named_customer, customer_key.
    rewrite Hs. destruct name; [contradiction|]. simpl. tauto.
Qed.




Lemma StronglySorted_any {A : Type} (l : list A) :
  StronglySorted (fun _ _ => True) l.
Proof.
  induction l as [|x l IH]; constructor; [exact IH|].
  rewrite Forall_forall. intros; exact I.
Qed.


(** ** Figures derived in the Reports view *)




Lemma Qdiv_le_1 (a m : Q) : 0 < m -> a <= m -> a / m <= 1.
Proof.
  intros Hm Ha. apply Qle_shift_div_r; [exact Hm|].
  rewrite Qmult_1_l. exact Ha.
Qed.

Lemma percent_le_100 (a m : Q) : 0 < m -> a <= m -> a / m * 100 <= 100.
Proof.
  intros Hm Ha.
  apply Qle_trans with (y := 1 * 100); [|rewrite Qmult_1_l; apply Qle_refl].
  apply Qmult_le_compat_r; [apply Qdiv_le_1; assumption|discriminate].
Qed.



Lemma share_of_nonzero (amount total : Q) :
  ~ total == 0 ->
  Reports.share_of amount total = Fin (amount / total * 100).
Proof.
  intro Hne. unfold Reports.share_of.
  rewrite div_Fin_nonzero; [reflexivity|].
  destruct (Qeq_bool total 0) eqn:E; [|reflexivity].
  apply Qeq_bool_iff in E. contradiction.
Qed.

Lemma share_of_zero (amount total : Q) :
  total == 0 -> is_finite (Reports.share_of amount total) = false.
Proof.
  intro Hz. unfold Reports.share_of. simpl div.
  rewrite (proj2 (Qeq_bool_iff total 0) Hz). unfold signed_inf.
  destruct (Qeq_bool amount 0); [reflexivity|].
  destruct (Bool.eqb true (Qlt_bool 0 amount)); reflexivity.
Qed.

Lemma sum_of_shares {A : Type} (amount : A -> Q) (total : Q) (l : list A) :
  ~ total == 0 ->
  Spec.sum_of amount l == total ->
  Spec.sum_of (fun x => amount x / total * 100) l == 100.
Proof.
  intros Hne Hsum.
  assert (Hfactor : Spec.sum_of (fun x => amount x / total * 100) l
                    == Spec.sum_of amount l / total * 100).
  { clear Hsum. induction l as [|x l IH]; simpl.
    - field. exact Hne.
    - rewrite IH. field. exact Hne. }
  rewrite Hfactor, Hsum. field. exact Hne.
Qed.

Lemma sum_of_Permutation {A : Type} (f : A -> Q) (l1 l2 : list A) :
  Permutation l1 l2 -> Spec.sum_of f l1 == Spec.sum_of f l2.
Proof.
  induction 1 as [|x l1 l2 _ IH|x y l|l1 l2 l3 _ IH1 _ IH2]; simpl.
  - reflexivity.
  - rewrite IH. reflexivity.
  - ring.
  - rewrite IH1. exact IH2.
Qed.

Lemma array_sort_Permutation {A : Type} (cmp : A -> A -> Q) (l : list A) :
  Permutation (array_sort cmp l) l.
Proof.
  induction l as [|x l IH]; simpl; [constructor|].
  apply Permutation_trans with (l' := x :: array_sort cmp l);
    [|constructor; exact IH].
  generalize (array_sort cmp l). intro s.
  induction s as [|y s IHs]; simpl; [apply Permutation_refl|].
  destruct (Qle_bool (cmp x y) 0); [apply Permutation_refl|].
  apply Permutation_trans with (l' := y :: x :: s);
    [constructor; exact IHs|constructor].
Qed.

(** X7.  The share of each payment method shown in the overview is
    [amount / totalSales * 100].  When the total of the filtered sales is
    not zero, every share is a finite number and the shares add up to 100.
    When the total is zero (no sale, or sales that cancel out or are all
    of amount 0), the division is not guarded: no share of a listed method
    is a finite number. *)
Theorem payment_shares_total
    (tz : Z) (clock : nat -> Z)
    (sales : list Sale.t) (expenses : list Expense.t)
    (shops : list Shop.t) (products : list Product.t) (f : Reports.Filter) :
  let a := Reports.analytics tz clock sales expenses shops products f in
  map fst (Reports.payment_shares a) = Reports.a_paymentMethods a
  /\ (~ Reports.a_totalSales a == 0 ->
      Forall (fun row =>
                snd row
                = Fin (snd (fst row) / Reports.a_totalSales a * 100))
             (Reports.payment_shares a)
      /\ Spec.sum_of (fun e => snd e / Reports.a_totalSales a * 100)
           (Reports.a_paymentMethods a) == 100)
  /\ (Reports.a_totalSales a == 0 ->
      Forall (fun row => is_finite (snd row) = false)
             (Reports.payment_shares a)).
Proof.
  cbv zeta. unfold Reports.payment_shares.
  cbn [Reports.analytics Reports.a_paymentMethods Reports.a_totalSales].
  set (fs := Reports.getFilteredData f sales).
  split.
  { rewrite map_map. simpl. rewrite <- (map_id (Reports.paymentMethods fs)) at 2.
    apply map_ext. intros [k v]. reflexivity. }
  split.
  - intro Hne. split.
    + rewrite Forall_forall. intros row Hrow.
      apply in_map_iff in Hrow. destruct Hrow as (e & <- & _). simpl.
      apply share_of_nonzero. exact Hne.
    + apply sum_of_shares; [exact Hne|].
      change (Reports.paymentMethods fs)
        with (breakdown_fold
                (fun s => paymentMethod_key (Sale.paymentMethod s))
                Sale.totalAmount fs).
      destruct (breakdown_fold_spec
                  (fun s => paymentMethod_key (Sale.paymentMethod s))
                  Sale.totalAmount fs) as (_ & _ & _ & Htotal).
      rewrite Htotal. unfold Reports.totalSales. symmetry.
      apply reduce_sum_sum_of.
  - intro Hz. rewrite Forall_forall. intros row Hrow.
    apply in_map_iff in Hrow. destruct Hrow as (e & <- & _). simpl.
    apply share_of_zero. exact Hz.
Qed.

Lemma amounts_of_Some (o : JsObject.t Reports.CategoryTotal) :
  (forall k v, In (k, v) o -> exists q, v = Reports.Amount q) ->
  exists entries,
    Reports.amounts_of o = Some entries
    /\ map (fun e => (fst e, Reports.Amount (snd e))) entries = o
    /\ Spec.sum_of snd entries
       = Spec.sum_of (fun e => amount_part (snd e)) o.
Proof.
  induction o as [|[k v] o IH]; intro Hall.
  - exists []. repeat split.
  - destruct (Hall k v (or_introl eq_refl)) as (q & ->).
    destruct IH as (entries & Hsome & Hmap & Hsum).
    { intros k' v' Hin. apply (Hall k' v'). right. exact Hin. }
    exists ((k, q) :: entries). simpl. rewrite Hsome, Hmap, Hsum.
    repeat split.
Qed.

Lemma amounts_of_Text (o : JsObject.t Reports.CategoryTotal) (k p : string)
    (l : list Q) :
  In (k, Reports.Text p l) o -> Reports.amounts_of o = None.
Proof.
  induction o as [|[k0 v0] o IH]; simpl; [tauto|].
  intros [Heq|Hin].
  - injection Heq as -> ->. reflexivity.
  - destruct v0 as [q|p0 l0]; [|reflexivity]. rewrite (IH Hin). reflexivity.
Qed.

(** X8.  The list of expense categories.  When no filtered expense is of
    a category that names an inherited property other than ["__proto__"],
    the list has exactly the entries of [expenseCategories], in order of
    non-increasing amount, and when the total of the filtered expenses is
    not zero each share shown is the amount over the total times 100; the
    shares add up to 100 when moreover no expense is of category
    ["__proto__"].  When some filtered expense is of a category that names
    an inherited property other than ["__proto__"], rendering the list
    throws. *)
Theorem expense_rows_sorted_shares
    (tz : Z) (clock : nat -> Z)
    (sales : list Sale.t) (expenses : list Expense.t)
    (shops : list Shop.t) (products : list Product.t) (f : Reports.Filter) :
  let a := Reports.analytics tz clock sales expenses shops products f in
  let filteredExpenses := Reports.getFilteredData f expenses in
  ((forall e, In e filteredExpenses ->
              JsObject.inherited (Expense.category e) = true ->
              Expense.category e = "__proto__"%string) ->
   exists rows,
     Reports.expense_rows a = Some rows
     /\ Permutation
          (map (fun row => (fst (fst row), Reports.Amount (snd (fst row))))
             rows)
          (Reports.a_expenseCategories a)
     /\ (forall i j r1 r2,
           (i < j)%nat -> nth_error rows i = Some r1 ->
           nth_error rows j = Some r2 ->
           snd (fst r2) <= snd (fst r1))
     /\ (~ Reports.a_totalExpenses a == 0 ->
         Forall (fun row =>
                   snd row
                   = Fin (snd (fst row) / Reports.a_totalExpenses a * 100))
           rows
         /\ ((forall e, In e filteredExpenses ->
                        Expense.category e <> "__proto__"%string) ->
             Spec.sum_of
               (fun row => snd (fst row) / Reports.a_totalExpenses a * 100)
               rows == 100)))
  /\ (forall e, In e filteredExpenses ->
                JsObject.inherited (Expense.category e) = true ->
                Expense.category e <> "__proto__"%string ->
                Reports.expense_rows a = None).
Proof.
  cbv zeta. unfold Reports.expense_rows.
  cbn [Reports.analytics Reports.a_expenseCategories Reports.a_totalExpenses].
  set (fe := Reports.getFilteredData f expenses).
  split.
  - intro Hplain.
    destruct (@amounts_of_Some _ (@expenseCategories_all_amounts fe Hplain))
      as (entries & -> & Hmap & Hsum).
    set (sorted := array_sort (fun x y : string * Q => snd y - snd x) entries).
    eexists. split; [reflexivity|].
    split.
    { rewrite map_map. cbn [fst snd]. rewrite <- Hmap.
      apply Permutation_map. apply array_sort_Permutation. }
    split.
    { intros i j r1 r2 Hij Hi Hj.
      rewrite nth_error_map in Hi, Hj.
      destruct (nth_error sorted i) as [e1|] eqn:E1; [|discriminate].
      destruct (nth_error sorted j) as [e2|] eqn:E2; [|discriminate].
      simpl in Hi, Hj. injection Hi as <-. injection Hj as <-. simpl.
      assert (Hsorted : StronglySorted
                          (ranked_before (fun e : string * Q => snd e)
                             (fun _ _ => True)) sorted).
      { apply sorted_array_sort; [intros x y; reflexivity|].
        apply StronglySorted_any. }
      pose proof (@StronglySorted_nth _ _ _ Hsorted i j _ _ Hij E1 E2) as Hr.
      destruct Hr as [Hlt|(Heq & _)].
      - apply Qlt_le_weak. exact Hlt.
      - rewrite Heq. apply Qle_refl. }
    intro Hne. split.
    + rewrite Forall_forall. intros row Hrow.
      apply in_map_iff in Hrow. destruct Hrow as (e & <- & _). simpl.
      apply share_of_nonzero. exact Hne.
    + intro Hnoproto. rewrite sum_of_map. simpl.
      apply sum_of_shares with (amount := fun e : string * Q => snd e);
        [exact Hne|].
      unfold sorted.
      rewrite (sum_of_Permutation _ (array_sort_Permutation _ _)).
      change (Spec.sum_of snd entries == Reports.totalExpenses fe).
      rewrite Hsum. apply expenseCategories_total.
      intros e He. destruct (JsObject.inherited (Expense.category e)) eqn:Hinh;
        [|reflexivity].
      exfalso. exact (Hnoproto e He (Hplain e He Hinh)).
  - intros e He Hinh Hk.
    pose proof (@expenseCategories_get fe (Expense.category e) Hk) as Hv.
    destruct (JsObject.get (Expense.category e) (Reports.expenseCategories fe))
      as [v|] eqn:Hget.
    + destruct Hv as (_ & Hv). unfold category_holds in Hv.
      rewrite Hinh in Hv. subst v. apply expenseCategories_In in Hget.
      rewrite (@amounts_of_Text _ _ _ _ Hget). reflexivity.
    + exfalso. apply Hv. apply in_map. exact He.
Qed.

(** At expenses of the categories constructor, rent, constructor and
    __proto__: the entry of constructor is a string, the one of rent the
    amount, there is none for __proto__, and the list cannot be shown. *)
Example expenseCategories_of_inherited_names :
  Reports.expenseCategories named_expenses
  = [("constructor"%string, Reports.Text "constructor" [30; 2]);
     ("rent"%string, Reports.Amount 5)]
  /\ Reports.expense_rows
       (Reports.analytics 0 (steady_clock june_1st_2024) [] named_expenses
          [] [] no_filter) = None.
Proof.
  split; vm_compute; reflexivity.
Qed.

(** ** The filters, composed *)

Lemma filter_idempotent {A : Type} (P : A -> bool) (l : list A) :
  filter P (filter P l) = filter P l.
Proof.
  induction l as [|x l IH]; simpl; [reflexivity|].
  destruct (P x) eqn:E; simpl; [rewrite E|]; congruence.
Qed.

Lemma filter_all {A : Type} (P : A -> bool) (l : list A) :
  (forall x, In x l -> P x = true) -> filter P l = l.
Proof.
  induction l as [|x l IH]; intro HP; simpl; [reflexivity|].
  rewrite (HP x (or_introl eq_refl)), IH; [reflexivity|].
  intros y Hy. apply HP. right. exact Hy.
Qed.

Lemma filter_length_le {A : Type} (P : A -> bool) (l : list A) :
  (List.length (filter P l) <= List.length l)%nat.
Proof.
  induction l as [|x l IH]; simpl; [lia|]. destruct (P x); simpl; lia.
Qed.

(** X9.  Filtering is idempotent, the date filter and the shop filter
    commute, the filter with no shop selected and no date bound keeps
    every record, and a filter never adds or reorders records (the result
    is the input with some records removed). *)
Theorem getFilteredData_composition {A : Type} `{Filterable A}
    (f : Reports.Filter) (data : list A) :
  Reports.getFilteredData f (Reports.getFilteredData f data)
  = Reports.getFilteredData f data
  /\ Reports.filterDataByShop f (Reports.filterDataByDate f data)
     = Reports.filterDataByDate f (Reports.filterDataByShop f data)
  /\ (Reports.selectedShop f = ""%string ->
      Reports.from (Reports.dateRange f) = None ->
      Reports.to (Reports.dateRange f) = None ->
      Reports.getFilteredData f data = data)
  /\ (exists keep : A -> bool,
        Reports.getFilteredData f data = filter keep data)
  /\ (List.length (Reports.getFilteredData f data) <= List.length data)%nat.
Proof.
  assert (Heq : forall d : list A,
            Reports.getFilteredData f d = filter (Spec.passesb f) d).
  { intro d. unfold Reports.getFilteredData.
    rewrite filterDataByDate_filter, filterDataByShop_filter, filter_filter.
    reflexivity. }
  split; [rewrite !Heq; apply filter_idempotent|].
  split.
  { rewrite !filterDataByDate_filter, !filterDataByShop_filter,
      !filter_filter.
    apply filter_ext. intro x. apply andb_comm. }
  split.
  { intros Hshop Hfrom Hto. rewrite Heq. apply filter_all.
    intros x _. unfold Spec.passesb. rewrite Hshop, Hfrom, Hto.
    reflexivity. }
  split; [exists (Spec.passesb f); apply Heq|].
  rewrite Heq. apply filter_length_le.
Qed.

(** ** Stock: the two pages agree *)

(** X10.  The products listed as low in stock on the transfers page are
    exactly those whose record in the stock analysis of the reports page
    carries the low-stock flag, in the same order; the flag does not
    depend on the sales. *)
Theorem lowStockProducts_agree_with_stockAnalysis
    (products : list Product.t) (filteredSales : list Sale.t) :
  StockTransfers.lowStockProducts products
  = map fst
      (filter (fun pr => Reports.sa_isLowStock (snd pr))
         (combine products (Reports.stockAnalysis products filteredSales)))
  /\ forall product,
       In product (StockTransfers.lowStockProducts products)
       <-> In product products
           /\ Spec.sum_of snd (Product.stock product)
              < Product.minStock product.
Proof.
  split.
  - unfold StockTransfers.lowStockProducts, Reports.stockAnalysis.
    induction products as [|p l IH]; simpl; [reflexivity|].
    destruct (Qlt_bool _ (Product.minStock p)); simpl; rewrite IH;
      reflexivity.
  - intro product. unfold StockTransfers.lowStockProducts.
    rewrite filter_In, Qlt_bool_iff.
    unfold JsObject.values.
    assert (Hsum : reduce_sum (fun qty => qty)
                     (map snd (Product.stock product))
                   == Spec.sum_of snd (Product.stock product)).
    { rewrite reduce_sum_sum_of, sum_of_map. reflexivity. }
    rewrite Hsum. reflexivity.
Qed.

(** ** The daily trend and the total *)

(** X11.  When every filtered sale was made within the 30 local calendar
    days that end today, the amounts of the daily trend add up to
    [totalSales]. *)
Theorem dailySales_sums_to_totalSales
    (tz : Z) (clock : nat -> Z)
    (sales : list Sale.t) (expenses : list Expense.t)
    (shops : list Shop.t) (products : list Product.t) (f : Reports.Filter)
    (today : Z) :
  (forall k, (k < 30)%nat -> localDay tz (clock k) = today) ->
  (forall s, In s (Reports.getFilteredData f sales) ->
             (today - 29 <= localDay tz (Sale.date s) <= today)%Z) ->
  let a := Reports.analytics tz clock sales expenses shops products f in
  Spec.sum_of Reports.ds_amount (Reports.a_dailySales a)
  == Reports.a_totalSales a.
Proof.
  intros Hclock Hrecent. cbv zeta.
  cbn [Reports.analytics Reports.a_dailySales Reports.a_totalSales].
  set (fs := Reports.getFilteredData f sales) in *.
  unfold Reports.dailySales.
  rewrite (dailySales_loop_sum tz clock (today := today))
    by (intros k Hk; apply Hclock; exact Hk).
  replace (today - Z.of_nat 30 + 1)%Z with (today - 29)%Z by lia.
  unfold Reports.totalSales. rewrite reduce_sum_sum_of.
  clearbody fs. induction fs as [|s l IH]; simpl; [reflexivity|].
  assert (Hin : Spec.in_window tz (today - 29) today s = true).
  { unfold Spec.in_window. specialize (Hrecent s (or_introl eq_refl)).
    apply andb_true_iff. rewrite !Z.leb_le. exact Hrecent. }
  rewrite Hin, IH; [reflexivity|].
  intros s' Hs'. apply Hrecent. right. exact Hs'.
Qed.

(** ** Lists sorted newest first, and their pages *)

Lemma inject_Z_minus (a b : Z) :
  inject_Z (b - a) = inject_Z b - inject_Z a.
Proof.
  unfold inject_Z, Qminus, Qplus, Qopp. simpl. f_equal. ring.
Qed.

(** A list sorted by [array.sort] with the comparator of the dates is in
    order of non-increasing date and has the same elements. *)
Lemma sorted_newest_first {A : Type} (date : A -> Z) (l : list A) :
  let sorted := array_sort (fun a b => inject_Z (date b - date a)) l in
  Permutation sorted l
  /\ forall i j a b,
       (i < j)%nat -> nth_error sorted i = Some a ->
       nth_error sorted j = Some b -> (date b <= date a)%Z.
Proof.
  cbv zeta. split; [apply array_sort_Permutation|].
  intros i j a b Hij Hi Hj.
  assert (Hsorted :
    StronglySorted
      (ranked_before (fun x => inject_Z (date x)) (fun _ _ => True))
      (array_sort (fun a b => inject_Z (date b - date a)) l)).
  { apply sorted_array_sort; [|apply StronglySorted_any].
    intros x y. apply inject_Z_minus. }
  pose proof (@StronglySorted_nth _ _ _ Hsorted i j _ _ Hij Hi Hj) as Hr.
  destruct Hr as [Hlt|(Heq & _)].
  - rewrite <- Zlt_Qlt in Hlt. lia.
  - rewrite inject_Z_injective in Heq. lia.
Qed.

Lemma Qceiling_tenths (n : Z) :
  Qceiling (inject_Z n / inject_Z 10) = (- ((- n) / 10))%Z.
Proof.
  cbv [Qceiling Qfloor Qdiv Qmult Qinv Qopp inject_Z Qnum Qden].
  change (Z.pos (1 * 10)) with 10%Z. rewrite Z.mul_1_r. reflexivity.
Qed.

Lemma ceil_tenths (n : Z) :
  (10 * (Qceiling (inject_Z n / inject_Z 10) - 1) < n
   <= 10 * Qceiling (inject_Z n / inject_Z 10))%Z.
Proof.
  rewrite Qceiling_tenths.
  pose proof (Z.div_mod (- n) 10 ltac:(lia)) as Hd.
  pose proof (Z.mod_pos_bound (- n) 10 ltac:(lia)) as Hm.
  lia.
Qed.

Lemma firstn_min_length {A : Type} (n : nat) (l : list A) :
  firstn (Nat.min n (List.length l)) l = firstn n l.
Proof.
  destruct (Nat.le_gt_cases n (List.length l)) as [Hle|Hgt].
  - rewrite Nat.min_l by exact Hle. reflexivity.
  - rewrite Nat.min_r by lia.
    rewrite firstn_all, firstn_all2 by lia. reflexivity.
Qed.

(** The slice of page [p], for [p >= 1], is the ten elements after the
    first [10 * (p - 1)]. *)
Lemma slice_page {A : Type} (p : Z) (l : list A) :
  (1 <= p)%Z ->
  slice ((p - 1) * 10) ((p - 1) * 10 + 10) l
  = firstn 10 (skipn (Z.to_nat ((p - 1) * 10)) l).
Proof.
  intro Hp. unfold slice.
  set (len := Z.of_nat (List.length l)).
  set (start := ((p - 1) * 10)%Z).
  assert (Hstart : (0 <= start)%Z) by (unfold start; lia).
  destruct (Z.ltb_spec start 0) as [|_]; [lia|].
  destruct (Z.ltb_spec (start + 10) 0) as [|_]; [lia|].
  destruct (Z.le_gt_cases len start) as [Hout|Hin].
  - rewrite (Z.min_r start len), (Z.min_r (start + 10) len) by lia.
    rewrite Z.sub_diag. simpl firstn.
    rewrite (skipn_all2 l) by (unfold len in Hout; lia).
    destruct (Z.to_nat len); reflexivity.
  - rewrite (Z.min_l start len) by lia.
    set (rest := skipn (Z.to_nat start) l).
    assert (Hrest : List.length rest = (List.length l - Z.to_nat start)%nat)
      by apply length_skipn.
    rewrite <- (firstn_min_length 10 rest). f_equal.
    unfold len in *. lia.
Qed.

Lemma pages_concat {A : Type} (n : nat) (l : list A) :
  (List.length l <= 10 * n)%nat ->
  List.concat (map (fun i => firstn 10 (skipn (10 * i) l)) (seq 0 n)) = l.
Proof.
  revert l. induction n as [|n IH]; intros l Hlen.
  - destruct l; [reflexivity|simpl in Hlen; lia].
  - cbn [seq map List.concat]. rewrite <- seq_shift, map_map.
    transitivity (firstn 10 l ++ skipn 10 l); [|apply firstn_skipn].
    f_equal.
    rewrite <- (IH (skipn 10 l)) by (rewrite length_skipn; lia).
    f_equal. apply map_ext. intro i. rewrite skipn_skipn.
    replace (10 * S i)%nat with (10 * i + 10)%nat by lia. reflexivity.
Qed.

Lemma nth_error_page {A : Type} (k i : nat) (l : list A) :
  (i < 10)%nat ->
  nth_error (firstn 10 (skipn k l)) i = nth_error l (k + i).
Proof.
  intro Hi. rewrite nth_error_firstn.
  destruct (Nat.ltb_spec i 10) as [_|]; [|lia].
  apply nth_error_skipn.
Qed.

(** What the pages of a list are, for the page size of 10 and the number
    of pages [Math.ceil(length / 10)]. *)
Lemma pages_spec {A : Type} (l : list A) :
  let T := Qceiling (inject_Z (Z.of_nat (List.length l)) / inject_Z 10) in
  let page := fun p : Z => slice ((p - 1) * 10) ((p - 1) * 10 + 10) l in
  (10 * (T - 1) < Z.of_nat (List.length l) <= 10 * T)%Z
  /\ List.concat (map (fun i => page (Z.of_nat (S i))) (seq 0 (Z.to_nat T))) = l
  /\ (forall p, (1 <= p)%Z ->
        (List.length (page p) <= 10)%nat
        /\ forall i, (i < 10)%nat ->
             nth_error (page p) i
             = nth_error l (Z.to_nat ((p - 1) * 10) + i))
  /\ (forall p, (1 <= p <= T)%Z ->
        Z.of_nat (List.length (page p))
        = (Z.min (p * 10) (Z.of_nat (List.length l))
           - ((p - 1) * 10 + 1) + 1)%Z
        /\ (1 <= List.length (page p))%nat)
  /\ (forall p, (T < p)%Z -> (1 <= p)%Z -> page p = []).
Proof.
  cbv zeta.
  pose proof (ceil_tenths (Z.of_nat (List.length l))) as HT.
  set (T := Qceiling (inject_Z (Z.of_nat (List.length l)) / inject_Z 10)) in *.
  split; [exact HT|].
  assert (Hlen : forall p, (1 <= p)%Z ->
            List.length (firstn 10 (skipn (Z.to_nat ((p - 1) * 10)) l))
            = Nat.min 10 (List.length l - Z.to_nat ((p - 1) * 10))).
  { intros p Hp. rewrite length_firstn, length_skipn. reflexivity. }
  split.
  { transitivity
      (List.concat (map (fun i => firstn 10 (skipn (10 * i) l))
                      (seq 0 (Z.to_nat T))));
      [|apply pages_concat; lia].
    f_equal. apply map_ext. intro i.
    rewrite slice_page by lia. f_equal. f_equal. lia. }
  split.
  { intros p Hp. rewrite slice_page by exact Hp. split.
    - apply firstn_le_length.
    - intros i Hi. apply nth_error_page. exact Hi. }
  split.
  { intros p Hp. rewrite slice_page, Hlen by lia. lia. }
  intros p Hp H1. rewrite slice_page by exact H1.
  apply length_zero_iff_nil. rewrite Hlen by exact H1. lia.
Qed.

(** ** The list of the Sales page *)

Lemma is_empty_iff (s : string) :
  Reports.is_empty s = true <-> s = ""%string.
Proof.
  destruct s; simpl; split; congruence.
Qed.

Lemma includes_empty (s : string) : includes s "" = true.
Proof.
  destruct s; reflexivity.
Qed.

(** X12.  The list of the Sales page holds exactly the sales that match
    the search term, the selected shop and payment method if any, and the
    inclusive date bounds that are set; each sale once per occurrence; the
    newest first. *)
Theorem filteredSales_newest_first
    (toLowerCase : string -> string) (st : Sales.ListState)
    (sales : list Sale.t) :
  let l := Sales.filteredSales toLowerCase st sales in
  (forall s,
     In s l <->
     In s sales
     /\ Sales.matchesSearch toLowerCase st s = true
     /\ (Sales.selectedShop st = ""%string
         \/ Sale.shopId s = Sales.selectedShop st)
     /\ (Sales.selectedPaymentMethod st = ""%string
         \/ paymentMethod_key (Sale.paymentMethod s)
            = Sales.selectedPaymentMethod st)
     /\ match Reports.from (Sales.dateRange st) with
        | Some d => (d <= Sale.date s)%Z
        | None => True
        end
     /\ match Reports.to (Sales.dateRange st) with
        | Some d => (Sale.date s <= d)%Z
        | None => True
        end)
  /\ (exists keep, Permutation l (filter keep sales))
  /\ (forall i j a b,
        (i < j)%nat -> nth_error l i = Some a -> nth_error l j = Some b ->
        (Sale.date b <= Sale.date a)%Z).
Proof.
  cbv zeta. unfold Sales.filteredSales.
  set (keep := fun sale =>
                 Sales.matchesSearch toLowerCase st sale
                 && Sales.matchesShop st sale
                 && Sales.matchesPayment st sale
                 && Sales.matchesDate st sale).
  destruct (sorted_newest_first Sale.date (filter keep sales))
    as (Hperm & Hsorted).
  fold Sales.newest_first in Hperm, Hsorted.
  change (fun a b : Sale.t => inject_Z (Sale.date b - Sale.date a))
    with Sales.newest_first in Hperm, Hsorted.
  split; [|split; [exists keep; exact Hperm|exact Hsorted]].
  intro s.
  assert (Hin : In s (array_sort Sales.newest_first (filter keep sales))
                <-> In s (filter keep sales)).
  { split; apply Permutation_in;
      [exact Hperm|apply Permutation_sym; exact Hperm]. }
  rewrite Hin, filter_In. unfold keep.
  rewrite !andb_true_iff.
  unfold Sales.matchesShop, Sales.matchesPayment, Sales.matchesDate.
  rewrite !orb_true_iff, !is_empty_iff, !String.eqb_eq.
  destruct (Reports.from (Sales.dateRange st)) as [df|],
           (Reports.to (Sales.dateRange st)) as [dt|];
    rewrite ?andb_true_iff, ?Z.geb_le, ?Z.leb_le; intuition.
Qed.

(** X13.  The pages of the Sales list: there are
    [ceil(length / 10)] of them; pages 1 to the last, one after the
    other, give the list back; page [p] holds the entries from position
    [10 * (p - 1)] on, at most 10; each page up to the last is not empty
    and has as many entries as "Showing [from] to [to]" says; a page
    beyond the last is empty.  The Previous and Next buttons keep a valid
    page valid. *)
Theorem paginatedSales_pages
    (toLowerCase : string -> string) (st : Sales.ListState)
    (sales : list Sale.t) :
  let l := Sales.filteredSales toLowerCase st sales in
  let T := Sales.totalPages toLowerCase st sales in
  let page := fun p =>
    Sales.paginatedSales toLowerCase (Sales.setCurrentPage p st) sales in
  (10 * (T - 1) < Z.of_nat (List.length l) <= 10 * T)%Z
  /\ List.concat (map (fun i => page (Z.of_nat (S i))) (seq 0 (Z.to_nat T)))
     = l
  /\ (forall p, (1 <= p)%Z ->
        (List.length (page p) <= 10)%nat
        /\ forall i, (i < 10)%nat ->
             nth_error (page p) i
             = nth_error l (Z.to_nat ((p - 1) * 10) + i))
  /\ (forall p, (1 <= p <= T)%Z ->
        Z.of_nat (List.length (page p))
        = (Sales.showing_to toLowerCase (Sales.setCurrentPage p st) sales
           - Sales.showing_from (Sales.setCurrentPage p st) + 1)%Z
        /\ (1 <= List.length (page p))%nat)
  /\ (forall p, (T < p)%Z -> (1 <= p)%Z -> page p = [])
  /\ ((1 <= Sales.currentPage st <= T)%Z ->
      (1 <= Sales.previousPage st <= T)%Z
      /\ (1 <= Sales.nextPage toLowerCase st sales <= T)%Z).
Proof.
  cbv zeta.
  destruct (pages_spec (Sales.filteredSales toLowerCase st sales))
    as (HT & Hconcat & Hpage & Hshow & Hbeyond).
  unfold Sales.totalPages, Sales.itemsPerPage.
  split; [exact HT|]. split; [exact Hconcat|].
  split; [exact Hpage|]. split; [exact Hshow|]. split; [exact Hbeyond|].
  unfold Sales.previousPage, Sales.nextPage, Sales.totalPages,
    Sales.itemsPerPage. lia.
Qed.

(** X14.  With an empty search term and no payment method selected, the
    Sales page lists the same sales as the Reports page filters for the
    same shop and date range (in another order), so both pages show the
    same number of sales and the same total. *)
Theorem sales_page_agrees_with_reports
    (toLowerCase : string -> string) (st : Sales.ListState)
    (sales : list Sale.t) :
  toLowerCase ""%string = ""%string ->
  Sales.searchTerm st = ""%string ->
  Sales.selectedPaymentMethod st = ""%string ->
  let f := {| Reports.selectedShop := Sales.selectedShop st;
              Reports.dateRange := Sales.dateRange st |} in
  let reported := Reports.getFilteredData f sales in
  Permutation (Sales.filteredSales toLowerCase st sales) reported
  /\ List.length (Sales.filteredSales toLowerCase st sales)
     = List.length reported
  /\ Sales.totalSales toLowerCase st sales == Reports.totalSales reported.
Proof.
  intros Hlower Hsearch Hpay. cbv zeta.
  assert (Hperm : Permutation (Sales.filteredSales toLowerCase st sales)
                    (Reports.getFilteredData
                       {| Reports.selectedShop := Sales.selectedShop st;
                          Reports.dateRange := Sales.dateRange st |} sales)).
  { unfold Sales.filteredSales, Reports.getFilteredData.
    rewrite filterDataByDate_filter, filterDataByShop_filter, filter_filter.
    eapply Permutation_trans; [apply array_sort_Permutation|].
    erewrite filter_ext; [apply Permutation_refl|].
    intro s. unfold Sales.matchesSearch, Sales.matchesShop,
      Sales.matchesPayment, Sales.matchesDate.
    rewrite Hsearch, Hpay, Hlower, includes_empty. simpl.
    destruct (Reports.from (Sales.dateRange st)) as [df|],
             (Reports.to (Sales.dateRange st)) as [dt|];
      rewrite ?Z.geb_leb, ?andb_true_r; simpl;
      destruct (Reports.is_empty (Sales.selectedShop st)
                || String.eqb (Sale.shopId s) (Sales.selectedShop st));
      rewrite ?andb_true_r, ?andb_false_r; reflexivity. }
  split; [exact Hperm|]. split; [apply Permutation_length; exact Hperm|].
  unfold Sales.totalSales, Reports.totalSales.
  rewrite !reduce_sum_sum_of. apply sum_of_Permutation. exact Hperm.
Qed.

(** ** Recording a sale: what is accepted *)

Lemma is_empty_false_iff (s : string) :
  Reports.is_empty s = false <-> s <> ""%string.
Proof.
  destruct s; simpl; split; congruence.
Qed.

(** X15.  [handleSubmit] of the Sales page records a sale exactly when the
    product, the shop and the quantity are filled in, the product and the
    shop exist, and the parsed quantity is not greater than the stock of
    the product in that shop.  A recorded sale carries the ids and names
    of that product and shop and a quantity that, when it is a number,
    does not exceed that stock.  Missing fields are reported first, an
    unknown product or shop next, insufficient stock last. *)
Theorem handleSubmit_outcomes
    (parseInt parseFloat : string -> number)
    (products : list Product.t) (shops : list Shop.t)
    (currentUserId : option string) (formData : Sales.FormData) :
  let outcome :=
    Sales.handleSubmit parseInt parseFloat products shops currentUserId
      formData in
  let filled :=
    Sales.productId formData <> ""%string
    /\ Sales.shopId formData <> ""%string
    /\ Sales.quantity formData <> ""%string in
  let found product shop :=
    find (fun p => String.eqb (Product.id p) (Sales.productId formData))
         products = Some product
    /\ find (fun s => String.eqb (Shop.id s) (Sales.shopId formData)) shops
       = Some shop in
  let stock_of product :=
    or0 (JsObject.get (Sales.shopId formData) (Product.stock product)) in
  (outcome = Sales.Rejected Sales.MissingFields <-> ~ filled)
  /\ (outcome = Sales.Rejected Sales.InvalidSelection <->
      filled /\ ~ exists product shop, found product shop)
  /\ (forall available,
        outcome = Sales.Rejected (Sales.InsufficientStock available) <->
        filled
        /\ exists product shop,
             found product shop /\ available = stock_of product
             /\ gt (parseInt (Sales.quantity formData)) (Fin available)
                = true)
  /\ (forall sale,
        outcome = Sales.Recorded sale ->
        filled
        /\ exists product shop,
             found product shop
             /\ In product products /\ In shop shops
             /\ Sales.ns_productId sale = Sales.productId formData
             /\ Sales.ns_productName sale = Product.name product
             /\ Sales.ns_shopId sale = Sales.shopId formData
             /\ Sales.ns_shopName sale = Shop.name shop
             /\ Sales.ns_quantity sale = parseInt (Sales.quantity formData)
             /\ gt (Sales.ns_quantity sale) (Fin (stock_of product)) = false
             /\ forall q, Sales.ns_quantity sale = Fin q ->
                          q <= stock_of product)
  /\ (filled ->
      forall product shop,
        found product shop ->
        gt (parseInt (Sales.quantity formData)) (Fin (stock_of product))
        = false ->
        exists sale, outcome = Sales.Recorded sale).
Proof.
  cbv zeta. unfold Sales.handleSubmit.
  assert (Hfilled :
    (Reports.is_empty (Sales.productId formData)
     || Reports.is_empty (Sales.shopId formData)
     || Reports.is_empty (Sales.quantity formData))%bool = false
    <-> Sales.productId formData <> ""%string
        /\ Sales.shopId formData <> ""%string
        /\ Sales.quantity formData <> ""%string).
  { rewrite !orb_false_iff, !is_empty_false_iff. tauto. }
  destruct (Reports.is_empty (Sales.productId formData)
            || Reports.is_empty (Sales.shopId formData)
            || Reports.is_empty (Sales.quantity formData))%bool eqn:Hempty.
  { assert (Hnot : ~ (Sales.productId formData <> ""%string
                      /\ Sales.shopId formData <> ""%string
                      /\ Sales.quantity formData <> ""%string)).
    { intro Hf. apply Hfilled in Hf. discriminate. }
    split; [tauto|]. split; [split; [discriminate|tauto]|].
    split; [intro available; split; [discriminate|tauto]|].
    split; [intros sale Hs; discriminate|]. intro Hf. contradiction. }
  assert (Hf : Sales.productId formData <> ""%string
               /\ Sales.shopId formData <> ""%string
               /\ Sales.quantity formData <> ""%string)
    by (apply Hfilled; reflexivity).
  assert (Hstock : forall product,
            find (fun p => String.eqb (Product.id p)
                             (Sales.productId formData)) products
            = Some product ->
            Sales.availableStock products formData
            = or0 (JsObject.get (Sales.shopId formData)
                     (Product.stock product))).
  { intros product Hfind. unfold Sales.availableStock, Sales.selectedProduct.
    rewrite Hfind.
    destruct (Reports.is_empty (Sales.shopId formData)) eqn:E;
      [|reflexivity].
    apply is_empty_iff in E. tauto. }
  destruct (find (fun p => String.eqb (Product.id p)
                             (Sales.productId formData)) products)
    as [product|] eqn:Hp.
  2:{ split; [split; [discriminate|tauto]|].
      split; [split; [intros _; split; [exact Hf|]|reflexivity]|].
      { intros (p & s & Hfp & _). discriminate. }
      split; [intro available; split; [discriminate|]|].
      { intros (_ & p & s & (Hfp & _) & _). discriminate. }
      split; [intros sale Hs; discriminate|].
      intros _ p s (Hfp & _). discriminate. }
  destruct (find (fun s => String.eqb (Shop.id s) (Sales.shopId formData))
              shops) as [shop|] eqn:Hs.
  2:{ split; [split; [discriminate|tauto]|].
      split; [split; [intros _; split; [exact Hf|]|reflexivity]|].
      { intros (p & s & _ & Hfs). discriminate. }
      split; [intro available; split; [discriminate|]|].
      { intros (_ & p & s & (_ & Hfs) & _). discriminate. }
      split; [intros sale Hsale; discriminate|].
      intros _ p s (_ & Hfs). discriminate. }
  rewrite (Hstock product eq_refl).
  destruct (find_some _ _ Hp) as (Hpin & Hpid).
  destruct (find_some _ _ Hs) as (Hsin & Hsid).
  apply String.eqb_eq in Hpid, Hsid.
  destruct (gt (parseInt (Sales.quantity formData))
               (Fin (or0 (JsObject.get (Sales.shopId formData)
                            (Product.stock product))))) eqn:Hgt.
  - split; [split; [discriminate|tauto]|].
    split; [split; [discriminate|]|].
    { intros (_ & Hnone). exfalso. apply Hnone. exists product, shop. tauto. }
    split.
    { intro available. split.
      - intro Hrej. injection Hrej as <-. split; [exact Hf|].
        exists product, shop. tauto.
      - intros (_ & p & s & (Hfp & _) & -> & _).
        injection Hfp as <-. reflexivity. }
    split; [intros sale Hsale; discriminate|].
    intros _ p s (Hfp & _) Hok. injection Hfp as <-. congruence.
  - split; [split; [discriminate|tauto]|].
    split; [split; [discriminate|]|].
    { intros (_ & Hnone). exfalso. apply Hnone. exists product, shop. tauto. }
    split.
    { intro available. split; [discriminate|].
      intros (_ & p & s & (Hfp & _) & -> & Hbad).
      injection Hfp as <-. congruence. }
    split.
    { intros sale Hsale. injection Hsale as <-.
      cbn [Sales.ns_productId Sales.ns_productName Sales.ns_shopId
           Sales.ns_shopName Sales.ns_quantity].
      split; [exact Hf|]. exists product, shop.
      repeat split; try assumption; try reflexivity.
      intros q Hq. rewrite Hq in Hgt. simpl in Hgt.
      apply Qlt_bool_false_iff in Hgt. exact Hgt. }
    intros _ p s _ _. eexists. reflexivity.
Qed.

(** X16.  For a recorded sale with a non-negative price and quantity and
    a discount between 0 and 100, the total amount lies between 0 and the
    undiscounted subtotal [price * quantity]. *)
Theorem handleSubmit_totalAmount_bounds
    (parseInt parseFloat : string -> number)
    (products : list Product.t) (shops : list Shop.t)
    (currentUserId : option string)
    (formData : Sales.FormData) (sale : Sales.NewSale) (q d : Q) :
  Sales.handleSubmit parseInt parseFloat products shops currentUserId formData
  = Sales.Recorded sale ->
  Sales.ns_quantity sale = Fin q ->
  Sales.ns_discount sale = Fin d ->
  0 <= Sales.ns_unitPrice sale -> 0 <= q -> 0 <= d <= 100 ->
  exists t,
    Sales.ns_totalAmount sale = Fin t
    /\ 0 <= t <= Sales.ns_unitPrice sale * q.
Proof.
  unfold Sales.handleSubmit.
  destruct (Reports.is_empty (Sales.productId formData)
            || Reports.is_empty (Sales.shopId formData)
            || Reports.is_empty (Sales.quantity formData))%bool;
    [discriminate|].
  destruct (find _ products) as [product|]; [|discriminate].
  destruct (find _ shops) as [shop|]; [|discriminate].
  destruct (gt _ _); [discriminate|].
  intro Hrec. injection Hrec as <-.
  cbn [Sales.ns_unitPrice Sales.ns_quantity Sales.ns_discount
       Sales.ns_totalAmount].
  intros Hq Hd Hp Hq0 (Hd0 & Hd100). rewrite Hq, Hd.
  eexists. split; [reflexivity|].
  set (p := Product.price product) in *.
  assert (Hsub : 0 <= p * q) by (apply Qmult_le_0_compat; assumption).
  assert (Heq : p * q + - (p * q * d / 100) == p * q * ((100 - d) / 100))
    by field.
  assert (Hfrac0 : 0 <= (100 - d) / 100).
  { apply Qle_shift_div_l; [reflexivity|]. rewrite Qmult_0_l.
    apply (Qplus_le_l _ _ d). ring_simplify. exact Hd100. }
  assert (Hfrac1 : (100 - d) / 100 <= 1).
  { apply Qle_shift_div_r; [reflexivity|]. rewrite Qmult_1_l.
    apply (Qplus_le_l _ _ d). ring_simplify.
    apply (Qplus_le_r _ _ (-(100))) . ring_simplify. exact Hd0. }
  split.
  - rewrite Heq. apply Qmult_le_0_compat; assumption.
  - rewrite Heq.
    apply Qle_trans with (y := p * q * 1); [|rewrite Qmult_1_r; apply Qle_refl].
    rewrite !(Qmult_comm (p * q)).
    apply Qmult_le_compat_r; assumption.
Qed.

(** X17.  The total previewed in the form equals the total that is then
    recorded, provided the discount field is empty or parses to a number
    ([parseFloat] reading "0" as 0 and nothing from the empty string) and
    the quantity parses to a number. *)
Theorem previewTotal_is_recorded_total
    (parseInt parseFloat : string -> number)
    (products : list Product.t) (shops : list Shop.t)
    (currentUserId : option string)
    (formData : Sales.FormData) (sale : Sales.NewSale) (q : Q) :
  parseFloat "0"%string = Fin 0 ->
  parseFloat ""%string = NaN ->
  (Sales.discount formData <> ""%string ->
   exists d, parseFloat (Sales.discount formData) = Fin d) ->
  Sales.handleSubmit parseInt parseFloat products shops currentUserId formData
  = Sales.Recorded sale ->
  Sales.ns_quantity sale = Fin q ->
  exists shown recorded,
    Sales.previewTotal parseInt parseFloat products formData
    = Some (Fin shown)
    /\ Sales.ns_totalAmount sale = Fin recorded
    /\ shown == recorded.
Proof.
  intros Hzero Hempty Hparsed.
  unfold Sales.handleSubmit, Sales.previewTotal, Sales.selectedProduct.
  destruct (Reports.is_empty (Sales.productId formData)
            || Reports.is_empty (Sales.shopId formData)
            || Reports.is_empty (Sales.quantity formData))%bool eqn:Hf;
    [discriminate|].
  apply orb_false_iff in Hf. destruct Hf as (_ & Hquantity).
  rewrite Hquantity.
  destruct (find _ products) as [product|]; [|discriminate].
  destruct (find _ shops) as [shop|]; [|discriminate].
  destruct (gt _ _); [discriminate|].
  intro Hrec. injection Hrec as <-.
  cbn [Sales.ns_quantity Sales.ns_totalAmount]. intro Hq. rewrite Hq.
  destruct (Reports.is_empty (Sales.discount formData)) eqn:Hd.
  - apply is_empty_iff in Hd. rewrite Hd, Hzero, Hempty.
    eexists. eexists. split; [reflexivity|]. split; [reflexivity|].
    reflexivity.
  - apply is_empty_false_iff in Hd. destruct (Hparsed Hd) as (d & Hdv).
    rewrite Hdv. unfold or_else, truthy.
    destruct (Qeq_bool d 0) eqn:E; simpl negb; cbv iota.
    + apply Qeq_bool_iff in E.
      eexists. eexists. split; [reflexivity|]. split; [reflexivity|].
      rewrite E. reflexivity.
    + eexists. eexists. split; [reflexivity|]. split; [reflexivity|].
      reflexivity.
Qed.

(** ** Stock transfers *)

(** X18.  A transfer is recorded only with all of product, source shop,
    destination shop and quantity filled in, source and destination
    different, the product and both shops existing, and a parsed quantity
    that is not greater than the stock of the product in the source
    shop; the recorded transfer carries the ids and names of these.
    Conversely such a form is always recorded.  Equal source and
    destination are rejected before the shops are looked up. *)
Theorem transfer_handleSubmit_outcomes
    (parseInt : string -> number)
    (products : list Product.t) (shops : list Shop.t)
    (currentUserId : option string) (formData : StockTransfers.FormData) :
  let outcome :=
    StockTransfers.handleSubmit parseInt products shops currentUserId
      formData in
  let filled :=
    StockTransfers.fd_productId formData <> ""%string
    /\ StockTransfers.fd_fromShopId formData <> ""%string
    /\ StockTransfers.fd_toShopId formData <> ""%string
    /\ StockTransfers.fd_quantity formData <> ""%string in
  let found product fromShop toShop :=
    find (fun p => String.eqb (Product.id p)
                     (StockTransfers.fd_productId formData)) products
    = Some product
    /\ find (fun s => String.eqb (Shop.id s)
                        (StockTransfers.fd_fromShopId formData)) shops
       = Some fromShop
    /\ find (fun s => String.eqb (Shop.id s)
                        (StockTransfers.fd_toShopId formData)) shops
       = Some toShop in
  let stock_of product :=
    or0 (JsObject.get (StockTransfers.fd_fromShopId formData)
           (Product.stock product)) in
  (outcome = StockTransfers.Rejected StockTransfers.MissingFields
   <-> ~ filled)
  /\ (outcome = StockTransfers.Rejected StockTransfers.SameShop
      <-> filled
          /\ StockTransfers.fd_fromShopId formData
             = StockTransfers.fd_toShopId formData)
  /\ (forall transfer,
        outcome = StockTransfers.Recorded transfer ->
        filled
        /\ StockTransfers.nt_fromShopId transfer
           <> StockTransfers.nt_toShopId transfer
        /\ exists product fromShop toShop,
             found product fromShop toShop
             /\ In product products /\ In fromShop shops /\ In toShop shops
             /\ StockTransfers.nt_productId transfer
                = StockTransfers.fd_productId formData
             /\ StockTransfers.nt_productName transfer = Product.name product
             /\ StockTransfers.nt_fromShopId transfer
                = StockTransfers.fd_fromShopId formData
             /\ StockTransfers.nt_fromShopName transfer = Shop.name fromShop
             /\ StockTransfers.nt_toShopId transfer
                = StockTransfers.fd_toShopId formData
             /\ StockTransfers.nt_toShopName transfer = Shop.name toShop
             /\ StockTransfers.nt_quantity transfer
                = parseInt (StockTransfers.fd_quantity formData)
             /\ forall q, StockTransfers.nt_quantity transfer = Fin q ->
                          q <= stock_of product)
  /\ (filled ->
      StockTransfers.fd_fromShopId formData
      <> StockTransfers.fd_toShopId formData ->
      forall product fromShop toShop,
        found product fromShop toShop ->
        gt (parseInt (StockTransfers.fd_quantity formData))
           (Fin (stock_of product)) = false ->
        exists transfer, outcome = StockTransfers.Recorded transfer).
Proof.
  cbv zeta. unfold StockTransfers.handleSubmit.
  assert (Hfilled :
    (Reports.is_empty (StockTransfers.fd_productId formData)
     || Reports.is_empty (StockTransfers.fd_fromShopId formData)
     || Reports.is_empty (StockTransfers.fd_toShopId formData)
     || Reports.is_empty (StockTransfers.fd_quantity formData))%bool = false
    <-> StockTransfers.fd_productId formData <> ""%string
        /\ StockTransfers.fd_fromShopId formData <> ""%string
        /\ StockTransfers.fd_toShopId formData <> ""%string
        /\ StockTransfers.fd_quantity formData <> ""%string).
  { rewrite !orb_false_iff, !is_empty_false_iff. tauto. }
  destruct (Reports.is_empty (StockTransfers.fd_productId formData)
            || Reports.is_empty (StockTransfers.fd_fromShopId formData)
            || Reports.is_empty (StockTransfers.fd_toShopId formData)
            || Reports.is_empty (StockTransfers.fd_quantity formData))%bool
    eqn:Hempty.
  { assert (Hnot : ~ (StockTransfers.fd_productId formData <> ""%string
                      /\ StockTransfers.fd_fromShopId formData <> ""%string
                      /\ StockTransfers.fd_toShopId formData <> ""%string
                      /\ StockTransfers.fd_quantity formData <> ""%string)).
    { intro Hf. apply Hfilled in Hf. discriminate. }
    split; [tauto|]. split; [split; [discriminate|tauto]|].
    split; [intros t Ht; discriminate|]. intro Hf. contradiction. }
  assert (Hf : StockTransfers.fd_productId formData <> ""%string
               /\ StockTransfers.fd_fromShopId formData <> ""%string
               /\ StockTransfers.fd_toShopId formData <> ""%string
               /\ StockTransfers.fd_quantity formData <> ""%string)
    by (apply Hfilled; reflexivity).
  split; [split; [|tauto]|].
  { destruct (String.eqb _ _); [discriminate|].
    destruct (find _ products); [|discriminate].
    destruct (find _ shops); [|discriminate].
    destruct (find _ shops); [|discriminate].
    destruct (gt _ _); discriminate. }
  destruct (String.eqb_spec (StockTransfers.fd_fromShopId formData)
              (StockTransfers.fd_toShopId formData)) as [Hsame|Hdiff].
  { split; [tauto|]. split; [intros t Ht; discriminate|].
    intros _ Hne. contradiction. }
  split.
  { split; [|tauto].
    destruct (find _ products); [|discriminate].
    destruct (find _ shops); [|discriminate].
    destruct (find _ shops); [|discriminate].
    destruct (gt _ _); discriminate. }
  assert (Hstock : forall product,
            find (fun p => String.eqb (Product.id p)
                             (StockTransfers.fd_productId formData)) products
            = Some product ->
            StockTransfers.availableStock products formData
            = or0 (JsObject.get (StockTransfers.fd_fromShopId formData)
                     (Product.stock product))).
  { intros product Hfind.
    unfold StockTransfers.availableStock, StockTransfers.selectedProduct.
    rewrite Hfind.
    destruct (Reports.is_empty (StockTransfers.fd_fromShopId formData))
      eqn:E; [|reflexivity].
    apply is_empty_iff in E. tauto. }
  destruct (find (fun p => String.eqb (Product.id p)
                             (StockTransfers.fd_productId formData)) products)
    as [product|] eqn:Hp.
  2:{ split; [intros t Ht; discriminate|].
      intros _ _ p s1 s2 (Hfp & _). discriminate. }
  destruct (find (fun s => String.eqb (Shop.id s)
                             (StockTransfers.fd_fromShopId formData)) shops)
    as [fromShop|] eqn:Hs1.
  2:{ split; [intros t Ht; discriminate|].
      intros _ _ p s1 s2 (_ & Hfs & _). discriminate. }
  destruct (find (fun s => String.eqb (Shop.id s)
                             (StockTransfers.fd_toShopId formData)) shops)
    as [toShop|] eqn:Hs2.
  2:{ split; [intros t Ht; discriminate|].
      intros _ _ p s1 s2 (_ & _ & Hfs). discriminate. }
  rewrite (Hstock product eq_refl).
  destruct (find_some _ _ Hp) as (Hpin & Hpid).
  destruct (find_some _ _ Hs1) as (Hs1in & Hs1id).
  destruct (find_some _ _ Hs2) as (Hs2in & Hs2id).
  apply String.eqb_eq in Hpid, Hs1id, Hs2id.
  destruct (gt (parseInt (StockTransfers.fd_quantity formData))
               (Fin (or0 (JsObject.get (StockTransfers.fd_fromShopId formData)
                            (Product.stock product))))) eqn:Hgt.
  - split; [intros t Ht; discriminate|].
    intros _ _ p s1 s2 (Hfp & _) Hok. injection Hfp as <-. congruence.
  - split.
    + intros t Ht. injection Ht as <-.
      cbn [StockTransfers.nt_productId StockTransfers.nt_productName
           StockTransfers.nt_fromShopId StockTransfers.nt_fromShopName
           StockTransfers.nt_toShopId StockTransfers.nt_toShopName
           StockTransfers.nt_quantity].
      split; [exact Hf|]. split; [congruence|].
      exists product, fromShop, toShop.
      repeat split; try assumption; try reflexivity.
      intros q Hq. rewrite Hq in Hgt. simpl in Hgt.
      apply Qlt_bool_false_iff in Hgt. exact Hgt.
    + intros _ _ p s1 s2 _ _. eexists. reflexivity.
Qed.

Lemma status_counts (l : list StockTransfers.StockTransfer) :
  (List.length (filter (StockTransfers.is_status StockTransfers.completed) l)
   + List.length (filter (StockTransfers.is_status StockTransfers.pending) l)
   + List.length (filter (StockTransfers.is_status StockTransfers.cancelled) l)
   = List.length l)%nat.
Proof.
  unfold StockTransfers.is_status.
  induction l as [|t l IH]; simpl; [reflexivity|].
  destruct (StockTransfers.status t); simpl in *; lia.
Qed.

(** X19.  The statistics of the transfers page: every listed transfer is
    completed, pending or cancelled, so the completed and the pending
    ones together are at most the total; the quantity transferred is the
    summed quantity of the completed ones; and the success rate is a whole
    number of percent between 0 and 100, 0 for an empty list (the division
    is guarded) and 100 when every listed transfer is completed. *)
Theorem transfer_statistics
    (toLowerCase : string -> string) (st : StockTransfers.ListState)
    (transfers : list StockTransfers.StockTransfer) :
  let l := StockTransfers.filteredTransfers toLowerCase st transfers in
  let total := StockTransfers.totalTransfers toLowerCase st transfers in
  let done := StockTransfers.completedTransfers toLowerCase st transfers in
  let waiting := StockTransfers.pendingTransfers toLowerCase st transfers in
  (done + waiting
   + Spec.count_where (StockTransfers.is_status StockTransfers.cancelled) l
   = total)%nat
  /\ (done + waiting <= total)%nat
  /\ StockTransfers.totalQuantityTransferred toLowerCase st transfers
     == Spec.sum_where (StockTransfers.is_status StockTransfers.completed)
          StockTransfers.quantity l
  /\ exists r : Z,
       StockTransfers.successRate toLowerCase st transfers
       = Fin (inject_Z r)
       /\ (0 <= r <= 100)%Z
       /\ (total = O -> r = 0%Z)
       /\ ((0 < total)%nat -> done = total -> r = 100%Z).
Proof.
  cbv zeta.
  unfold StockTransfers.totalTransfers, StockTransfers.completedTransfers,
    StockTransfers.pendingTransfers, StockTransfers.totalQuantityTransferred,
    StockTransfers.successRate, StockTransfers.totalTransfers,
    StockTransfers.completedTransfers.
  set (l := StockTransfers.filteredTransfers toLowerCase st transfers).
  pose proof (status_counts l) as Hcounts.
  rewrite <- length_filter_count.
  split; [exact Hcounts|]. split; [lia|].
  split; [apply reduce_sum_filter|].
  set (c := List.length (filter (StockTransfers.is_status
                                   StockTransfers.completed) l)) in *.
  set (t := List.length l) in *.
  destruct (Nat.ltb_spec 0 t) as [Hpos|Hzero].
  - assert (Ht : 0 < inject_Z (Z.of_nat t))
      by (apply inject_Z_of_nat_pos; exact Hpos).
    rewrite div_Fin_nonzero by (apply Qeq_bool_false_of_lt; exact Ht).
    cbn [mul round].
    set (x := inject_Z (Z.of_nat c) / inject_Z (Z.of_nat t) * 100).
    assert (Hc : inject_Z (Z.of_nat c) <= inject_Z (Z.of_nat t))
      by (rewrite <- Zle_Qle; lia).
    assert (Hx0 : 0 <= x).
    { unfold x. apply Qmult_le_0_compat; [|discriminate].
      apply Qle_shift_div_l; [exact Ht|]. rewrite Qmult_0_l.
      change 0 with (inject_Z 0). rewrite <- Zle_Qle. lia. }
    assert (Hx100 : x <= 100) by (apply percent_le_100; assumption).
    exists (Qfloor (x + (1 # 2))). split; [reflexivity|]. split; [split|].
    + change 0%Z with (Qfloor 0).
      apply Qfloor_resp_le.
      apply Qle_trans with (y := x); [exact Hx0|].
      rewrite <- (Qplus_0_r x) at 1. apply Qplus_le_r. discriminate.
    + change 100%Z with (Qfloor (100 + (1 # 2))).
      apply Qfloor_resp_le. apply Qplus_le_l. exact Hx100.
    + split; [lia|]. intros _ Hall.
      assert (Hx : x == 100).
      { unfold x. rewrite Hall. field.
        intro Hz. rewrite Hz in Ht. exact (Qlt_irrefl _ Ht). }
      rewrite Hx. reflexivity.
  - exists 0%Z. split; [reflexivity|]. split; [lia|]. split; [reflexivity|lia].
Qed.

(** X20.  The list of the transfers page holds exactly the transfers that
    match the search term, the selected status, source and destination
    shop if any, and the inclusive date bounds that are set, the newest
    first; its pages of 10, one after the other, give the list back, and
    a page beyond the last is empty. *)
Theorem filteredTransfers_pages
    (toLowerCase : string -> string) (st : StockTransfers.ListState)
    (transfers : list StockTransfers.StockTransfer) :
  let l := StockTransfers.filteredTransfers toLowerCase st transfers in
  let T := StockTransfers.totalPages toLowerCase st transfers in
  let page := fun p =>
    StockTransfers.paginatedTransfers toLowerCase
      (StockTransfers.setCurrentPage p st) transfers in
  (forall t,
     In t l <->
     In t transfers
     /\ StockTransfers.matchesSearch toLowerCase st t = true
     /\ (StockTransfers.selectedStatus st = ""%string
         \/ StockTransfers.status_key (StockTransfers.status t)
            = StockTransfers.selectedStatus st)
     /\ (StockTransfers.selectedFromShop st = ""%string
         \/ StockTransfers.fromShopId t = StockTransfers.selectedFromShop st)
     /\ (StockTransfers.selectedToShop st = ""%string
         \/ StockTransfers.toShopId t = StockTransfers.selectedToShop st)
     /\ match Reports.from (StockTransfers.dateRange st) with
        | Some d => (d <= StockTransfers.date t)%Z
        | None => True
        end
     /\ match Reports.to (StockTransfers.dateRange st) with
        | Some d => (StockTransfers.date t <= d)%Z
        | None => True
        end)
  /\ (forall i j a b,
        (i < j)%nat -> nth_error l i = Some a -> nth_error l j = Some b ->
        (StockTransfers.date b <= StockTransfers.date a)%Z)
  /\ (10 * (T - 1) < Z.of_nat (List.length l) <= 10 * T)%Z
  /\ List.concat (map (fun i => page (Z.of_nat (S i))) (seq 0 (Z.to_nat T)))
     = l
  /\ (forall p, (1 <= p)%Z -> (List.length (page p) <= 10)%nat)
  /\ (forall p, (1 <= p <= T)%Z -> (1 <= List.length (page p))%nat)
  /\ (forall p, (T < p)%Z -> (1 <= p)%Z -> page p = []).
Proof.
  cbv zeta.
  destruct (pages_spec (StockTransfers.filteredTransfers toLowerCase st
                          transfers))
    as (HT & Hconcat & Hpage & Hshow & Hbeyond).
  split; [|split].
  3:{ unfold StockTransfers.totalPages, StockTransfers.itemsPerPage.
      split; [exact HT|]. split; [exact Hconcat|].
      split; [intros p Hp; exact (proj1 (Hpage p Hp))|].
      split; [intros p Hp; exact (proj2 (Hshow p Hp))|exact Hbeyond]. }
  - unfold StockTransfers.filteredTransfers.
    set (keep := fun t =>
                   StockTransfers.matchesSearch toLowerCase st t
                   && StockTransfers.matchesStatus st t
                   && StockTransfers.matchesFromShop st t
                   && StockTransfers.matchesToShop st t
                   && StockTransfers.matchesDate st t).
    intro t.
    assert (Hin : In t (array_sort StockTransfers.newest_first
                          (filter keep transfers))
                  <-> In t (filter keep transfers)).
    { split; apply Permutation_in;
        [apply array_sort_Permutation
        |apply Permutation_sym, array_sort_Permutation]. }
    rewrite Hin, filter_In. unfold keep.
    rewrite !andb_true_iff.
    unfold StockTransfers.matchesStatus, StockTransfers.matchesFromShop,
      StockTransfers.matchesToShop, StockTransfers.matchesDate.
    rewrite !orb_true_iff, !is_empty_iff, !String.eqb_eq.
    destruct (Reports.from (StockTransfers.dateRange st)) as [df|],
             (Reports.to (StockTransfers.dateRange st)) as [dt|];
      rewrite ?andb_true_iff, ?Z.geb_le, ?Z.leb_le; intuition.
  - unfold StockTransfers.filteredTransfers.
    exact (proj2 (sorted_newest_first StockTransfers.date _)).
Qed.

(** ** Transactions per shop *)

Lemma nat_sum_plus {A : Type} (f g : A -> nat) (l : list A) :
  fold_right Nat.add O (map (fun x => (f x + g x)%nat) l)
  = (fold_right Nat.add O (map f l) + fold_right Nat.add O (map g l))%nat.
Proof.
  induction l as [|x l IH]; simpl; lia.
Qed.

Lemma nat_sum_zero {A : Type} (f : A -> nat) (l : list A) :
  (forall x, In x l -> f x = O) -> fold_right Nat.add O (map f l) = O.
Proof.
  induction l as [|x l IH]; intro Hf; simpl; [reflexivity|].
  rewrite (Hf x (or_introl eq_refl)), IH; [reflexivity|].
  intros y Hy. apply Hf. right. exact Hy.
Qed.

Lemma one_shop_of_sale (shops : list Shop.t) (s : Sale.t) :
  NoDup (map Shop.id shops) ->
  In (Sale.shopId s) (map Shop.id shops) ->
  fold_right Nat.add O
    (map (fun shop => if Spec.of_shop shop s then 1%nat else O) shops)
  = 1%nat.
Proof.
  induction shops as [|shop r IH]; simpl; intros Hnd Hin; [contradiction|].
  inversion Hnd as [|? ? Hnotin Hnd']; subst.
  unfold Spec.of_shop at 1.
  destruct (String.eqb_spec (Sale.shopId s) (Shop.id shop)) as [Heq|Hne].
  - rewrite nat_sum_zero; [reflexivity|].
    intros shop' Hshop'. unfold Spec.of_shop.
    destruct (String.eqb_spec (Sale.shopId s) (Shop.id shop')) as [Heq'|];
      [|reflexivity].
    exfalso. apply Hnotin. rewrite <- Heq, Heq'. apply in_map. exact Hshop'.
  - destruct Hin as [Hhere|Hin]; [congruence|].
    rewrite (IH Hnd' Hin). reflexivity.
Qed.

Lemma count_over_shops (shops : list Shop.t) (sales : list Sale.t) :
  NoDup (map Shop.id shops) ->
  (forall s, In s sales -> In (Sale.shopId s) (map Shop.id shops)) ->
  fold_right Nat.add O
    (map (fun shop => Spec.count_where (Spec.of_shop shop) sales) shops)
  = List.length sales.
Proof.
  intros Hnd Hin. induction sales as [|s l IH]; simpl.
  - apply nat_sum_zero. reflexivity.
  - rewrite <- IH by (intros y Hy; apply Hin; right; exact Hy).
    rewrite <- Nat.add_1_l.
    rewrite <- (@one_shop_of_sale shops s Hnd (Hin s (or_introl eq_refl))).
    rewrite <- nat_sum_plus. f_equal. apply map_ext. intro shop.
    destruct (Spec.of_shop shop s); reflexivity.
Qed.

(** X21.  When the shops have pairwise distinct ids and every filtered
    sale belongs to one of them, the transaction counts of [salesByShop]
    add up to [totalTransactions]. *)
Theorem salesByShop_transactions_total
    (tz : Z) (clock : nat -> Z)
    (sales : list Sale.t) (expenses : list Expense.t)
    (shops : list Shop.t) (products : list Product.t) (f : Reports.Filter) :
  NoDup (map Shop.id shops) ->
  (forall s, In s (Reports.getFilteredData f sales) ->
             In (Sale.shopId s) (map Shop.id shops)) ->
  let a := Reports.analytics tz clock sales expenses shops products f in
  fold_right Nat.add O (map Reports.ss_transactions (Reports.a_salesByShop a))
  = Reports.a_totalTransactions a.
Proof.
  intros Hnd Hin. cbv zeta.
  cbn [Reports.analytics Reports.a_salesByShop Reports.a_totalTransactions].
  unfold Reports.salesByShop. rewrite map_map.
  cbn [Reports.ss_transactions].
  rewrite <- (@count_over_shops shops _ Hnd Hin). f_equal.
  apply map_ext. intro shop. apply length_filter_count.
Qed.

(** ** The further properties at the sample data *)



(** One sale made today: the trend adds up to the total. *)
Lemma dailySales_sums_to_totalSales_witness :
  (forall k, (k < 30)%nat ->
     localDay 0 (steady_clock june_1st_2024 k) = 19875%Z)
  /\ (forall s, In s (Reports.getFilteredData no_filter [one_sale]) ->
        (19875 - 29 <= localDay 0 (Sale.date s) <= 19875)%Z)
  /\ Spec.sum_of Reports.ds_amount
       (Reports.a_dailySales
          (Reports.analytics 0 (steady_clock june_1st_2024)
             [one_sale] [] [] [] no_filter))
     == Reports.a_totalSales
          (Reports.analytics 0 (steady_clock june_1st_2024)
             [one_sale] [] [] [] no_filter).
Proof.
  assert (Hclock : forall k, (k < 30)%nat ->
            localDay 0 (steady_clock june_1st_2024 k) = 19875%Z)
    by (intros k Hk; vm_compute; reflexivity).
  assert (Hrecent : forall s,
            In s (Reports.getFilteredData no_filter [one_sale]) ->
            (19875 - 29 <= localDay 0 (Sale.date s) <= 19875)%Z).
  { intros s [<-|[]]. vm_compute. split; intro H; discriminate H. }
  split; [exact Hclock|]. split; [exact Hrecent|].
  exact (dailySales_sums_to_totalSales 0 (steady_clock june_1st_2024)
           [one_sale] [] [] [] no_filter Hclock Hrecent).
Defined.

(** The two sales, with nothing selected on the Sales page. *)
Lemma sales_page_agrees_with_reports_witness :
  Sales.toLowerCase_ascii ""%string = ""%string
  /\ Sales.searchTerm nothing_selected = ""%string
  /\ Sales.selectedPaymentMethod nothing_selected = ""%string
  /\ Sales.totalSales Sales.toLowerCase_ascii nothing_selected two_sales
     == Reports.totalSales (Reports.getFilteredData no_filter two_sales).
Proof.
  split; [reflexivity|]. split; [reflexivity|]. split; [reflexivity|].
  exact (proj2 (proj2 (sales_page_agrees_with_reports
                         Sales.toLowerCase_ascii nothing_selected two_sales
                         eq_refl eq_refl eq_refl))).
Defined.

(** Three soaps at 25 with 10 percent off: between 0 and 75. *)
Lemma handleSubmit_totalAmount_bounds_witness :
  Sales.handleSubmit Sales.parseInt_decimal Sales.parseFloat_decimal
    [soap] two_shops None soap_form = Sales.Recorded soap_sale
  /\ exists t, Sales.ns_totalAmount soap_sale = Fin t /\ 0 <= t <= 25 * 3.
Proof.
  assert (Hrec : Sales.handleSubmit Sales.parseInt_decimal
                   Sales.parseFloat_decimal [soap] two_shops None soap_form
                 = Sales.Recorded soap_sale) by (vm_compute; reflexivity).
  split; [exact Hrec|].
  assert (Hp : 0 <= Sales.ns_unitPrice soap_sale) by discriminate.
  assert (Hq : 0 <= 3) by discriminate.
  assert (Hd : 0 <= 10 <= 100) by (split; discriminate).
  exact (handleSubmit_totalAmount_bounds Sales.parseInt_decimal
           Sales.parseFloat_decimal [soap] two_shops None soap_form
           Hrec eq_refl eq_refl Hp Hq Hd).
Defined.

(** Three soaps at 25 with the discount left empty: 75 shown, 75
    recorded. *)
Lemma previewTotal_is_recorded_total_witness :
  Sales.parseFloat_decimal "0"%string = Fin 0
  /\ Sales.parseFloat_decimal ""%string = NaN
  /\ Sales.handleSubmit Sales.parseInt_decimal Sales.parseFloat_decimal
       [soap] two_shops None soap_form_no_discount
     = Sales.Recorded soap_sale_no_discount
  /\ exists shown recorded,
       Sales.previewTotal Sales.parseInt_decimal Sales.parseFloat_decimal
         [soap] soap_form_no_discount = Some (Fin shown)
       /\ Sales.ns_totalAmount soap_sale_no_discount = Fin recorded
       /\ shown == recorded.
Proof.
  assert (Hzero : Sales.parseFloat_decimal "0"%string = Fin 0)
    by (vm_compute; reflexivity).
  assert (Hempty : Sales.parseFloat_decimal ""%string = NaN)
    by (vm_compute; reflexivity).
  assert (Hparsed : Sales.discount soap_form_no_discount <> ""%string ->
            exists d, Sales.parseFloat_decimal
                        (Sales.discount soap_form_no_discount) = Fin d)
    by (intro Hne; exfalso; apply Hne; reflexivity).
  assert (Hrec : Sales.handleSubmit Sales.parseInt_decimal
                   Sales.parseFloat_decimal [soap] two_shops None
                   soap_form_no_discount
                 = Sales.Recorded soap_sale_no_discount)
    by (vm_compute; reflexivity).
  split; [exact Hzero|]. split; [exact Hempty|]. split; [exact Hrec|].
  exact (previewTotal_is_recorded_total Sales.parseInt_decimal
           Sales.parseFloat_decimal [soap] two_shops None
           soap_form_no_discount Hzero Hempty Hparsed Hrec eq_refl).
Defined.

(** Two shops with one sale each. *)
Lemma salesByShop_transactions_total_witness :
  NoDup (map Shop.id two_shops)
  /\ fold_right Nat.add O
       (map Reports.ss_transactions
          (Reports.a_salesByShop
             (Reports.analytics 0 (steady_clock june_1st_2024)
                two_sales one_expense two_shops [soap] no_filter)))
     = 2%nat.
Proof.
  assert (Hdistinct : NoDup (map Shop.id two_shops)).
  { simpl. repeat constructor; simpl; intuition discriminate. }
  assert (Hsales : forall s,
            In s (Reports.getFilteredData no_filter two_sales) ->
            In (Sale.shopId s) (map Shop.id two_shops)).
  { intros s [<-|[<-|[]]]; simpl; tauto. }
  split; [exact Hdistinct|].
  exact (salesByShop_transactions_total 0 (steady_clock june_1st_2024)
           two_sales one_expense two_shops [soap] no_filter Hdistinct Hsales).
Defined.
